(** * The clean-and-load pipeline of Scripts/csv_to_db.py

    A shallow embedding of [list_csv_files], [clean_data], [insert_to_db]
    and [main], and the properties of the pipeline stated over it.

    Strings are the UTF-8 bytes of Python's strings. *)

From Stdlib Require Import List String Ascii ZArith Lia Bool Arith.
From Stdlib Require Import DecimalString.
From Stdlib Require DecimalZ DecimalPos.
Import ListNotations.
Open Scope list_scope.
Open Scope string_scope.

(** ** Python string primitives used by the script *)

Module PyStr.

Definition lower_ascii (c : ascii) : ascii :=
  let n := nat_of_ascii c in
  if Nat.leb 65 n && Nat.leb n 90 then ascii_of_nat (n + 32) else c.

(** The UTF-8 bytes of U+212A KELVIN SIGN, of U+0130 LATIN CAPITAL LETTER I
    WITH DOT ABOVE and of U+0307 COMBINING DOT ABOVE, before [rest]. *)
Definition kelvin (rest : string) : string :=
  String (ascii_of_nat 226) (String (ascii_of_nat 132) (String (ascii_of_nat 170) rest)).

Definition dotted (rest : string) : string :=
  String (ascii_of_nat 196) (String (ascii_of_nat 176) rest).

Definition dot_above (rest : string) : string :=
  String (ascii_of_nat 204) (String (ascii_of_nat 135) rest).

(** [s.lower()], as far as ASCII letters go.  An ASCII capital becomes its
    small letter.  Two more characters have an ASCII letter in their lower
    case: the Kelvin sign becomes k, and the dotted capital I becomes i
    followed by the combining dot.  The bytes of every other character stay
    as they are; Python may replace them by the bytes of another character
    outside ASCII, which changes no occurrence of an ASCII word. *)
Fixpoint lower (s : string) : string :=
  match s with
  | EmptyString => EmptyString
  | String c r =>
      match r with
      | String c2 r2 =>
          if Ascii.eqb c (ascii_of_nat 226) && Ascii.eqb c2 (ascii_of_nat 132) then
            match r2 with
            | String c3 r3 =>
                if Ascii.eqb c3 (ascii_of_nat 170) then String "k" (lower r3)
                else String (lower_ascii c) (lower r)
            | EmptyString => String (lower_ascii c) (lower r)
            end
          else if Ascii.eqb c (ascii_of_nat 196) && Ascii.eqb c2 (ascii_of_nat 176) then
            String "i" (dot_above (lower r2))
          else String (lower_ascii c) (lower r)
      | EmptyString => String (lower_ascii c) EmptyString
      end
  end.

(** [s.startswith(p)] *)
Definition startswith (p s : string) : bool := String.prefix p s.

(** [p in s] *)
Fixpoint contains (p s : string) : bool :=
  startswith p s ||
  match s with
  | EmptyString => false
  | String _ r => contains p r
  end.

(** [s.endswith(p)] *)
Fixpoint endswith (s p : string) : bool :=
  String.eqb s p ||
  match s with
  | EmptyString => false
  | String _ r => endswith r p
  end.

(** [str(n)] for a Python int *)
Definition str_of_Z (z : Z) : string := NilZero.string_of_int (Z.to_int z).

(** [str(n)] for a non-negative count such as [len(df)] *)
Definition str_of_nat (n : nat) : string := str_of_Z (Z.of_nat n).

End PyStr.

(** ** Directory walk

    [os.walk(root_dir)] with its default [onerror=None]: a directory that
    cannot be listed (missing, not a directory, permission denied) is
    skipped without an error, and a sub-directory that is a symbolic link is
    not entered.  A tree holds the file names of a directory in the order
    [scandir] reports them and its sub-directories; [None] stands for a
    directory that cannot be listed or is not entered. *)

#[warnings="-register-all"] Inductive dirtree : Type :=
| Dir (filenames : list string) (subdirs : list (string * option dirtree)).

(** [os.path.join(a, b)] on POSIX paths *)
Definition path_join (a b : string) : string :=
  if PyStr.startswith "/" b then b
  else if String.eqb a "" || PyStr.endswith a "/" then a ++ b
  else a ++ "/" ++ b.

Fixpoint walk (top : string) (t : dirtree) : list (string * list string) :=
  match t with
  | Dir filenames subdirs =>
      (top, filenames) ::
      flat_map (fun d =>
                  match snd d with
                  | Some t' => walk (path_join top (fst d)) t'
                  | None => []
                  end) subdirs
  end.

Definition os_walk (root : option dirtree) (root_dir : string)
  : list (string * list string) :=
  match root with
  | Some t => walk root_dir t
  | None => []
  end.

(** ** list_csv_files (lines 34-55) *)

Module Scanner.

Record counters : Type := mkCounters {
  csv_files : list string;
  unverified : nat;
  player_pos : nat;
  total : nat
}.

Definition init : counters := mkCounters [] 0 0 0.

Definition is_unverified (filename : string) : bool :=
  PyStr.contains "unverified" (PyStr.lower filename).

Definition is_player (filename : string) : bool :=
  PyStr.contains "playerpositioning" (PyStr.lower filename)
  || PyStr.contains "playertracking" (PyStr.lower filename).

Definition is_csv (filename : string) : bool :=
  PyStr.endswith (PyStr.lower filename) ".csv".

(** The body of the inner loop, lines 43-51. *)
Definition visit (dirpath : string) (c : counters) (filename : string) : counters :=
  if is_unverified filename then
    mkCounters (csv_files c) (unverified c + 1) (player_pos c) (total c)
  else if is_player filename then
    mkCounters (csv_files c) (unverified c) (player_pos c + 1) (total c)
  else if is_csv filename then
    mkCounters (csv_files c ++ [path_join dirpath filename])%list
               (unverified c) (player_pos c) (total c + 1)
  else c.

Definition visit_dir (c : counters) (entry : string * list string) : counters :=
  fold_left (visit (fst entry)) (snd entry) c.

(** The two nested loops, lines 41-51. *)
Definition scan (entries : list (string * list string)) : counters :=
  fold_left visit_dir entries init.

End Scanner.

(** ** Exceptions

    The exception classes the script meets, all below [Exception].
    [IntegrityError] is a subclass of [SQLAlchemyError]; [OtherException]
    stands for any class not named here (a pandas parser error, an
    [OSError] on open, a driver error that is not wrapped, ...). *)

Inductive exn : Type :=
| KeyError (key : string)
| IndexError (msg : string)
| TypeError (msg : string)
| AttributeError (msg : string)
| IntegrityError (orig : string) (msg : string)
| SQLAlchemyError (msg : string)
| OtherException (msg : string).

(** [str(e)] *)
Definition str_exn (e : exn) : string :=
  match e with
  | KeyError key => "'" ++ key ++ "'"
  | IndexError msg | TypeError msg | AttributeError msg => msg
  | IntegrityError _ msg => msg
  | SQLAlchemyError msg => msg
  | OtherException msg => msg
  end.

Inductive result (A : Type) : Type :=
| Ok (a : A)
| Raise (e : exn).
Arguments Ok {A} a.
Arguments Raise {A} e.

(** ** The part of pandas the script uses *)

Module Pandas.

(** [datetime.time] *)
Record time : Type := mkTime {
  hour : Z; minute : Z; second : Z; microsecond : Z
}.

(** [pandas.Timestamp] *)
Record timestamp : Type := mkTimestamp {
  year : Z; month : Z; day : Z; time_of_day : time; nanosecond : Z
}.

(** What an object column holds. *)
Inductive pyobj : Type :=
| OStr (s : string)
| OTime (t : time)
| ONaN
| ONaT.

(** A column with its dtype.  A finite float64 is kept as its [repr],
    the only thing the script observes of it; [None] is NaN, and NaT in a
    datetime64 column. *)
Inductive column : Type :=
| ColInt (l : list Z)
| ColFloat (l : list (option string))
| ColBool (l : list bool)
| ColObject (l : list pyobj)
| ColDatetime (l : list (option timestamp)).

(** One element of a column. *)
Inductive scalar : Type :=
| SInt (z : Z)
| SFloat (f : option string)
| SBool (b : bool)
| SObj (o : pyobj)
| STimestamp (t : option timestamp).

(** Column labels are pairwise distinct in what [read_csv] returns (it
    renames repeated headers). *)
Record frame : Type := mkFrame {
  index_len : nat;                       (* len(df) *)
  columns : list (string * column)
}.

Definition cells (c : column) : list scalar :=
  match c with
  | ColInt l => map SInt l
  | ColFloat l => map SFloat l
  | ColBool l => map SBool l
  | ColObject l => map SObj l
  | ColDatetime l => map STimestamp l
  end.

(** ** String forms *)

Fixpoint zfill (width : nat) (s : string) : string :=
  if Nat.leb width (String.length s) then s
  else match width with
       | O => s
       | S w => "0" ++ zfill w s
       end.

Definition pad (width : nat) (n : Z) : string := zfill width (PyStr.str_of_Z n).

(** [time.isoformat()] *)
Definition str_time (t : time) : string :=
  pad 2 (hour t) ++ ":" ++ pad 2 (minute t) ++ ":" ++ pad 2 (second t) ++
  (if Z.eqb (microsecond t) 0 then "" else "." ++ pad 6 (microsecond t)).

Definition str_timestamp (t : timestamp) : string :=
  pad 4 (year t) ++ "-" ++ pad 2 (month t) ++ "-" ++ pad 2 (day t) ++ " " ++
  (if Z.eqb (nanosecond t) 0 then str_time (time_of_day t)
   else let d := time_of_day t in
        pad 2 (hour d) ++ ":" ++ pad 2 (minute d) ++ ":" ++ pad 2 (second d) ++
        "." ++ pad 6 (microsecond d) ++ pad 3 (nanosecond t)).

Definition str_obj (o : pyobj) : string :=
  match o with
  | OStr s => s
  | OTime t => str_time t
  | ONaN => "nan"
  | ONaT => "NaT"
  end.

(** [str(x)], also what an f-string and [astype(str)] produce *)
Definition py_str (x : scalar) : string :=
  match x with
  | SInt z => PyStr.str_of_Z z
  | SFloat (Some r) => r
  | SFloat None => "nan"
  | SBool true => "True"
  | SBool false => "False"
  | SObj o => str_obj o
  | STimestamp (Some t) => str_timestamp t
  | STimestamp None => "NaT"
  end.

(** [series.astype(str)] *)
Definition astype_str (c : column) : column :=
  ColObject (map (fun x => OStr (py_str x)) (cells c)).

(** ** Frames *)

Fixpoint lookup (name : string) (cols : list (string * column)) : option column :=
  match cols with
  | [] => None
  | (n, c) :: rest => if String.eqb n name then Some c else lookup name rest
  end.

(** [df[name]] *)
Definition getitem (df : frame) (name : string) : result column :=
  match lookup name (columns df) with
  | Some c => Ok c
  | None => Raise (KeyError name)
  end.

Fixpoint assign (name : string) (c : column) (cols : list (string * column))
  : list (string * column) :=
  match cols with
  | [] => [(name, c)]
  | (n, c0) :: rest =>
      if String.eqb n name then (n, c) :: rest else (n, c0) :: assign name c rest
  end.

(** [df[name] = c] *)
Definition setitem (df : frame) (name : string) (c : column) : frame :=
  mkFrame (index_len df) (assign name c (columns df)).

(** [df.rename(columns={old: new}, inplace=True)] *)
Definition rename (old new : string) (df : frame) : frame :=
  mkFrame (index_len df)
          (map (fun nc => (if String.eqb (fst nc) old then new else fst nc, snd nc))
               (columns df)).

(** [series.iloc[0]] *)
Definition iloc0 (c : column) : result scalar :=
  match cells c with
  | x :: _ => Ok x
  | [] => Raise (IndexError "single positional indexer is out-of-bounds")
  end.

End Pandas.

(** ** A small error monad for code that may raise *)

Definition bind {A B : Type} (m : result A) (k : A -> result B) : result B :=
  match m with
  | Ok a => k a
  | Raise e => Raise e
  end.

Declare Scope exn_scope.
Delimit Scope exn_scope with exn.
Notation "x <- m ;; k" := (bind m (fun x => k))
  (at level 100, m at next level, right associativity) : exn_scope.

(** ** Parsing a time of day: [strptime] with the two formats of lines 60-61

    The field patterns are those of pandas' [strptime]: [%H] is
    [2[0-3]|[0-1]\d|\d], [%M] is [[0-5]\d|\d], [%S] is [6[0-1]|[0-5]\d|\d]
    and [%f] is [[0-9]{1,9}], read as nanoseconds; the whole string has to
    be consumed.  Digits are the ASCII digits.  A [Timestamp] keeps the
    nanoseconds; the [datetime.time] that [.dt.time] makes of it in line 62
    stops at the microsecond.  The leap-second spellings 60 and 61 of [%S]
    name no [datetime.time] and are taken as unparsable. *)

Module Strptime.
Import Pandas.

Inductive format : Type :=
| HMSf     (* '%H:%M:%S.%f' *)
| HMS.     (* '%H:%M:%S' *)

Definition digit (c : ascii) : option Z :=
  let n := nat_of_ascii c in
  if Nat.leb 48 n && Nat.leb n 57 then Some (Z.of_nat (n - 48)) else None.

(** A field of one or two digits; the two-digit alternatives, which go up
    to [hi], are tried first. *)
Definition field (hi : Z) (s : string) : option (Z * string) :=
  match s with
  | EmptyString => None
  | String c1 r1 =>
      match digit c1 with
      | None => None
      | Some d1 =>
          match r1 with
          | EmptyString => Some (d1, r1)
          | String c2 r2 =>
              match digit c2 with
              | Some d2 =>
                  if Z.leb (10 * d1 + d2) hi then Some (10 * d1 + d2, r2)%Z
                  else Some (d1, r1)
              | None => Some (d1, r1)
              end
          end
      end
  end.

Definition literal (c : ascii) (s : string) : option string :=
  match s with
  | String c' r => if Ascii.eqb c c' then Some r else None
  | EmptyString => None
  end.

(** At most [n] leading digits, greedily. *)
Fixpoint digits (n : nat) (s : string) : list Z * string :=
  match n, s with
  | S n', String c r =>
      match digit c with
      | Some d => let '(ds, rest) := digits n' r in (d :: ds, rest)
      | None => ([], s)
      end
  | _, _ => ([], s)
  end.

(** [%f]: one to nine digits, padded with zeros on the right; the value
    is in nanoseconds. *)
Definition fraction (s : string) : option (Z * string) :=
  match digits 9 s with
  | ([], _) => None
  | (ds, rest) =>
      Some (fold_left (fun acc d => 10 * acc + d) ds 0 * 10 ^ Z.of_nat (9 - List.length ds),
            rest)%Z
  end.

Definition opt_bind {A B : Type} (m : option A) (k : A -> option B) : option B :=
  match m with
  | Some a => k a
  | None => None
  end.

(** The time of day to the microsecond and the nanoseconds beyond it. *)
Definition strptime_ns (fmt : format) (s : string) : option (time * Z) :=
  opt_bind (field 23 s) (fun '(h, s1) =>
  opt_bind (literal ":" s1) (fun s2 =>
  opt_bind (field 59 s2) (fun '(m, s3) =>
  opt_bind (literal ":" s3) (fun s4 =>
  opt_bind (field 61 s4) (fun '(sec, s5) =>
  opt_bind (match fmt with
            | HMS => Some (0%Z, s5)
            | HMSf => opt_bind (literal "." s5) fraction
            end) (fun '(ns, s6) =>
  match s6 with
  | EmptyString =>
      if Z.leb sec 59 then Some (mkTime h m sec (ns / 1000), ns mod 1000)%Z else None
  | String _ _ => None
  end)))))).

(** The time of day alone, which is all a [datetime.time] holds. *)
Definition strptime (fmt : format) (s : string) : option time :=
  option_map fst (strptime_ns fmt s).

(** With no date in the format the date is 1900-01-01. *)
Definition at_1900 (t : time * Z) : timestamp := mkTimestamp 1900 1 1 (fst t) (snd t).

Definition parse (fmt : format) (s : string) : option timestamp :=
  option_map at_1900 (strptime_ns fmt s).

End Strptime.

(** ** clean_data (lines 57-69) *)

Section CleanData.
Import Pandas.
Local Open Scope exn_scope.

(** [pd.to_datetime(series, errors='coerce')] without a format: the
    inferring date parser, an external collaborator.  [None] is NaT. *)
Variable parse_dates : column -> list (option timestamp).

Definition bool_to_datetime : exn :=
  TypeError "dtype bool cannot be converted to datetime64[ns]".

Definition to_datetime (c : column) : result column :=
  match c with
  | ColDatetime _ => Ok c
  | ColBool _ => Raise bool_to_datetime
  | _ => Ok (ColDatetime (parse_dates c))
  end.

(** [pd.to_datetime(series, format=fmt, errors='coerce')].  A series that
    is already datetime64 comes back as it is.  Numbers are matched by
    their decimal form (a float is first read as integer nanoseconds),
    which has no colon. *)
Definition to_datetime_format (fmt : Strptime.format) (c : column) : result column :=
  match c with
  | ColDatetime _ => Ok c
  | ColBool _ => Raise bool_to_datetime
  | ColObject l =>
      Ok (ColDatetime (map (fun o => match o with
                                     | OStr s => Strptime.parse fmt s
                                     | _ => None
                                     end) l))
  | ColInt l => Ok (ColDatetime (map (fun z => Strptime.parse fmt (PyStr.str_of_Z z)) l))
  | ColFloat l => Ok (ColDatetime (map (fun _ => None) l))
  end.

Definition fill {A : Type} (a b : list (option A)) : list (option A) :=
  map (fun xy => match fst xy with
                 | Some x => Some x
                 | None => snd xy
                 end) (combine a b).

(** [a.fillna(b)] for two datetime64 series on the same index (the only
    use, line 61) *)
Definition fillna (a b : column) : column :=
  match a, b with
  | ColDatetime la, ColDatetime lb => ColDatetime (fill la lb)
  | _, _ => a
  end.

(** [series.dt.time] *)
Definition dt_time (c : column) : result column :=
  match c with
  | ColDatetime l =>
      Ok (ColObject (map (fun t => match t with
                                   | Some ts => OTime (time_of_day ts)
                                   | None => ONaT
                                   end) l))
  | _ => Raise (AttributeError "Can only use .dt accessor with datetimelike values")
  end.

(** [x + y] on two elements of object columns; [None] is a [TypeError].
    A null on either side is masked out and gives NaN. *)
Definition add_obj (x y : pyobj) : option pyobj :=
  match x, y with
  | (ONaN | ONaT), _ => Some ONaN
  | _, (ONaN | ONaT) => Some ONaN
  | OStr a, OStr b => Some (OStr (a ++ b))
  | _, _ => None
  end.

Fixpoint add_objs (xs ys : list pyobj) : option (list pyobj) :=
  match xs, ys with
  | x :: xs', y :: ys' =>
      match add_obj x y, add_objs xs' ys' with
      | Some z, Some zs => Some (z :: zs)
      | _, _ => None
      end
  | _, _ => Some []
  end.

Definition unsupported_operand : exn :=
  TypeError "unsupported operand type(s) for +".

(** [series + series] *)
Definition add_series (a b : column) : result column :=
  match a, b with
  | ColObject xs, ColObject ys =>
      match add_objs xs ys with
      | Some zs => Ok (ColObject zs)
      | None => Raise unsupported_operand
      end
  | _, _ => Raise unsupported_operand
  end.

(** [series + s] for a Python string [s] *)
Definition add_str (a : column) (s : string) : result column :=
  match a with
  | ColObject xs => add_series a (ColObject (map (fun _ => OStr s) xs))
  | _ => Raise unsupported_operand
  end.

Fixpoint has_dup (l : list string) : bool :=
  match l with
  | [] => false
  | x :: r => existsb (String.eqb x) r || has_dup r
  end.

(** Lines 66-67 for one column. *)
Definition stringify_column (c : column) : column :=
  match c with
  | ColObject _ => astype_str c
  | _ => c
  end.

(** Lines 65-67.  [df[col]] is a frame, which has no [dtype], when the
    label [col] occurs twice. *)
Definition stringify_objects (df : frame) : result frame :=
  if has_dup (map fst (columns df)) then
    Raise (AttributeError "'DataFrame' object has no attribute 'dtype'")
  else
    Ok (mkFrame (index_len df)
                (map (fun nc => (fst nc, stringify_column (snd nc))) (columns df))).

(** Lines 60-62, the three assignments to [df['Time']]. *)
Definition clean_time (df : frame) : result frame :=
  t <- getitem df "Time" ;;
  t1 <- to_datetime_format Strptime.HMSf t ;;
  let df := setitem df "Time" t1 in
  a <- getitem df "Time" ;;
  b <- getitem df "Time" ;;
  b' <- to_datetime_format Strptime.HMS b ;;
  let df := setitem df "Time" (fillna a b') in
  t2 <- getitem df "Time" ;;
  t3 <- dt_time t2 ;;
  Ok (setitem df "Time" t3).

Definition clean_data (df : frame) : result frame :=
  let df := rename "Top/Bottom" "Top_Bottom" df in
  d <- getitem df "Date" ;;
  d' <- to_datetime d ;;
  let df := setitem df "Date" d' in
  df <- clean_time df ;;
  g <- getitem df "GameID" ;;
  g' <- add_str g "_" ;;
  p <- getitem df "PitchNo" ;;
  r <- add_series g' (astype_str p) ;;
  let df := setitem df "RowID" r in
  stringify_objects df.

End CleanData.

(** ** Logging and the regular expression of line 76 *)

Inductive level : Type := INFO | ERROR.

Definition log_entry : Type := (level * string)%type.

Module Re.

Definition newline : ascii := ascii_of_nat 10.

Fixpoint strip_prefix (p s : string) : option string :=
  match p, s with
  | EmptyString, _ => Some s
  | String a p', String b s' => if Ascii.eqb a b then strip_prefix p' s' else None
  | String _ _, EmptyString => None
  end.

(** [(.*?)\)] : the shortest run of characters other than a newline that
    is followed by a closing parenthesis *)
Fixpoint group_to_paren (s : string) : option string :=
  match s with
  | EmptyString => None
  | String c r =>
      if Ascii.eqb c ")" then Some EmptyString
      else if Ascii.eqb c newline then None
      else option_map (String c) (group_to_paren r)
  end.

Definition match_here (s : string) : option string :=
  match strip_prefix "The duplicate key value is (" s with
  | Some r => group_to_paren r
  | None => None
  end.

(** [re.search(r"The duplicate key value is \((.*?)\)", s)], giving
    [match.group(1)] of the leftmost match *)
Fixpoint search_duplicate_key (s : string) : option string :=
  match match_here s with
  | Some key => Some key
  | None =>
      match s with
      | EmptyString => None
      | String _ r => search_duplicate_key r
      end
  end.

End Re.

(** ** State of a run

    What a run leaves behind: the log, the destination store, and the
    record of every [to_sql] call with the frame it was given and the
    exception it raised, if any. *)

Record state (DB : Type) : Type := mkState {
  log : list log_entry;
  db : DB;
  inserts : list (Pandas.frame * option exn)
}.
Arguments mkState {DB} log db inserts.
Arguments log {DB} s.
Arguments db {DB} s.
Arguments inserts {DB} s.

(** A statement runs from a state to a state and either returns or raises;
    what it did before raising stays done. *)
Definition prog (DB A : Type) : Type := state DB -> result A * state DB.

Definition ret {DB A : Type} (a : A) : prog DB A := fun s => (Ok a, s).

Definition raise {DB A : Type} (e : exn) : prog DB A := fun s => (Raise e, s).

Definition lift {DB A : Type} (r : result A) : prog DB A := fun s => (r, s).

Definition pbind {DB A B : Type} (m : prog DB A) (k : A -> prog DB B) : prog DB B :=
  fun s => match m s with
           | (Ok a, s') => k a s'
           | (Raise e, s') => (Raise e, s')
           end.

(** [try: body  except Exception as e: handler] *)
Definition try_except {DB A : Type} (body : prog DB A) (handler : exn -> prog DB A)
  : prog DB A :=
  fun s => match body s with
           | (Ok a, s') => (Ok a, s')
           | (Raise e, s') => handler e s'
           end.

Declare Scope prog_scope.
Delimit Scope prog_scope with prog.
Notation "x <- m ;; k" := (pbind m (fun x => k))
  (at level 100, m at next level, right associativity) : prog_scope.

(** A [for] loop that threads an accumulator. *)
Fixpoint for_each {DB A B : Type} (body : B -> A -> prog DB B) (l : list A) (acc : B)
  : prog DB B :=
  match l with
  | [] => ret acc
  | x :: r => pbind (body acc x) (for_each body r)
  end.

Definition logging {DB : Type} (lv : level) (msg : string) : prog DB unit :=
  fun s => (Ok tt, mkState (log s ++ [(lv, msg)])%list (db s) (inserts s)).

(** ** insert_to_db and main (lines 71-140) *)

(** What a run is given from outside. *)
Record world : Type := mkWorld {
  (** the destination store and [df.to_sql(name=table, con=engine,
      if_exists='append', index=False)]: the store afterwards and the
      exception raised, if any *)
  DB : Type;
  to_sql : DB -> string -> Pandas.frame -> DB * option exn;
  (** [pd.read_csv(file_path)] and the inferring date parser *)
  read_csv : string -> result Pandas.frame;
  parse_dates : Pandas.column -> list (option Pandas.timestamp);
  (** the directory tree below [root_dir] ([None] when it cannot be
      listed), [root_dir] itself (lines 95-96) and the table name *)
  root : option dirtree;
  root_dir : string;
  table : string;
  (** the resident-set figures of batch [k] as [:.2f] prints them, and the
      elapsed seconds likewise *)
  memory_before : nat -> string;
  memory_after : nat -> string;
  elapsed : string
}.

Section Pipeline.
Import Pandas.
Local Open Scope prog_scope.

Variable w : world.

Definition call_to_sql (df : frame) : prog (DB w) unit :=
  fun s =>
    let '(db', r) := to_sql w (db s) (table w) df in
    let s' := mkState (log s) db' (inserts s ++ [(df, r)])%list in
    match r with
    | None => (Ok tt, s')
    | Some e => (Raise e, s')
    end.

(** Lines 75-84: the three handlers, most specific class first. *)
Definition insert_handler (file_path : string) (e : exn) : prog (DB w) unit :=
  match e with
  | IntegrityError orig _ =>
      match Re.search_duplicate_key orig with
      | Some key =>
          logging ERROR ("Integrity error: Duplicate key '" ++ key ++ "' in " ++ file_path)
      | None => logging ERROR ("Integrity error: " ++ str_exn e)
      end
  | SQLAlchemyError _ =>
      logging ERROR ("SQLAlchemy error for " ++ file_path ++ ": " ++ str_exn e)
  | _ => logging ERROR ("Unhandled error for " ++ file_path ++ ": " ++ str_exn e)
  end.

Definition insert_to_db (df : frame) (file_path : string) : prog (DB w) unit :=
  try_except
    (_ <- call_to_sql df ;;
     logging INFO (file_path ++ " → Inserted " ++ PyStr.str_of_nat (index_len df) ++ " rows"))
    (insert_handler file_path).

(** [list_csv_files(root_dir)] *)
Definition list_csv_files : prog (DB w) (list string) :=
  let c := Scanner.scan (os_walk (root w) (root_dir w)) in
  _ <- logging INFO ("Files skipped: " ++ PyStr.str_of_nat (Scanner.unverified c) ++
                     " unverified, " ++ PyStr.str_of_nat (Scanner.player_pos c) ++
                     " player positioning") ;;
  _ <- logging INFO ("Total CSV files to process: " ++ PyStr.str_of_nat (Scanner.total c)) ;;
  ret (Scanner.csv_files c).

(** [x != 'D1'] *)
Definition ne_D1 (x : scalar) : bool :=
  match x with
  | SObj (OStr s) => negb (String.eqb s "D1")
  | _ => true
  end.

(** Lines 121-131: one file.  [total_rows] comes in and goes out. *)
Definition process_file (total_rows : nat) (file_path : string) : prog (DB w) nat :=
  try_except
    (df <- lift (read_csv w file_path) ;;
     lv <- lift (getitem df "Level") ;;
     first <- lift (iloc0 lv) ;;
     if ne_D1 first then
       _ <- logging INFO ("Skipped " ++ file_path ++ ", Level = " ++ py_str first) ;;
       ret total_rows
     else
       df <- lift (clean_data (parse_dates w) df) ;;
       _ <- insert_to_db df file_path ;;
       ret (total_rows + index_len df))
    (fun e =>
       _ <- logging ERROR ("Error reading " ++ file_path ++ ": " ++ str_exn e) ;;
       ret total_rows).

Definition batch_size : nat := 100.

(** [csv_files[i:i + batch_size]] for [i = k * batch_size] *)
Definition batch (csv_files : list string) (k : nat) : list string :=
  firstn batch_size (skipn (k * batch_size) csv_files).

(** Lines 117-134: batch number [k], counted from 0. *)
Definition process_batch (csv_files : list string) (total_rows : nat) (k : nat)
  : prog (DB w) nat :=
  total_rows <- for_each process_file (batch csv_files k) total_rows ;;
  _ <- logging INFO ("Processed batch " ++ PyStr.str_of_nat (k + 1) ++ " | Mem: " ++
                     memory_before w k ++ "MB → " ++ memory_after w k ++ "MB") ;;
  ret total_rows.

(** [range(0, len(csv_files), batch_size)] has this many elements. *)
Definition batch_count (csv_files : list string) : nat :=
  (List.length csv_files + (batch_size - 1)) / batch_size.

(** Lines 111-134: the loop over the batches; returns [total_rows]. *)
Definition process_batches (csv_files : list string) : prog (DB w) nat :=
  for_each (process_batch csv_files) (seq 0 (batch_count csv_files)) 0.

Definition main : prog (DB w) unit :=
  try_except
    (csv_files <- list_csv_files ;;
     match csv_files with
     | [] => logging INFO "No CSV files found."
     | _ :: _ =>
         total_rows <- process_batches csv_files ;;
         logging INFO ("Complete: " ++ PyStr.str_of_nat (List.length csv_files) ++
                       " files, " ++ PyStr.str_of_nat total_rows ++ " rows in " ++
                       elapsed w ++ " sec")
     end)
    (fun e => logging ERROR ("Fatal error: " ++ str_exn e)).

End Pipeline.

(** ** Notions the properties are stated with *)

Module Spec.
Import Pandas.
Local Open Scope exn_scope.

(** Every file the walk reports, with its directory, in order. *)
Definition seen (entries : list (string * list string)) : list (string * string) :=
  flat_map (fun e => map (pair (fst e)) (snd e)) entries.

Definition unverified_name (f : string * string) : bool :=
  Scanner.is_unverified (snd f).

Definition player_name (f : string * string) : bool :=
  negb (Scanner.is_unverified (snd f)) && Scanner.is_player (snd f).

Definition included_name (f : string * string) : bool :=
  negb (Scanner.is_unverified (snd f)) && negb (Scanner.is_player (snd f))
  && Scanner.is_csv (snd f).

Definition ignored_name (f : string * string) : bool :=
  negb (Scanner.is_unverified (snd f)) && negb (Scanner.is_player (snd f))
  && negb (Scanner.is_csv (snd f)).

(** The element of column [name] in row [i]. *)
Definition cell (df : frame) (name : string) (i : nat) : option scalar :=
  match lookup name (columns df) with
  | Some c => nth_error (cells c) i
  | None => None
  end.

(** Every column has one element per row. *)
Definition wf_frame (df : frame) : Prop :=
  forall name c, lookup name (columns df) = Some c ->
                 List.length (cells c) = index_len df.

(** [df['Level'].iloc[0]] *)
Definition first_level (df : frame) : result scalar :=
  lv <- getitem df "Level" ;; iloc0 lv.

(** What happens to a file before the store is touched: an exception, a
    skip with the level seen, or a cleaned frame. *)
Definition prepare (w : world) (file_path : string) : result (scalar + frame) :=
  df <- read_csv w file_path ;;
  first <- first_level df ;;
  if ne_D1 first then Ok (inl first)
  else df' <- clean_data (parse_dates w) df ;; Ok (inr df').

(** Rows handed to [to_sql], and rows of the calls that did not raise. *)
Definition rows_sent (calls : list (frame * option exn)) : nat :=
  list_sum (map (fun c => index_len (fst c)) calls).

Definition rows_inserted (calls : list (frame * option exn)) : nat :=
  list_sum (map (fun c => match snd c with
                          | None => index_len (fst c)
                          | Some _ => 0
                          end) calls).

(** A failure confined to one file: an exception before the insert, or
    one raised by the insert. *)
Inductive failure : Type :=
| BeforeInsert (e : exn)
| OnInsert (e : exn).

Inductive fails (w : world) (file_path : string) (s : state (DB w)) : failure -> Prop :=
| fails_before e :
    prepare w file_path = Raise e ->
    fails w file_path s (BeforeInsert e)
| fails_insert df db' e :
    prepare w file_path = Ok (inr df) ->
    to_sql w (db s) (table w) df = (db', Some e) ->
    fails w file_path s (OnInsert e).

(** The error line of each class of failure: read error, duplicate key
    (with the key when the driver's message shows it), other storage
    error, anything else. *)
Definition failure_line (file_path : string) (f : failure) : string :=
  match f with
  | BeforeInsert e => "Error reading " ++ file_path ++ ": " ++ str_exn e
  | OnInsert (IntegrityError orig msg) =>
      match Re.search_duplicate_key orig with
      | Some key => "Integrity error: Duplicate key '" ++ key ++ "' in " ++ file_path
      | None => "Integrity error: " ++ msg
      end
  | OnInsert (SQLAlchemyError msg) => "SQLAlchemy error for " ++ file_path ++ ": " ++ msg
  | OnInsert e => "Unhandled error for " ++ file_path ++ ": " ++ str_exn e
  end.

(** The line of a file skipped for its level. *)
Definition skipped_line (file_path : string) (v : scalar) : string :=
  "Skipped " ++ file_path ++ ", Level = " ++ py_str v.

(** From one point of a run to a later one the running total grows by
    the rows sent to the store, which are at least the rows the store
    took. *)
Definition grows {D : Type} (total : nat) (s : state D) (total' : nat) (s' : state D)
  : Prop :=
  rows_sent (inserts s') + total = rows_sent (inserts s) + total' /\
  rows_inserted (inserts s') + total <= rows_inserted (inserts s) + total'.

(** From [s] to [s'] every call of the store that raised has the error
    line of its class in the log, for one of the files [csv_files]. *)
Definition refusals_logged {D : Type} (csv_files : list string) (s s' : state D)
  : Prop :=
  exists lines calls,
    log s' = (log s ++ lines)%list /\
    inserts s' = (inserts s ++ calls)%list /\
    forall df e, In (df, Some e) calls ->
      exists file_path,
        In file_path csv_files /\
        In (ERROR, failure_line file_path (OnInsert e)) lines.

(** The three lines of a run that finds no file to load. *)
Definition no_files_log (c : Scanner.counters) : list log_entry :=
  [ (INFO, "Files skipped: " ++ PyStr.str_of_nat (Scanner.unverified c) ++
           " unverified, " ++ PyStr.str_of_nat (Scanner.player_pos c) ++
           " player positioning");
    (INFO, "Total CSV files to process: " ++ PyStr.str_of_nat (Scanner.total c));
    (INFO, "No CSV files found.") ].

Definition is_fatal (entry : log_entry) : bool :=
  match entry with
  | (ERROR, msg) => PyStr.startswith "Fatal error: " msg
  | (INFO, _) => false
  end.

End Spec.

(** ** Sample inputs *)

Module Sample.
Import Pandas.

(** A date parser that recognises nothing. *)
Definition no_dates (c : column) : list (option timestamp) :=
  map (fun _ => None) (cells c).

(** A table with the columns the script reads. *)
Definition table_of (lvl : list pyobj) (times games : list pyobj) (pitches : list Z)
  : frame :=
  mkFrame (List.length pitches)
          [ ("Date", ColObject (map (fun _ => OStr "2024-05-01") pitches));
            ("Time", ColObject times);
            ("Level", ColObject lvl);
            ("GameID", ColObject games);
            ("PitchNo", ColInt pitches);
            ("Top/Bottom", ColObject (map (fun _ => OStr "Top") pitches)) ].

Definition times_frame : frame :=
  mkFrame 3 [("Time", ColObject [OStr "14:05:30.123456"; OStr "14:05:30"; OStr "garbage"])].

Definition game_a : frame :=
  table_of [OStr "D1"; OStr "D1"; OStr "D1"]
           [OStr "14:05:30.123456"; OStr "14:05:30"; OStr "garbage"]
           [OStr "G1"; OStr "G1"; OStr "G1"] [7; 8; 9]%Z.

(** Two rows, the first of which is a pitch of [game_a] again. *)
Definition game_b : frame :=
  table_of [OStr "D1"; OStr "D1"] [OStr "15:00:00.000001"; OStr "15:00:01.5"]
           [OStr "G1"; OStr "G1"] [9; 10]%Z.

Definition game_ncaa : frame :=
  table_of [OStr "NCAA"] [OStr "16:00:00.25"] [OStr "G2"] [1]%Z.

(** A header and no rows. *)
Definition header_only : frame := table_of [] [] [] [].

(** A row whose GameID is missing. *)
Definition null_game : frame :=
  table_of [OStr "D1"; OStr "D1"] [OStr "14:05:30.1"; OStr "14:05:31.1"]
           [OStr "G1"; ONaN] [7; 8]%Z.

Definition files (file_path : string) : result frame :=
  if String.eqb file_path "/data/a.csv" then Ok game_a
  else if String.eqb file_path "/data/b.csv" then Ok game_b
  else if String.eqb file_path "/data/ncaa.csv" then Ok game_ncaa
  else if String.eqb file_path "/data/empty.csv" then Ok header_only
  else Raise (OtherException "No columns to parse from file").

(** A store that keeps the RowIDs it holds and refuses a frame that
    brings one of them again. *)
Definition row_ids (df : frame) : list string :=
  match lookup "RowID" (columns df) with
  | Some c => map py_str (cells c)
  | None => []
  end.

Definition unique_to_sql (stored : list string) (table : string) (df : frame)
  : list string * option exn :=
  match find (fun k => existsb (String.eqb k) stored) (row_ids df) with
  | Some k =>
      (stored,
       Some (IntegrityError
               ("Violation of PRIMARY KEY constraint 'PK_pitches'. The duplicate key value is ("
                ++ k ++ ").")
               "(pyodbc.IntegrityError) Violation of PRIMARY KEY constraint"))
  | None => ((stored ++ row_ids df)%list, None)
  end.

Definition world_at (root : option dirtree) : world :=
  mkWorld (list string) unique_to_sql files no_dates root "/data" "pitches"
          (fun _ => "100.00") (fun _ => "101.00") "0.50".

Definition start : state (list string) := mkState [] [] [].

(** The store once the rows of [game_a] are in it. *)
Definition holding_game_a : state (list string) :=
  mkState [] ["G1_7"; "G1_8"; "G1_9"] [].

(** What the store raises when [game_b] follows [game_a]. *)
Definition duplicate_error : exn :=
  IntegrityError
    "Violation of PRIMARY KEY constraint 'PK_pitches'. The duplicate key value is (G1_9)."
    "(pyodbc.IntegrityError) Violation of PRIMARY KEY constraint".


(** The root directory holds nothing to load. *)
Definition nothing_to_load : world :=
  world_at (Some (Dir ["game_unverified.csv"; "notes.txt"] [])).

Definition two_games : world := world_at (Some (Dir ["a.csv"; "b.csv"] [])).

End Sample.

(** ** What a run does, file by file *)

Module Effects.
Import Pandas Spec.

(** The cleaned tables of the files that reach the insert, in order. *)
Definition cleaned (w : world) (files : list string) : list frame :=
  flat_map (fun file_path => match prepare w file_path with
                             | Ok (inr df) => [df]
                             | _ => []
                             end) files.

(** The store after one more [to_sql]. *)
Definition store_after (w : world) (d : DB w) (df : frame) : DB w :=
  fst (to_sql w d (table w) df).

(** From [(total, s)] to [(total', s')] the files [files] were worked
    through and [extra] further lines logged: the total grew by the rows of
    their cleaned tables, the store received exactly these tables in order,
    and the log grew by one line per file and the extra lines, none of them
    a fatal entry. *)
Definition worked_through (w : world) (files : list string) (extra : nat)
  (total : nat) (s : state (DB w)) (total' : nat) (s' : state (DB w)) : Prop :=
  total' = total + list_sum (map index_len (cleaned w files)) /\
  map fst (inserts s') = (map fst (inserts s) ++ cleaned w files)%list /\
  db s' = fold_left (store_after w) (cleaned w files) (db s) /\
  exists lines,
    log s' = (log s ++ lines)%list /\
    List.length lines = List.length files + extra /\
    forallb (fun e => negb (is_fatal e)) lines = true.

(** The last line of a run that found files. *)
Definition complete_line (w : world) (csv_files : list string) (total_rows : nat)
  : log_entry :=
  (INFO, "Complete: " ++ PyStr.str_of_nat (List.length csv_files) ++ " files, " ++
         PyStr.str_of_nat total_rows ++ " rows in " ++ elapsed w ++ " sec").

(** The two lines of the scanner. *)
Definition scanner_lines (c : Scanner.counters) : list log_entry :=
  [ (INFO, "Files skipped: " ++ PyStr.str_of_nat (Scanner.unverified c) ++
           " unverified, " ++ PyStr.str_of_nat (Scanner.player_pos c) ++
           " player positioning");
    (INFO, "Total CSV files to process: " ++ PyStr.str_of_nat (Scanner.total c)) ].

End Effects.

(** ** What a cleaned table looks like *)

Module CleanSpec.
Import Pandas.

(** Every column, shadowed or not, has one element per row. *)
Definition full (df : frame) : Prop :=
  Forall (fun nc => List.length (cells (snd nc)) = index_len df) (columns df).

(** The date parser answers with one value per element. *)
Definition keeps_length (parse_dates : column -> list (option timestamp)) : Prop :=
  forall c, List.length (parse_dates c) = List.length (cells c).

Definition is_text (o : pyobj) : bool :=
  match o with
  | OStr _ => true
  | _ => false
  end.

(** An object column holds strings only; other dtypes pass. *)
Definition only_text (c : column) : bool :=
  match c with
  | ColObject l => forallb is_text l
  | _ => true
  end.

(** The label of a column after line 58. *)
Definition clean_label (n : string) : string :=
  if String.eqb n "Top/Bottom" then "Top_Bottom" else n.


Fixpoint has_char (c : ascii) (s : string) : bool :=
  match s with
  | EmptyString => false
  | String a r => Ascii.eqb a c || has_char c r
  end.

End CleanSpec.

(** ** Names as [scandir] gives them *)

(** No file or directory name of the tree begins with a slash. *)
Fixpoint plain_names (t : dirtree) : bool :=
  match t with
  | Dir filenames subdirs =>
      forallb (fun f => negb (PyStr.startswith "/" f)) filenames &&
      forallb (fun d => negb (PyStr.startswith "/" (fst d)) &&
                        match snd d with
                        | Some t' => plain_names t'
                        | None => true
                        end) subdirs
  end.

(** ** The directory of yesterday (csv_to_db.py lines 29-32 and 95-96,
       ftp_csv_downloader.py lines 19-22) *)

Module DateDir.
Local Open Scope exn_scope.

(** The date part of [datetime.now()]. *)
Record date : Type := mkDate { year : Z; month : Z; day : Z }.

Definition is_leap (y : Z) : bool :=
  (y mod 4 =? 0)%Z && (negb (y mod 100 =? 0)%Z || (y mod 400 =? 0)%Z).

Definition days_in_month (y m : Z) : Z :=
  if (m =? 2)%Z then (if is_leap y then 29 else 28)%Z
  else if (m =? 4)%Z || (m =? 6)%Z || (m =? 9)%Z || (m =? 11)%Z then 30%Z
  else 31%Z.

(** A date of the calendar, from 0001-01-01 on. *)
Definition valid (d : date) : Prop :=
  (1 <= year d /\ 1 <= month d <= 12 /\ 1 <= day d <= days_in_month (year d) (month d))%Z.

(** [today - timedelta(days=1)]; no day comes before 0001-01-01. *)
Definition yesterday (today : date) : result date :=
  if (1 <? day today)%Z then Ok (mkDate (year today) (month today) (day today - 1))
  else if (1 <? month today)%Z then
    Ok (mkDate (year today) (month today - 1)
               (days_in_month (year today) (month today - 1)))
  else if (1 <? year today)%Z then Ok (mkDate (year today - 1) 12 31)
  else Raise (OtherException "date value out of range").

(** The day after, to state what [yesterday] is. *)
Definition next_day (d : date) : date :=
  if (day d <? days_in_month (year d) (month d))%Z then
    mkDate (year d) (month d) (day d + 1)
  else if (month d <? 12)%Z then mkDate (year d) (month d + 1) 1
  else mkDate (year d + 1) 1 1.

(** [f"/v3/{d.year}/{d.strftime('%m')}/{d.strftime('%d')}"] *)
Definition v3_dir (d : date) : string :=
  "/v3/" ++ PyStr.str_of_Z (year d) ++ "/" ++ Pandas.pad 2 (month d) ++ "/" ++
  Pandas.pad 2 (day d).

Definition get_yesterday_dir (today : date) : result string :=
  y <- yesterday today ;; Ok (v3_dir y).

(** The downloader's directory on the server. *)
Definition get_yesterday_remote_dir (today : date) : result string :=
  y <- yesterday today ;; Ok (v3_dir y ++ "/CSV").

(** [s.lstrip('/')] *)
Fixpoint lstrip_slash (s : string) : string :=
  match s with
  | EmptyString => EmptyString
  | String c r => if Ascii.eqb c "/" then lstrip_slash r else s
  end.

(** Lines 92-96 of csv_to_db.py: [local_base] is [None] when the variable
    LOCAL_BASE_DIR is not set. *)
Definition root_dir_of (local_base : option string) (today : date) : result string :=
  yesterday_dir <- get_yesterday_dir today ;;
  match local_base with
  | Some base => Ok (path_join base (lstrip_slash yesterday_dir))
  | None => Raise (TypeError "expected str, bytes or os.PathLike object, not NoneType")
  end.

End DateDir.

(** ** ftp_csv_downloader.py *)

Module Ftp.

(** What the script meets during a run.  The server: connecting and
    logging in, changing to a directory, listing it, retrieving a file of
    it (the bytes that arrived, and the exception that ended the transfer,
    if any), and quitting.  The local disk: what [open(path, "wb")] does
    with a path, which is to raise, or to open a file of the target
    directory, named by its entry there, or to open a file somewhere else
    ([None]).  Exceptions are those below [Exception]. *)
Record server : Type := mkServer {
  connect : option exn;
  cwd : string -> option exn;
  nlst : string -> result (list string);
  retr : string -> string -> string * option exn;
  quit : option exn;
  opens : string -> result (option string)
}.

(** What a run leaves behind: the files of the local target directory
    with their content, what was printed, the lines appended to
    ftp_log.txt (without their time stamp), and whether the session was
    closed. *)
Record session : Type := mkSession {
  local : list (string * string);
  printed : list string;
  ftp_log : list string;
  closed : bool
}.

Definition print (line : string) (ss : session) : session :=
  mkSession (local ss) (printed ss ++ [line])%list (ftp_log ss) (closed ss).

(** [os.listdir(local_dir_target)] *)
Definition listdir (ss : session) : list string := map fst (local ss).

Fixpoint put (name content : string) (files : list (string * string))
  : list (string * string) :=
  match files with
  | [] => [(name, content)]
  | (n, c) :: rest =>
      if String.eqb n name then (n, content) :: rest else (n, c) :: put name content rest
  end.

Fixpoint content_of (name : string) (files : list (string * string)) : option string :=
  match files with
  | [] => None
  | (n, c) :: rest => if String.eqb n name then Some c else content_of name rest
  end.

(** The file [name] of the target directory now holds [content]. *)
Definition write (name content : string) (ss : session) : session :=
  mkSession (put name content (local ss)) (printed ss) (ftp_log ss) (closed ss).

(** Lines 32-38. *)
Definition keeps (filename : string) : bool :=
  PyStr.endswith (PyStr.lower filename) ".csv"
  && negb (PyStr.contains "unverified" (PyStr.lower filename)).

Definition list_remote_csvs (srv : server) (remote_dir : string) : result (list string) :=
  match cwd srv remote_dir with
  | Some e => Raise e
  | None =>
      match nlst srv remote_dir with
      | Ok names => Ok (filter keeps names)
      | Raise e => Raise e
      end
  end.

(** A name without a path component: [os.path.join] puts it right below
    the directory, and no entry of a directory is named otherwise. *)
Definition plain (filename : string) : bool :=
  negb (CleanSpec.has_char "/" filename)
  && negb (String.eqb filename "")
  && negb (String.eqb filename ".")
  && negb (String.eqb filename "..").

(** [open(os.path.join(local_dir_target, filename), "wb")]: where the file
    is, if it can be opened.  For a plain name it is the entry of that
    name; a name with a path component may lead to another entry, as
    "./a.csv" does, or out of the directory. *)
Definition open_wb (srv : server) (local_dir_target filename : string)
  : result (option string) :=
  match opens srv (path_join local_dir_target filename) with
  | Raise e => Raise e
  | Ok entry => Ok (if plain filename then Some filename else entry)
  end.

(** The opened file now holds [content]. *)
Definition write_opened (f : option string) (content : string) (ss : session)
  : session :=
  match f with
  | Some entry => write entry content ss
  | None => ss
  end.

(** Lines 47-56: the loop, with [local_files] as listed before it. *)
Fixpoint download_loop (srv : server) (remote_dir local_dir_target : string)
  (local_files remote_files : list string) (downloaded_count : nat) (ss : session)
  : result nat * session :=
  match remote_files with
  | [] => (Ok downloaded_count, ss)
  | filename :: rest =>
      if existsb (String.eqb filename) local_files then
        download_loop srv remote_dir local_dir_target local_files rest downloaded_count
                      (print ("Already exists: " ++ filename) ss)
      else
        let local_path := path_join local_dir_target filename in
        match open_wb srv local_dir_target filename with
        | Raise e => (Raise e, ss)
        | Ok f =>
            let ss := write_opened f "" ss in
            let ss :=
              print ("Downloading " ++ filename ++ " to " ++ local_path ++ "...") ss in
            let '(bytes, r) := retr srv remote_dir filename in
            let ss := write_opened f bytes ss in
            match r with
            | Some e => (Raise e, ss)
            | None =>
                download_loop srv remote_dir local_dir_target local_files rest
                              (downloaded_count + 1)
                              (print ("Downloaded: " ++ filename) ss)
            end
        end
  end.

(** Lines 40-58.  LOCAL_BASE_DIR is taken as set. *)
Definition download_new_files (srv : server) (local_base remote_dir : string)
  (remote_files : list string) (ss : session) : result nat * session :=
  let local_dir_target := path_join local_base (DateDir.lstrip_slash remote_dir) in
  download_loop srv remote_dir local_dir_target (listdir ss) remote_files 0 ss.

Definition write_log (message : string) (ss : session) : session :=
  mkSession (local ss) (printed ss) (ftp_log ss ++ [message])%list (closed ss).

(** Lines 75-88: the [try] with its handler; gives [log_message]. *)
Definition attempt (srv : server) (local_base remote_dir : string) (ss : session)
  : string * session :=
  match list_remote_csvs srv remote_dir with
  | Raise e =>
      let m := "Error: " ++ str_exn e in (m, print m ss)
  | Ok [] =>
      let m := "No CSV files found on server." in (m, print m ss)
  | Ok remote_csvs =>
      match download_new_files srv local_base remote_dir remote_csvs ss with
      | (Ok downloaded, ss') =>
          (if Nat.eqb downloaded 0 then "Files already exist. No new downloads."
           else "Downloaded " ++ PyStr.str_of_nat downloaded ++ " new file(s).", ss')
      | (Raise e, ss') =>
          let m := "Error: " ++ str_exn e in (m, print m ss')
      end
  end.

(** Lines 68-92, for a given server directory. *)
Definition run (srv : server) (local_base remote_dir : string) (ss : session)
  : result unit * session :=
  let ss := print ("Targeting FTP folder: " ++ remote_dir) ss in
  match connect srv with
  | Some e => (Raise e, ss)
  | None =>
      let '(log_message, ss) := attempt srv local_base remote_dir ss in
      match quit srv with
      | Some e => (Raise e, ss)
      | None =>
          let ss := mkSession (local ss) (printed ss) (ftp_log ss) true in
          (Ok tt, write_log log_message ss)
      end
  end.

Definition main (srv : server) (local_base : string) (today : DateDir.date)
  (ss : session) : result unit * session :=
  match DateDir.get_yesterday_remote_dir today with
  | Ok remote_dir => run srv local_base remote_dir ss
  | Raise e => (Raise e, ss)
  end.

(** A server whose files all arrive. *)
Definition serves (srv : server) (remote_dir : string) : Prop :=
  forall filename, snd (retr srv remote_dir filename) = None.

(** A disk on which every file of the target directory can be opened. *)
Definition opens_all (srv : server) (local_base remote_dir : string) : Prop :=
  forall filename,
    exists f,
      opens srv (path_join (path_join local_base (DateDir.lstrip_slash remote_dir))
                           filename) = Ok f.

(** The listing names files of the directory itself. *)
Definition plain_listing (remote_files : list string) : Prop :=
  Forall (fun f => plain f = true) remote_files.

(** How often a name outside [local_files] occurs in [remote_files]. *)
Definition missing (local_files remote_files : list string) : nat :=
  List.length (filter (fun f => negb (existsb (String.eqb f) local_files)) remote_files).

End Ftp.

(** ** More sample inputs *)

Module Sample2.
Import Pandas.

(** [Sample.game_b] as the cleaner leaves it. *)
Definition cleaned_game_b : frame :=
  match clean_data Sample.no_dates Sample.game_b with
  | Ok df => df
  | Raise _ => Sample.game_b
  end.

(** A table in which a pitch is recorded twice. *)
Definition twice : frame :=
  Sample.table_of [OStr "D1"; OStr "D1"] [OStr "14:05:30.5"; OStr "14:05:30.5"]
                  [OStr "G1"; OStr "G1"] [7; 7]%Z.

(** A server with four names in its directory, whose transfers succeed. *)
Definition good_server : Ftp.server :=
  Ftp.mkServer None (fun _ => None)
               (fun _ => Ok ["a.csv"; "b_unverified.csv"; "c.CSV"; "notes.txt"]%string)
               (fun _ name => ("bytes of " ++ name, None))
               None (fun _ => Ok None).

(** The same server when the transfer of a.csv breaks off. *)
Definition broken_server : Ftp.server :=
  Ftp.mkServer None (fun _ => None)
               (fun _ => Ok ["a.csv"; "b_unverified.csv"; "c.CSV"; "notes.txt"]%string)
               (fun _ name => if String.eqb name "a.csv"
                              then ("byt", Some (OtherException "timed out"))
                              else ("bytes of " ++ name, None))
               None (fun _ => Ok None).

Definition fresh : Ftp.session := Ftp.mkSession [] [] [] false.

(** The target directory once both files have arrived. *)
Definition filled : Ftp.session :=
  Ftp.mkSession [("a.csv", "bytes of a.csv"); ("c.CSV", "bytes of c.CSV")]%string [] [] false.

End Sample2.

(** ** Words in a name, case ignored *)

Module Words.
Import PyStr.

(** [c] is a small ASCII letter and [C] its capital. *)
Definition capital_of (C c : ascii) : Prop :=
  exists n, 97 <= n <= 122 /\ c = ascii_of_nat n /\ C = ascii_of_nat (n - 32).

(** [text] spells [word] when case is ignored: byte for byte the same, or a
    capital for a small letter, or the Kelvin sign for k. *)
Inductive spells : string -> string -> Prop :=
| spells_end : spells "" ""
| spells_same c text word :
    spells text word -> spells (String c text) (String c word)
| spells_capital C c text word :
    capital_of C c -> spells text word -> spells (String C text) (String c word)
| spells_kelvin text word :
    spells text word -> spells (kelvin text) (String "k" word).

Definition begins (word name : string) : Prop :=
  exists text after, name = text ++ after /\ spells text word.

(** The name contains the word, case ignored. *)
Definition mentions (word name : string) : Prop :=
  exists before text after, name = before ++ text ++ after /\ spells text word.

(** The name ends in the word, case ignored. *)
Definition ends_with (word name : string) : Prop :=
  exists stem text, name = stem ++ text /\ spells text word.

(** A word of small letters, digits and signs of ASCII that does not end in
    i: the words the scripts look for are of this kind. *)
Definition plain_char (c : ascii) : bool :=
  let n := nat_of_ascii c in
  Nat.ltb n 128 && negb (Nat.leb 65 n && Nat.leb n 90).

Fixpoint plain_word (w : string) : bool :=
  match w with
  | EmptyString => true
  | String c r =>
      plain_char c
      && match r with EmptyString => negb (Ascii.eqb c "i") | _ => true end
      && plain_word r
  end.

(** How [lower] reads a string: nothing left, one of the two characters it
    knows, or one byte. *)
Inductive shape : string -> Prop :=
| shape_nil : shape ""
| shape_kelvin r : shape (kelvin r)
| shape_dotted r : shape (dotted r)
| shape_byte c r :
    (forall r', String c r <> kelvin r') ->
    (forall r', String c r <> dotted r') ->
    shape (String c r).

(** The groups of names the scanner tells apart. *)
Definition unverified_word (name : string) : Prop := mentions "unverified" name.

Definition player_word (name : string) : Prop :=
  mentions "playerpositioning" name \/ mentions "playertracking" name.

Definition csv_suffix (name : string) : Prop := ends_with ".csv" name.

(** [tallied fs u p l i]: of the files [fs], each with its directory, [u]
    have an unverified name, [p] of the others a player-tracking name, [l]
    lists in order the paths of those left that end in ".csv", and [i] are
    none of these. *)
Inductive tallied : list (string * string) -> nat -> nat -> list string -> nat -> Prop :=
| tallied_none : tallied [] 0 0 [] 0
| tallied_unverified d n fs u p l i :
    unverified_word n ->
    tallied fs u p l i -> tallied ((d, n) :: fs) (S u) p l i
| tallied_player d n fs u p l i :
    ~ unverified_word n -> player_word n ->
    tallied fs u p l i -> tallied ((d, n) :: fs) u (S p) l i
| tallied_included d n fs u p l i :
    ~ unverified_word n -> ~ player_word n -> csv_suffix n ->
    tallied fs u p l i -> tallied ((d, n) :: fs) u p (path_join d n :: l) i
| tallied_ignored d n fs u p l i :
    ~ unverified_word n -> ~ player_word n -> ~ csv_suffix n ->
    tallied fs u p l i -> tallied ((d, n) :: fs) u p l (S i).

End Words.

(** * Properties *)

(** ** Words and the lower case *)

Module WordFacts.
Import PyStr Words.

Lemma shape_of (n : string) : shape n.
Proof.
  destruct n as [|c r]; [constructor|].
  destruct (Ascii.eqb_spec c (ascii_of_nat 226)) as [E|E].
  - subst c. destruct r as [|c2 r]; [constructor; intros r' H; discriminate|].
    destruct (Ascii.eqb_spec c2 (ascii_of_nat 132)) as [E2|E2].
    + subst c2. destruct r as [|c3 r]; [constructor; intros r' H; discriminate|].
      destruct (Ascii.eqb_spec c3 (ascii_of_nat 170)) as [E3|E3].
      * subst c3. apply shape_kelvin.
      * constructor; intros r' H; [injection H; congruence | discriminate].
    + constructor; intros r' H; [injection H; congruence | discriminate].
  - destruct (Ascii.eqb_spec c (ascii_of_nat 196)) as [F|F].
    + subst c. destruct r as [|c2 r]; [constructor; intros r' H; discriminate|].
      destruct (Ascii.eqb_spec c2 (ascii_of_nat 176)) as [E2|E2].
      * subst c2. apply shape_dotted.
      * constructor; intros r' H; [discriminate | injection H; congruence].
    + constructor; intros r' H; injection H; congruence.
Qed.

Lemma lower_kelvin r : lower (kelvin r) = String "k" (lower r).
Proof. reflexivity. Qed.

Lemma lower_dotted r : lower (dotted r) = String "i" (dot_above (lower r)).
Proof. reflexivity. Qed.

Lemma lower_byte c r :
  (forall r', String c r <> kelvin r') ->
  (forall r', String c r <> dotted r') ->
  lower (String c r) = String (lower_ascii c) (lower r).
Proof.
  intros K D. destruct r as [|c2 r2]; [reflexivity|].
  cbn [lower].
  destruct (Ascii.eqb_spec c (ascii_of_nat 226)) as [E|E].
  - destruct (Ascii.eqb_spec c2 (ascii_of_nat 132)) as [E2|E2]; cbn [andb].
    + destruct r2 as [|c3 r3]; [reflexivity|].
      destruct (Ascii.eqb_spec c3 (ascii_of_nat 170)) as [E3|E3]; [|reflexivity].
      subst. now elim (K r3).
    + subst c. reflexivity.
  - cbn [andb].
    destruct (Ascii.eqb_spec c (ascii_of_nat 196)) as [F|F]; [|reflexivity].
    destruct (Ascii.eqb_spec c2 (ascii_of_nat 176)) as [E2|E2]; [|reflexivity].
    subst. now elim (D r2).
Qed.

Lemma lower_induction (P : string -> Prop) :
  P "" ->
  (forall r, P r -> P (kelvin r)) ->
  (forall r, P r -> P (dotted r)) ->
  (forall c r, (forall r', String c r <> kelvin r') ->
               (forall r', String c r <> dotted r') -> P r -> P (String c r)) ->
  forall n, P n.
Proof.
  intros Hn Hk Hd Hb.
  assert (A : forall k n, String.length n <= k -> P n).
  { induction k as [|k IH]; intros n L.
    - destruct n; [exact Hn | simpl in L; lia].
    - destruct (shape_of n) as [|r|r|c r K D].
      + exact Hn.
      + apply Hk, IH. simpl in L. lia.
      + apply Hd, IH. simpl in L. lia.
      + apply Hb; trivial. apply IH. simpl in L. lia. }
  intros n. now apply (A (String.length n)).
Qed.


(** *** Letters *)

Lemma plain_char_spec c :
  plain_char c = true ->
  nat_of_ascii c < 128 /\ ~ (65 <= nat_of_ascii c <= 90).
Proof.
  unfold plain_char. cbv zeta. intros H.
  apply andb_prop in H as [A B]. apply Nat.ltb_lt in A.
  split; [exact A|]. intros [U V].
  apply Nat.leb_le in U, V. rewrite U, V in B. discriminate.
Qed.

Lemma lower_plain c : plain_char c = true -> lower_ascii c = c.
Proof.
  intros H. apply plain_char_spec in H as [_ H]. unfold lower_ascii. cbv zeta.
  destruct (Nat.leb_spec 65 (nat_of_ascii c)); [|reflexivity].
  destruct (Nat.leb_spec (nat_of_ascii c) 90); [|reflexivity].
  elim H. lia.
Qed.

Lemma capital_nat C c :
  capital_of C c -> 65 <= nat_of_ascii C <= 90 /\ nat_of_ascii c = nat_of_ascii C + 32.
Proof.
  intros (n & R & -> & ->).
  rewrite !nat_ascii_embedding by lia. lia.
Qed.

Lemma lower_capital C c : capital_of C c -> lower_ascii C = c.
Proof.
  intros H. destruct (capital_nat _ _ H) as [R E].
  unfold lower_ascii. cbv zeta.
  destruct (Nat.leb_spec 65 (nat_of_ascii C)); [|lia].
  destruct (Nat.leb_spec (nat_of_ascii C) 90); [|lia].
  cbn [andb]. rewrite <- E. apply ascii_nat_embedding.
Qed.

Lemma lower_ascii_cases c :
  lower_ascii c = c \/ capital_of c (lower_ascii c).
Proof.
  unfold lower_ascii. cbv zeta.
  destruct (Nat.leb_spec 65 (nat_of_ascii c)); [|now left].
  destruct (Nat.leb_spec (nat_of_ascii c) 90); [|now left].
  right. cbn [andb]. exists (nat_of_ascii c + 32). split; [lia|]. split; [reflexivity|].
  replace (nat_of_ascii c + 32 - 32) with (nat_of_ascii c) by lia.
  symmetry. apply ascii_nat_embedding.
Qed.

(** A byte of a plain word opens neither the Kelvin sign nor the dotted
    capital I. *)
Lemma low_byte_shape c r :
  nat_of_ascii c < 128 ->
  (forall r', String c r <> kelvin r') /\ (forall r', String c r <> dotted r').
Proof.
  intros L. split; intros r' E; injection E as -> _;
    rewrite nat_ascii_embedding in L; lia.
Qed.

Lemma spells_nonempty text c w : spells text (String c w) -> text <> "".
Proof. intros H E. subst. inversion H. Qed.

(** The first byte of a text that spells a plain word. *)
Lemma spells_first x t c w :
  plain_char c = true -> spells (String x t) (String c w) ->
  nat_of_ascii x < 128 \/ x = ascii_of_nat 226.
Proof.
  intros Pc H. apply plain_char_spec in Pc as [L _].
  inversion H; subst.
  - now left.
  - left. match goal with K : capital_of _ _ |- _ => apply capital_nat in K end. lia.
  - now right.
Qed.

(** *** Lower case of a text that spells a word *)

Lemma lower_spelled text w :
  spells text w -> plain_word w = true ->
  forall after, lower (text ++ after) = w ++ lower after.
Proof.
  induction 1 as [|c text w H IH|C c text w Hc H IH|text w H IH]; intros Pw after.
  - reflexivity.
  - cbn [plain_word] in Pw. apply andb_prop in Pw as [Pw Pr].
    apply andb_prop in Pw as [Pc _].
    cbn [append].
    destruct (low_byte_shape c (text ++ after)) as [K D];
      [apply plain_char_spec in Pc; tauto|].
    rewrite lower_byte, lower_plain, IH; trivial.
  - cbn [plain_word] in Pw. apply andb_prop in Pw as [Pw Pr].
    cbn [append].
    destruct (low_byte_shape C (text ++ after)) as [K D];
      [apply capital_nat in Hc; lia|].
    rewrite lower_byte, (lower_capital _ _ Hc), IH; trivial.
  - cbn [plain_word] in Pw. apply andb_prop in Pw as [Pw Pr].
    change (kelvin text ++ after) with (kelvin (text ++ after)).
    rewrite lower_kelvin, IH; trivial.
Qed.

Lemma prefix_nil s : String.prefix "" s = true.
Proof. now destruct s. Qed.

Lemma prefix_app a b : String.prefix a (a ++ b) = true.
Proof.
  induction a as [|c a IH]; [apply prefix_nil|].
  simpl. destruct (ascii_dec c c); [exact IH|congruence].
Qed.

Lemma prefix_cons b w x s :
  String.prefix (String b w) (String x s) = true <-> b = x /\ String.prefix w s = true.
Proof.
  simpl. destruct (ascii_dec b x); [tauto|]. split; [discriminate|tauto].
Qed.

Lemma begins_spec w :
  plain_word w = true ->
  forall n, startswith w (lower n) = true <-> begins w n.
Proof.
  intros Pw n. split.
  - revert n. induction w as [|b w IH]; intros n H.
    + exists "", n. split; [reflexivity|constructor].
    + pose proof Pw as Pw0.
      cbn [plain_word] in Pw. apply andb_prop in Pw as [Pw Pr].
      apply andb_prop in Pw as [Pb Pi].
      unfold startswith in *.
      destruct (shape_of n) as [|r|r|c r K D].
      * discriminate.
      * rewrite lower_kelvin in H. apply prefix_cons in H as [-> H].
        destruct (IH Pr r H) as (text & after & -> & S).
        exists (kelvin text), after. split; [reflexivity|now constructor].
      * rewrite lower_dotted in H. apply prefix_cons in H as [-> H].
        destruct w as [|b2 w]; [discriminate|].
        unfold dot_above in H. apply prefix_cons in H as [-> _].
        cbn [plain_word] in Pr. discriminate.
      * rewrite lower_byte in H by trivial. apply prefix_cons in H as [-> H].
        destruct (IH Pr r H) as (text & after & -> & S).
        exists (String c text), after. split; [reflexivity|].
        destruct (lower_ascii_cases c) as [E|E].
        -- rewrite E. now constructor.
        -- now apply spells_capital.
  - intros (text & after & -> & S).
    unfold startswith. rewrite (lower_spelled _ _ S Pw). apply prefix_app.
Qed.

Lemma lower_empty n : lower n = "" -> n = "".
Proof.
  destruct (shape_of n) as [|r|r|c r K D]; trivial.
  - rewrite lower_kelvin. discriminate.
  - rewrite lower_dotted. discriminate.
  - rewrite lower_byte by trivial. discriminate.
Qed.

Lemma app_empty_r s : s ++ "" = s.
Proof. induction s; simpl; congruence. Qed.

Lemma app_same_l (a b : string) : a ++ b = a -> b = "".
Proof. induction a; simpl; intros H; [exact H|]. injection H. exact IHa. Qed.

Lemma spelled_spec w :
  plain_word w = true ->
  forall n, String.eqb (lower n) w = true <-> spells n w.
Proof.
  intros Pw n. rewrite String.eqb_eq. split.
  - intros E.
    assert (B : begins w n).
    { apply begins_spec; trivial. unfold startswith. rewrite E.
      rewrite <- (app_empty_r w) at 2. apply prefix_app. }
    destruct B as (text & after & -> & S).
    rewrite (lower_spelled _ _ S Pw) in E.
    apply app_same_l, lower_empty in E. subst. now rewrite app_empty_r.
  - intros S. rewrite <- (app_empty_r n), (lower_spelled _ _ S Pw).
    apply app_empty_r.
Qed.


(** *** Where an occurrence can begin *)

Lemma mentions_nil w : mentions w "" <-> begins w "".
Proof.
  split.
  - intros (before & text & after & E & S).
    destruct before; [|discriminate]. now exists text, after.
  - intros (text & after & E & S). now exists "", text, after.
Qed.

Lemma mentions_cons w c r :
  mentions w (String c r) <-> begins w (String c r) \/ mentions w r.
Proof.
  split.
  - intros (before & text & after & E & S).
    destruct before as [|x before].
    + left. now exists text, after.
    + right. injection E as _ ->. now exists before, text, after.
  - intros [(text & after & E & S)|(before & text & after & E & S)].
    + now exists "", text, after.
    + exists (String c before), text, after. now rewrite E.
Qed.

Lemma ends_with_nil w : ends_with w "" <-> spells "" w.
Proof.
  split.
  - intros (stem & text & E & S).
    destruct stem; [|discriminate]. simpl in E. now subst.
  - intros S. now exists "", "".
Qed.

Lemma ends_with_cons w c r :
  ends_with w (String c r) <-> spells (String c r) w \/ ends_with w r.
Proof.
  split.
  - intros (stem & text & E & S).
    destruct stem as [|x stem].
    + left. simpl in E. now subst.
    + right. injection E as _ ->. now exists stem, text.
  - intros [S|(stem & text & E & S)].
    + now exists "", (String c r).
    + exists (String c stem), text. now rewrite E.
Qed.

(** A byte above 127 other than the first of the Kelvin sign begins no
    spelling of a plain word. *)
Lemma no_begin_high b w x t :
  plain_word (String b w) = true ->
  128 <= nat_of_ascii x -> x <> ascii_of_nat 226 ->
  ~ begins (String b w) (String x t).
Proof.
  intros Pw Hx Nx (text & after & E & S).
  cbn [plain_word] in Pw. apply andb_prop in Pw as [Pw _].
  apply andb_prop in Pw as [Pb _].
  destruct text as [|y text]; [inversion S|].
  injection E as <- _.
  destruct (spells_first _ _ _ _ Pb S); [lia|contradiction].
Qed.

Lemma no_spell_high b w x t :
  plain_word (String b w) = true ->
  128 <= nat_of_ascii x -> x <> ascii_of_nat 226 ->
  ~ spells (String x t) (String b w).
Proof.
  intros Pw Hx Nx S. apply (no_begin_high b w x t Pw Hx Nx).
  exists (String x t), "". now rewrite app_empty_r.
Qed.

Lemma no_prefix_high b w x t :
  plain_word (String b w) = true -> 128 <= nat_of_ascii x ->
  String.prefix (String b w) (String x t) = false.
Proof.
  intros Pw Hx. cbn [plain_word] in Pw. apply andb_prop in Pw as [Pw _].
  apply andb_prop in Pw as [Pb _]. apply plain_char_spec in Pb as [L _].
  simpl. destruct (ascii_dec b x); [subst; lia|reflexivity].
Qed.

Lemma no_eqb_high b w x t :
  plain_word (String b w) = true -> 128 <= nat_of_ascii x ->
  String.eqb (String x t) (String b w) = false.
Proof.
  intros Pw Hx. cbn [plain_word] in Pw. apply andb_prop in Pw as [Pw _].
  apply andb_prop in Pw as [Pb _]. apply plain_char_spec in Pb as [L _].
  apply String.eqb_neq. intros E. injection E as -> _. lia.
Qed.

Lemma contains_cons p c s :
  contains p (String c s) = startswith p (String c s) || contains p s.
Proof. reflexivity. Qed.

Lemma endswith_cons c s p :
  endswith (String c s) p = String.eqb (String c s) p || endswith s p.
Proof. reflexivity. Qed.

(** [word in name.lower()] says that the name mentions the word. *)
Lemma contains_spec b w (Pw : plain_word (String b w) = true) (n : string) :
  contains (String b w) (lower n) = true <-> mentions (String b w) n.
Proof.
  induction n as [|r IH|r IH|c r K D IH] using lower_induction.
  - rewrite mentions_nil. cbn [lower contains]. rewrite orb_false_r.
    apply (begins_spec _ Pw "").
  - rewrite lower_kelvin, contains_cons, <- lower_kelvin, orb_true_iff.
    rewrite (begins_spec _ Pw), IH.
    unfold kelvin. rewrite !mentions_cons.
    pose proof (no_begin_high b w (ascii_of_nat 132) (String (ascii_of_nat 170) r) Pw) as N1.
    pose proof (no_begin_high b w (ascii_of_nat 170) r Pw) as N2.
    rewrite nat_ascii_embedding in N1, N2 by lia.
    specialize (N1 ltac:(lia) ltac:(discriminate)).
    specialize (N2 ltac:(lia) ltac:(discriminate)).
    tauto.
  - rewrite lower_dotted. unfold dot_above.
    rewrite !contains_cons. unfold startswith at 2 3.
    rewrite (no_prefix_high b w (ascii_of_nat 204)), (no_prefix_high b w (ascii_of_nat 135))
      by (trivial; rewrite nat_ascii_embedding; lia).
    cbn [orb]. fold (dot_above (lower r)). rewrite <- lower_dotted.
    rewrite orb_true_iff, (begins_spec _ Pw), IH.
    unfold dotted. rewrite !mentions_cons.
    pose proof (no_begin_high b w (ascii_of_nat 196) (String (ascii_of_nat 176) r) Pw) as N1.
    pose proof (no_begin_high b w (ascii_of_nat 176) r Pw) as N2.
    rewrite nat_ascii_embedding in N1, N2 by lia.
    specialize (N1 ltac:(lia) ltac:(discriminate)).
    specialize (N2 ltac:(lia) ltac:(discriminate)).
    tauto.
  - rewrite mentions_cons, <- IH, <- (begins_spec _ Pw).
    rewrite lower_byte at 1 by trivial. rewrite contains_cons, orb_true_iff.
    rewrite <- lower_byte by trivial. reflexivity.
Qed.

(** [name.lower().endswith(word)] says that the name ends with the word. *)
Lemma endswith_spec b w (Pw : plain_word (String b w) = true) (n : string) :
  endswith (lower n) (String b w) = true <-> ends_with (String b w) n.
Proof.
  induction n as [|r IH|r IH|c r K D IH] using lower_induction.
  - rewrite ends_with_nil. cbn [lower endswith]. rewrite orb_false_r.
    apply (spelled_spec _ Pw "").
  - rewrite lower_kelvin, endswith_cons, <- lower_kelvin, orb_true_iff.
    rewrite (spelled_spec _ Pw), IH.
    unfold kelvin. rewrite !ends_with_cons.
    pose proof (no_spell_high b w (ascii_of_nat 132) (String (ascii_of_nat 170) r) Pw) as N1.
    pose proof (no_spell_high b w (ascii_of_nat 170) r Pw) as N2.
    rewrite nat_ascii_embedding in N1, N2 by lia.
    specialize (N1 ltac:(lia) ltac:(discriminate)).
    specialize (N2 ltac:(lia) ltac:(discriminate)).
    tauto.
  - rewrite lower_dotted. unfold dot_above.
    rewrite !endswith_cons.
    rewrite (no_eqb_high b w (ascii_of_nat 204)), (no_eqb_high b w (ascii_of_nat 135))
      by (trivial; rewrite nat_ascii_embedding; lia).
    cbn [orb]. fold (dot_above (lower r)). rewrite <- lower_dotted.
    rewrite orb_true_iff, (spelled_spec _ Pw), IH.
    unfold dotted. rewrite !ends_with_cons.
    pose proof (no_spell_high b w (ascii_of_nat 196) (String (ascii_of_nat 176) r) Pw) as N1.
    pose proof (no_spell_high b w (ascii_of_nat 176) r Pw) as N2.
    rewrite nat_ascii_embedding in N1, N2 by lia.
    specialize (N1 ltac:(lia) ltac:(discriminate)).
    specialize (N2 ltac:(lia) ltac:(discriminate)).
    tauto.
  - rewrite ends_with_cons, <- IH, <- (spelled_spec _ Pw).
    rewrite lower_byte at 1 by trivial. rewrite endswith_cons, orb_true_iff.
    rewrite <- lower_byte by trivial. reflexivity.
Qed.

(** *** The tests of the scanner *)

Lemma is_unverified_spec (name : string) :
  Scanner.is_unverified name = true <-> unverified_word name.
Proof. apply contains_spec. reflexivity. Qed.

Lemma is_player_spec (name : string) :
  Scanner.is_player name = true <-> player_word name.
Proof.
  unfold Scanner.is_player, player_word. rewrite orb_true_iff.
  rewrite !contains_spec by reflexivity. reflexivity.
Qed.

Lemma is_csv_spec (name : string) :
  Scanner.is_csv name = true <-> csv_suffix name.
Proof. apply endswith_spec. reflexivity. Qed.

Lemma ends_with_app (word a b : string) :
  ends_with word b -> ends_with word (a ++ b).
Proof.
  intros (stem & text & -> & S). exists (a ++ stem), text. split; [|exact S].
  clear S. induction a as [|c a IH]; simpl; [reflexivity|now rewrite IH].
Qed.

End WordFacts.

(** ** The scanner *)

Module ScannerFacts.
Import Scanner Spec Words.

Lemma fold_left_pairs (dirpath : string) (names : list string) (c : counters) :
  fold_left (visit dirpath) names c =
  fold_left (fun c f => visit (fst f) c (snd f)) (map (pair dirpath) names) c.
Proof.
  revert c; induction names as [|n names IH]; intro c; simpl; [reflexivity|].
  apply IH.
Qed.

Lemma scan_from_seen (entries : list (string * list string)) (c : counters) :
  fold_left visit_dir entries c =
  fold_left (fun c f => visit (fst f) c (snd f)) (seen entries) c.
Proof.
  revert c; induction entries as [|e entries IH]; intro c; simpl; [reflexivity|].
  rewrite fold_left_app, IH. unfold visit_dir.
  now rewrite fold_left_pairs.
Qed.

(** One step of the loop moves exactly one of the four tallies. *)
Lemma visit_cases (f : string * string) (c : counters) :
  let c' := visit (fst f) c (snd f) in
  unverified c' = unverified c + (if unverified_name f then 1 else 0) /\
  player_pos c' = player_pos c + (if player_name f then 1 else 0) /\
  total c' = total c + (if included_name f then 1 else 0) /\
  csv_files c' =
    (csv_files c ++ (if included_name f then [path_join (fst f) (snd f)] else []))%list.
Proof.
  unfold visit, unverified_name, player_name, included_name.
  destruct (is_unverified (snd f)), (is_player (snd f)), (is_csv (snd f)); simpl;
    rewrite ?app_nil_r; repeat split; lia.
Qed.

Lemma fold_visit (fs : list (string * string)) (c : counters) :
  let c' := fold_left (fun c f => visit (fst f) c (snd f)) fs c in
  unverified c' = unverified c + List.length (filter unverified_name fs) /\
  player_pos c' = player_pos c + List.length (filter player_name fs) /\
  total c' = total c + List.length (filter included_name fs) /\
  csv_files c' =
    (csv_files c ++ map (fun f => path_join (fst f) (snd f)) (filter included_name fs))%list.
Proof.
  revert c; induction fs as [|f fs IH]; intro c; simpl.
  - rewrite app_nil_r. repeat split; lia.
  - destruct (IH (visit (fst f) c (snd f))) as (U & P & T & F).
    destruct (visit_cases f c) as (U1 & P1 & T1 & F1).
    rewrite U, P, T, F, U1, P1, T1, F1.
    destruct (unverified_name f), (player_name f), (included_name f); simpl;
      rewrite <- ?app_assoc; simpl; repeat split; lia.
Qed.

Lemma four_way_partition (fs : list (string * string)) :
  List.length (filter unverified_name fs) + List.length (filter player_name fs)
  + List.length (filter included_name fs) + List.length (filter ignored_name fs)
  = List.length fs.
Proof.
  induction fs as [|f fs IH]; simpl; [reflexivity|].
  unfold unverified_name, player_name, included_name, ignored_name in *.
  destruct (is_unverified (snd f)), (is_player (snd f)), (is_csv (snd f)); simpl; lia.
Qed.

(** The four tests of the loop sort the names as the words in them say. *)
Lemma filters_tally (fs : list (string * string)) :
  tallied fs
    (List.length (filter unverified_name fs))
    (List.length (filter player_name fs))
    (map (fun f => path_join (fst f) (snd f)) (filter included_name fs))
    (List.length (filter ignored_name fs)).
Proof.
  induction fs as [|[d n] fs IH]; simpl; [constructor|].
  unfold unverified_name, player_name, included_name, ignored_name in *.
  cbn [snd fst].
  pose proof (WordFacts.is_unverified_spec n) as U.
  pose proof (WordFacts.is_player_spec n) as P.
  pose proof (WordFacts.is_csv_spec n) as C.
  destruct (is_unverified n), (is_player n), (is_csv n); simpl;
    try (apply tallied_unverified; [tauto|exact IH]);
    try (apply tallied_player; [intuition discriminate|tauto|exact IH]).
  - apply tallied_included; [intuition discriminate|intuition discriminate|tauto|exact IH].
  - apply tallied_ignored; [intuition discriminate..|exact IH].
Qed.

(** C5.  Over everything the walk reports, the unverified tally counts
    the names containing "unverified" (case ignored), the player tally the
    remaining names containing "playerpositioning" or "playertracking",
    the result lists in order the paths of the remaining names ending in
    ".csv", and the total is the length of that list; each name falls in
    exactly one of the four groups, so the tallies and the ignored names
    add up to the files seen. *)
Theorem scan_tallies (entries : list (string * list string)) :
  let c := scan entries in
  exists ignored,
    tallied (seen entries) (unverified c) (player_pos c) (csv_files c) ignored /\
    total c = List.length (csv_files c) /\
    unverified c + player_pos c + total c + ignored = List.length (seen entries).
Proof.
  cbv zeta. unfold scan. rewrite scan_from_seen.
  destruct (fold_visit (seen entries) init) as (U & P & T & F).
  simpl in U, P, T, F. rewrite U, P, T, F, length_map.
  exists (List.length (filter ignored_name (seen entries))).
  split; [apply filters_tally|]. split; [reflexivity|].
  apply four_way_partition.
Qed.

Lemma scan_tallies_witness :
  let entries :=
    [("/data", ["a.csv"; "Game_UNVERIFIED.csv"; "PlayerTracking_1.csv"; "notes.txt"]);
     ("/data/sub", ["B.CSV"; "Unverified_PlayerPositioning.csv"])] in
  scan entries = mkCounters ["/data/a.csv"; "/data/sub/B.CSV"] 2 1 2 /\
  exists ignored,
    tallied (seen entries) 2 1 ["/data/a.csv"; "/data/sub/B.CSV"] ignored /\
    2 = 2 /\ 2 + 1 + 2 + ignored = 6.
Proof.
  split; [reflexivity|].
  exact (scan_tallies
           [("/data", ["a.csv"; "Game_UNVERIFIED.csv"; "PlayerTracking_1.csv"; "notes.txt"]);
            ("/data/sub", ["B.CSV"; "Unverified_PlayerPositioning.csv"])]).
Defined.

(** C9.  A name that contains an exclusion word is counted and left out
    whatever its suffix, and the "unverified" test comes first: a name
    that contains "unverified" moves the unverified tally only, also when
    it contains a player-tracking word; a name with a player-tracking word
    alone moves the player tally only. *)
Theorem exclusion_order (dirpath filename : string) (c : counters)
  (H : unverified_word filename \/ player_word filename) :
  let c' := visit dirpath c filename in
  csv_files c' = csv_files c /\ total c' = total c /\
  (unverified_word filename ->
   unverified c' = unverified c + 1 /\ player_pos c' = player_pos c) /\
  (~ unverified_word filename ->
   unverified c' = unverified c /\ player_pos c' = player_pos c + 1).
Proof.
  cbv zeta. unfold visit.
  pose proof (WordFacts.is_unverified_spec filename) as U.
  pose proof (WordFacts.is_player_spec filename) as P.
  destruct (is_unverified filename); simpl.
  - split; [reflexivity|]. split; [reflexivity|]. split.
    + intros _. split; reflexivity.
    + intros N. elim N. now apply U.
  - assert (E : is_player filename = true).
    { destruct H as [H|H]; [apply U in H; discriminate|now apply P]. }
    rewrite E. simpl. split; [reflexivity|]. split; [reflexivity|]. split.
    + intros N. apply U in N. discriminate.
    + intros _. split; reflexivity.
Qed.

Lemma exclusion_order_witness :
  unverified_word "Unverified_PlayerTracking.txt" /\
  player_word "Unverified_PlayerTracking.txt" /\
  ~ csv_suffix "Unverified_PlayerTracking.txt" /\
  let c' := visit "/data" init "Unverified_PlayerTracking.txt" in
  csv_files c' = [] /\ total c' = 0 /\ unverified c' = 1 /\ player_pos c' = 0.
Proof.
  assert (U : unverified_word "Unverified_PlayerTracking.txt")
    by (apply WordFacts.is_unverified_spec; reflexivity).
  split; [exact U|].
  split; [apply WordFacts.is_player_spec; reflexivity|].
  split; [intros E; apply WordFacts.is_csv_spec in E; discriminate E|].
  destruct (exclusion_order "/data" "Unverified_PlayerTracking.txt" init (or_introl U))
    as (F & T & Y & _).
  destruct (Y U) as [A B]. repeat split; assumption.
Defined.

End ScannerFacts.

(** ** The record cleaner *)

Module CleanerFacts.
Import Pandas Spec.

Lemma string_app_assoc (a b c : string) : ((a ++ b) ++ c = a ++ b ++ c)%string.
Proof. induction a as [|x a IH]; simpl; [reflexivity|now rewrite IH]. Qed.

(** *** Frames *)

Lemma lookup_assign_same (name : string) (c : column) (cols : list (string * column)) :
  lookup name (assign name c cols) = Some c.
Proof.
  induction cols as [|[n c0] cols IH]; simpl.
  - now rewrite String.eqb_refl.
  - destruct (String.eqb n name) eqn:E; simpl; rewrite E; [reflexivity|exact IH].
Qed.

Lemma lookup_assign_other (name n : string) (c : column) (cols : list (string * column)) :
  n <> name -> lookup name (assign n c cols) = lookup name cols.
Proof.
  intro D. induction cols as [|[m c0] cols IH]; simpl.
  - destruct (String.eqb_spec n name); [contradiction|reflexivity].
  - destruct (String.eqb_spec m n) as [->|Dm]; simpl.
    + destruct (String.eqb_spec n name); [contradiction|reflexivity].
    + destruct (String.eqb m name); [reflexivity|exact IH].
Qed.

Lemma lookup_rename (name old new : string) (df : frame) :
  name <> old -> name <> new ->
  lookup name (columns (rename old new df)) = lookup name (columns df).
Proof.
  intros Do Dn. unfold rename; simpl.
  induction (columns df) as [|[m c0] cols IH]; simpl; [reflexivity|].
  destruct (String.eqb_spec m old) as [->|Dm].
  - destruct (String.eqb_spec new name); [congruence|].
    destruct (String.eqb_spec old name); [congruence|exact IH].
  - destruct (String.eqb m name); [reflexivity|exact IH].
Qed.

Lemma getitem_ok (df : frame) (name : string) (c : column) :
  getitem df name = Ok c -> lookup name (columns df) = Some c.
Proof. unfold getitem. destruct (lookup name (columns df)); congruence. Qed.

Ltac bind_ok H x Hx :=
  cbv zeta in H;
  match type of H with
  | bind ?m _ = Ok _ =>
      destruct m as [x|] eqn:Hx; cbn [bind] in H; [|discriminate H]
  end.

(** [clean_time] touches the Time column only and keeps the row count. *)
Lemma clean_time_frame (df df' : frame) :
  clean_time df = Ok df' ->
  index_len df' = index_len df /\
  forall name, name <> "Time"%string ->
               lookup name (columns df') = lookup name (columns df).
Proof.
  unfold clean_time. intro H.
  bind_ok H t Ht. bind_ok H t1 Ht1. bind_ok H a Ha.
  bind_ok H b' Hb'. bind_ok H t2 Ht2. bind_ok H t3 Ht3.
  injection H as <-. split; [reflexivity|].
  intros name D. simpl.
  now rewrite !lookup_assign_other by congruence.
Qed.

Lemma stringify_lookup (df df' : frame) (name : string) :
  stringify_objects df = Ok df' ->
  index_len df' = index_len df /\
  lookup name (columns df') = option_map stringify_column (lookup name (columns df)).
Proof.
  unfold stringify_objects.
  destruct (has_dup (map fst (columns df))); [discriminate|].
  intro H; injection H as <-. split; [reflexivity|]. simpl.
  induction (columns df) as [|[m c0] cols IH]; simpl; [reflexivity|].
  destruct (String.eqb m name); [reflexivity|exact IH].
Qed.

(** *** Element-wise concatenation *)

Lemma add_objs_nth (xs ys zs : list pyobj) (i : nat) (x y : pyobj) :
  add_objs xs ys = Some zs ->
  nth_error xs i = Some x -> nth_error ys i = Some y ->
  exists z, add_obj x y = Some z /\ nth_error zs i = Some z.
Proof.
  revert ys zs i. induction xs as [|x0 xs IH]; intros ys zs i A X Y.
  - destruct i; discriminate X.
  - destruct ys as [|y0 ys]; [destruct i; discriminate Y|].
    simpl in A.
    destruct (add_obj x0 y0) as [z0|] eqn:E0; [|discriminate A].
    destruct (add_objs xs ys) as [zs0|] eqn:Es; [|discriminate A].
    injection A as <-.
    destruct i as [|i]; simpl in *.
    + injection X as <-. injection Y as <-. now exists z0.
    + exact (IH ys zs0 i Es X Y).
Qed.

Lemma add_series_object (a b r : column) :
  add_series a b = Ok r -> exists zs, r = ColObject zs.
Proof.
  unfold add_series. intro A.
  destruct a as [| | |xs|]; try discriminate A.
  destruct b as [| | |ys|]; try discriminate A.
  destruct (add_objs xs ys) as [zs|]; [|discriminate A].
  injection A as <-. now exists zs.
Qed.

Lemma add_series_nth (a b r : column) (i : nat) (s t : string) :
  add_series a b = Ok r ->
  nth_error (cells a) i = Some (SObj (OStr s)) ->
  nth_error (cells b) i = Some (SObj (OStr t)) ->
  nth_error (cells r) i = Some (SObj (OStr (s ++ t))).
Proof.
  unfold add_series. intros A X Y.
  destruct a as [| | |xs|]; try discriminate A.
  destruct b as [| | |ys|]; try discriminate A.
  destruct (add_objs xs ys) as [zs|] eqn:E; [|discriminate A].
  injection A as <-. simpl in *.
  rewrite nth_error_map in X, Y.
  destruct (nth_error xs i) as [x|] eqn:Ex; [|discriminate X].
  destruct (nth_error ys i) as [y|] eqn:Ey; [|discriminate Y].
  simpl in X, Y. injection X as ->. injection Y as ->.
  destruct (add_objs_nth _ _ _ _ _ _ E Ex Ey) as (z & Hz & Hn).
  simpl in Hz. injection Hz as <-.
  now rewrite nth_error_map, Hn.
Qed.

Lemma add_str_nth (a r : column) (i : nat) (s t : string) :
  add_str a t = Ok r ->
  nth_error (cells a) i = Some (SObj (OStr s)) ->
  nth_error (cells r) i = Some (SObj (OStr (s ++ t))).
Proof.
  unfold add_str. intros A X.
  destruct a as [| | |xs|]; try discriminate A.
  apply (add_series_nth _ _ _ _ _ _ A X).
  simpl in *. rewrite !nth_error_map in *.
  destruct (nth_error xs i); [reflexivity|discriminate X].
Qed.

Lemma astype_str_nth (c : column) (i : nat) (x : scalar) :
  nth_error (cells c) i = Some x ->
  nth_error (cells (astype_str c)) i = Some (SObj (OStr (py_str x))).
Proof.
  intro H. unfold astype_str. simpl. now rewrite !nth_error_map, H.
Qed.

(** *** Times *)

Lemma fill_self {A : Type} (l : list (option A)) : fill l l = l.
Proof.
  unfold fill. induction l as [|x l IH]; simpl; [reflexivity|].
  rewrite IH. now destruct x.
Qed.

(** Line 61 reads [df['Time']] after line 60 has replaced it, so the
    seconds-only format is tried on the parsed column, not on the text:
    the outcome of lines 60-62 depends on the first format only. *)
Lemma clean_time_first_format_only (n : nat) (l : list pyobj) :
  clean_time (mkFrame n [("Time"%string, ColObject l)]) =
  Ok (mkFrame n
        [("Time"%string,
          ColObject (map (fun o => match o with
                                   | OStr s =>
                                       match Strptime.strptime Strptime.HMSf s with
                                       | Some t => OTime t
                                       | None => ONaT
                                       end
                                   | _ => ONaT
                                   end) l))]).
Proof.
  unfold clean_time, getitem, setitem. cbn. rewrite fill_self, map_map.
  do 5 f_equal. apply map_ext. intros [s| | |]; try reflexivity.
  unfold Strptime.parse, Strptime.strptime.
  now destruct (Strptime.strptime_ns Strptime.HMSf s) as [[t ns]|].
Qed.

(** C1.  Lines 60-62 on the three values of the claim: the value with
    microseconds is parsed, the garbage becomes null and all three rows
    stay, but "14:05:30", which the seconds-only format does parse,
    becomes null too. *)
Theorem seconds_only_time_becomes_null :
  clean_time Sample.times_frame =
  Ok (mkFrame 3 [("Time"%string,
                  ColObject [OTime (mkTime 14 5 30 123456); ONaT; ONaT])]) /\
  Strptime.strptime Strptime.HMS "14:05:30" = Some (mkTime 14 5 30 0).
Proof. split; vm_compute; reflexivity. Qed.

(** *** RowID *)

Lemma cell_string_column (df : frame) (name : string) (i : nat) (x : scalar) :
  cell df name i = Some x ->
  exists c, lookup name (columns df) = Some c /\ nth_error (cells c) i = Some x.
Proof.
  unfold cell. destruct (lookup name (columns df)) as [c|]; [|discriminate].
  intro H. now exists c.
Qed.

Lemma add_series_cell (a b r : column) (i : nat) (x y : scalar) :
  add_series a b = Ok r ->
  nth_error (cells a) i = Some x -> nth_error (cells b) i = Some y ->
  exists ox oy z,
    x = SObj ox /\ y = SObj oy /\ add_obj ox oy = Some z /\
    nth_error (cells r) i = Some (SObj z).
Proof.
  unfold add_series. intros A X Y.
  destruct a as [| | |xs|]; try discriminate A.
  destruct b as [| | |ys|]; try discriminate A.
  destruct (add_objs xs ys) as [zs|] eqn:E; [|discriminate A].
  injection A as <-. simpl in *.
  rewrite nth_error_map in X, Y.
  destruct (nth_error xs i) as [ox|] eqn:Ex; [|discriminate X].
  destruct (nth_error ys i) as [oy|] eqn:Ey; [|discriminate Y].
  simpl in X, Y. injection X as <-. injection Y as <-.
  destruct (add_objs_nth _ _ _ _ _ _ E Ex Ey) as (z & Hz & Hn).
  exists ox, oy, z. repeat split; trivial.
  now rewrite nth_error_map, Hn.
Qed.

Lemma add_str_cell (a r : column) (i : nat) (x : scalar) (t : string) :
  add_str a t = Ok r ->
  nth_error (cells a) i = Some x ->
  exists ox z,
    x = SObj ox /\ add_obj ox (OStr t) = Some z /\
    nth_error (cells r) i = Some (SObj z).
Proof.
  unfold add_str. intros A X.
  destruct a as [| | |xs|]; try discriminate A.
  assert (Y : nth_error (cells (ColObject (map (fun _ => OStr t) xs))) i
              = Some (SObj (OStr t))).
  { simpl in *. rewrite !nth_error_map in *.
    destruct (nth_error xs i); [reflexivity|discriminate X]. }
  destruct (add_series_cell _ _ _ _ _ _ A X Y) as (ox & oy & z & -> & Ey & Hz & Hn).
  injection Ey as <-. now exists ox, z.
Qed.

(** C8, as amended.  In a cleaned table every row whose GameID is a
    string has as RowID that string, "_" and the string form of its
    PitchNo; a row whose GameID is missing has the RowID "nan". *)
Theorem row_id_of_game
  (parse_dates : column -> list (option timestamp)) (df df' : frame)
  (i : nat) (game pitch : scalar)
  (Hclean : clean_data parse_dates df = Ok df')
  (Hgame : cell df "GameID" i = Some game)
  (Hpitch : cell df "PitchNo" i = Some pitch) :
  cell df' "RowID" i =
  Some (SObj (OStr match game with
                   | SObj (OStr id) => id ++ "_" ++ py_str pitch
                   | _ => "nan"
                   end)).
Proof.
  destruct (cell_string_column _ _ _ _ Hgame) as (g & Lg & Ng).
  destruct (cell_string_column _ _ _ _ Hpitch) as (p & Lp & Np).
  unfold clean_data in Hclean.
  bind_ok Hclean d Hd. bind_ok Hclean d' Hd'. bind_ok Hclean df2 H2.
  bind_ok Hclean g0 Hg0. bind_ok Hclean g' Hg'. bind_ok Hclean p0 Hp0.
  bind_ok Hclean r Hr.
  destruct (clean_time_frame _ _ H2) as (_ & Keep).
  apply getitem_ok in Hg0, Hp0.
  rewrite Keep in Hg0, Hp0 by discriminate.
  cbn [setitem columns] in Hg0, Hp0.
  rewrite lookup_assign_other in Hg0, Hp0 by discriminate.
  rewrite lookup_rename in Hg0, Hp0 by discriminate.
  assert (g0 = g) by congruence. assert (p0 = p) by congruence. subst g0 p0.
  destruct (add_str_cell _ _ _ _ _ Hg' Ng) as (og & z & -> & Hz & Nz).
  destruct (add_series_cell _ _ _ _ _ _ Hr Nz (astype_str_nth _ _ _ Np))
    as (oz & op & z2 & Ez & Ep & Hz2 & Nr).
  injection Ez as <-. injection Ep as <-.
  destruct (stringify_lookup _ _ "RowID" Hclean) as (_ & L).
  cbn [setitem columns] in L. rewrite lookup_assign_same in L.
  unfold cell. rewrite L. cbn [option_map].
  destruct (add_series_object _ _ _ Hr) as (zs & ->).
  cbn [stringify_column]. rewrite (astype_str_nth _ _ _ Nr). cbn [py_str].
  destruct og as [id|t| |]; simpl in Hz; try discriminate Hz;
    injection Hz as <-; simpl in Hz2; injection Hz2 as <-; cbn [str_obj];
    [now rewrite string_app_assoc|reflexivity..].
Qed.

Lemma row_id_of_game_witness :
  (exists df',
      clean_data Sample.no_dates Sample.game_a = Ok df' /\
      cell Sample.game_a "GameID" 0 = Some (SObj (OStr "G1")) /\
      cell Sample.game_a "PitchNo" 0 = Some (SInt 7) /\
      cell df' "RowID" 0 = Some (SObj (OStr "G1_7"))) /\
  (exists df',
      clean_data Sample.no_dates Sample.null_game = Ok df' /\
      cell Sample.null_game "GameID" 1 = Some (SObj ONaN) /\
      cell Sample.null_game "PitchNo" 1 = Some (SInt 8) /\
      cell df' "RowID" 1 = Some (SObj (OStr "nan"))).
Proof.
  split.
  - destruct (clean_data Sample.no_dates Sample.game_a) as [df'|] eqn:E;
      [|vm_compute in E; discriminate E].
    exists df'. split; [reflexivity|]. split; [reflexivity|]. split; [reflexivity|].
    exact (row_id_of_game Sample.no_dates Sample.game_a df' 0
             (SObj (OStr "G1")) (SInt 7) E eq_refl eq_refl).
  - destruct (clean_data Sample.no_dates Sample.null_game) as [df'|] eqn:E;
      [|vm_compute in E; discriminate E].
    exists df'. split; [reflexivity|]. split; [reflexivity|]. split; [reflexivity|].
    exact (row_id_of_game Sample.no_dates Sample.null_game df' 1
             (SObj ONaN) (SInt 8) E eq_refl eq_refl).
Defined.

(** C8 as stated fails on a row without GameID: the sum of a missing
    value and a string is missing, so the RowID of the second row of
    [Sample.null_game], whose PitchNo is 8, is the text of a missing
    value, "nan", and no text followed by "_8". *)
Lemma row_id_of_missing_game :
  exists df',
    clean_data Sample.no_dates Sample.null_game = Ok df' /\
    cell Sample.null_game "GameID" 1 = Some (SObj ONaN) /\
    cell Sample.null_game "PitchNo" 1 = Some (SInt 8) /\
    cell df' "RowID" 1 = Some (SObj (OStr "nan")) /\
    forall id : string,
      cell df' "RowID" 1 <> Some (SObj (OStr (id ++ "_" ++ py_str (SInt 8)))).
Proof.
  eexists. split; [vm_compute; reflexivity|].
  split; [reflexivity|]. split; [reflexivity|]. split; [reflexivity|].
  intros id H. vm_compute in H.
  destruct id as [|a [|b [|c [|e id]]]]; discriminate H.
Qed.

End CleanerFacts.

(** ** The batch loader *)

Section LoaderFacts.
Import Pandas Spec.

Variable w : world.

Lemma ne_D1_iff (v : scalar) : ne_D1 v = true <-> v <> SObj (OStr "D1").
Proof.
  destruct v as [z|f|b|[s|t| |]|t]; simpl; try (split; [discriminate|reflexivity]).
  destruct (String.eqb_spec s "D1") as [->|D]; simpl.
  - split; [discriminate|]. intro H; now contradiction H.
  - split; [|reflexivity]. intros _ E. now injection E.
Qed.

(** The line [insert_to_db] logs for what [to_sql] did. *)
Lemma insert_to_db_cases (df : frame) (file_path : string) (s : state (DB w)) :
  insert_to_db w df file_path s =
  let '(db', r) := to_sql w (db s) (table w) df in
  (Ok tt,
   mkState (log s ++
            [match r with
             | None => (INFO, (file_path ++ " → Inserted " ++
                               PyStr.str_of_nat (index_len df) ++ " rows")%string)
             | Some e => (ERROR, failure_line file_path (OnInsert e))
             end])%list
           db' (inserts s ++ [(df, r)])%list).
Proof.
  unfold insert_to_db, try_except, pbind, call_to_sql.
  destruct (to_sql w (db s) (table w) df) as [db' [e|]]; [|reflexivity].
  destruct e; cbn; try reflexivity.
  now destruct (Re.search_duplicate_key orig).
Qed.

(** One file, by what [prepare] finds. *)
Lemma process_file_cases (total : nat) (file_path : string) (s : state (DB w)) :
  process_file w total file_path s =
  match prepare w file_path with
  | Raise e =>
      (Ok total,
       mkState (log s ++ [(ERROR, failure_line file_path (BeforeInsert e))])%list
               (db s) (inserts s))
  | Ok (inl v) =>
      (Ok total,
       mkState (log s ++ [(INFO, skipped_line file_path v)])%list
               (db s) (inserts s))
  | Ok (inr df) =>
      let '(_, s') := insert_to_db w df file_path s in
      (Ok (total + index_len df), s')
  end.
Proof.
  unfold process_file, prepare, first_level, try_except, pbind, lift, bind.
  destruct (read_csv w file_path) as [df|e]; [|reflexivity].
  destruct (getitem df "Level") as [lv|e]; [|reflexivity].
  destruct (iloc0 lv) as [v|e]; [|reflexivity].
  destruct (ne_D1 v); [reflexivity|].
  destruct (clean_data (parse_dates w) df) as [df'|e]; [|reflexivity].
  rewrite insert_to_db_cases.
  now destruct (to_sql w (db s) (table w) df') as [db' r].
Qed.

(** *** Loops *)

(** A loop whose body always returns, and relates its ends by a
    reflexive and transitive relation, returns and relates its ends. *)
Lemma for_each_returns {A B : Type} (body : B -> A -> prog (DB w) B)
  (R : B -> state (DB w) -> B -> state (DB w) -> Prop)
  (R_refl : forall b s, R b s b s)
  (R_trans : forall b1 s1 b2 s2 b3 s3, R b1 s1 b2 s2 -> R b2 s2 b3 s3 -> R b1 s1 b3 s3)
  (step : forall b x s, exists b' s', body b x s = (Ok b', s') /\ R b s b' s')
  (l : list A) (b : B) (s : state (DB w)) :
  exists b' s', for_each body l b s = (Ok b', s') /\ R b s b' s'.
Proof.
  revert b s. induction l as [|x l IH]; intros b s; simpl.
  - exists b, s. split; [reflexivity|apply R_refl].
  - destruct (step b x s) as (b1 & s1 & E1 & R1).
    destruct (IH b1 s1) as (b2 & s2 & E2 & R2).
    exists b2, s2. unfold pbind. rewrite E1. split; [exact E2|].
    exact (R_trans _ _ _ _ _ _ R1 R2).
Qed.

Lemma rows_sent_snoc (calls : list (frame * option exn)) (df : frame) (r : option exn) :
  rows_sent (calls ++ [(df, r)]) = rows_sent calls + index_len df.
Proof. unfold rows_sent. rewrite map_app, list_sum_app. simpl. lia. Qed.

Lemma rows_inserted_snoc (calls : list (frame * option exn)) (df : frame) (r : option exn) :
  rows_inserted (calls ++ [(df, r)]) =
  rows_inserted calls + match r with None => index_len df | Some _ => 0 end.
Proof. unfold rows_inserted. rewrite map_app, list_sum_app. simpl. lia. Qed.

Lemma process_file_grows (total : nat) (file_path : string) (s : state (DB w)) :
  exists total' s',
    process_file w total file_path s = (Ok total', s') /\ grows total s total' s'.
Proof.
  rewrite process_file_cases. unfold grows.
  destruct (prepare w file_path) as [[v|df]|e].
  - eexists _, _. split; [reflexivity|]. simpl. lia.
  - rewrite insert_to_db_cases.
    destruct (to_sql w (db s) (table w) df) as [db' r].
    eexists _, _. split; [reflexivity|]. simpl.
    rewrite rows_sent_snoc, rows_inserted_snoc. destruct r; lia.
  - eexists _, _. split; [reflexivity|]. simpl. lia.
Qed.

Lemma process_files_grow (files : list string) (total : nat) (s : state (DB w)) :
  exists total' s',
    for_each (process_file w) files total s = (Ok total', s') /\ grows total s total' s'.
Proof.
  apply for_each_returns.
  - unfold grows; intros; lia.
  - unfold grows; intros; lia.
  - apply process_file_grows.
Qed.

Lemma process_batch_grows (csv_files : list string) (total k : nat) (s : state (DB w)) :
  exists total' s',
    process_batch w csv_files total k s = (Ok total', s') /\ grows total s total' s'.
Proof.
  unfold process_batch, pbind.
  destruct (process_files_grow (batch csv_files k) total s) as (n & s1 & E & G).
  rewrite E. eexists _, _. split; [reflexivity|]. exact G.
Qed.

Lemma process_batches_grow (csv_files : list string) (s : state (DB w)) :
  exists total s',
    process_batches w csv_files s = (Ok total, s') /\ grows 0 s total s'.
Proof.
  unfold process_batches. apply for_each_returns.
  - unfold grows; intros; lia.
  - unfold grows; intros; lia.
  - apply process_batch_grows.
Qed.

(** *** The running total *)

Lemma refusals_logged_refl (files : list string) (s : state (DB w)) :
  refusals_logged files s s.
Proof.
  exists [], []. rewrite !app_nil_r. repeat split. intros df e [].
Qed.

Lemma refusals_logged_trans (files : list string) (s1 s2 s3 : state (DB w)) :
  refusals_logged files s1 s2 -> refusals_logged files s2 s3 ->
  refusals_logged files s1 s3.
Proof.
  intros (l1 & c1 & L1 & C1 & F1) (l2 & c2 & L2 & C2 & F2).
  exists (l1 ++ l2)%list, (c1 ++ c2)%list.
  rewrite L2, L1, C2, C1, <- !app_assoc. repeat split.
  intros df e H. apply in_app_or in H as [H|H].
  - destruct (F1 _ _ H) as (fp & I & J). exists fp. split; [exact I|].
    apply in_or_app. now left.
  - destruct (F2 _ _ H) as (fp & I & J). exists fp. split; [exact I|].
    apply in_or_app. now right.
Qed.

(** [for_each_returns] for a body that is only known on the elements of
    the list. *)
Lemma for_each_returns_on {A B : Type} (body : B -> A -> prog (DB w) B)
  (R : B -> state (DB w) -> B -> state (DB w) -> Prop)
  (R_refl : forall b s, R b s b s)
  (R_trans : forall b1 s1 b2 s2 b3 s3, R b1 s1 b2 s2 -> R b2 s2 b3 s3 -> R b1 s1 b3 s3)
  (l : list A)
  (step : forall b x s, In x l -> exists b' s', body b x s = (Ok b', s') /\ R b s b' s')
  (b : B) (s : state (DB w)) :
  exists b' s', for_each body l b s = (Ok b', s') /\ R b s b' s'.
Proof.
  revert b s. induction l as [|x l IH]; intros b s; simpl.
  - exists b, s. split; [reflexivity|apply R_refl].
  - destruct (step b x s (or_introl eq_refl)) as (b1 & s1 & E1 & R1).
    destruct (IH (fun b x s H => step b x s (or_intror H)) b1 s1) as (b2 & s2 & E2 & R2).
    exists b2, s2. unfold pbind. rewrite E1. split; [exact E2|].
    exact (R_trans _ _ _ _ _ _ R1 R2).
Qed.

Lemma process_file_logs_refusal (files : list string) (total : nat)
  (file_path : string) (s : state (DB w)) (I : In file_path files) :
  exists total' s',
    process_file w total file_path s = (Ok total', s') /\
    grows total s total' s' /\ refusals_logged files s s'.
Proof.
  destruct (process_file_grows total file_path s) as (total' & s' & E & G).
  exists total', s'. split; [exact E|]. split; [exact G|].
  rewrite process_file_cases in E.
  destruct (prepare w file_path) as [[v|df]|e].
  - injection E as _ <-. exists [(INFO, skipped_line file_path v)], [].
    cbn [log inserts]. rewrite app_nil_r. repeat split. intros df e [].
  - rewrite insert_to_db_cases in E.
    destruct (to_sql w (db s) (table w) df) as [db' r]. injection E as _ <-.
    eexists _, [(df, r)]. cbn [log inserts]. repeat split.
    intros df0 e [H|[]]. injection H as <- ->.
    exists file_path. split; [exact I|]. now left.
  - injection E as _ <-.
    exists [(ERROR, failure_line file_path (BeforeInsert e))], [].
    cbn [log inserts]. rewrite app_nil_r. repeat split. intros df e0 [].
Qed.

Lemma batch_incl (csv_files : list string) (k : nat) (file_path : string) :
  In file_path (batch csv_files k) -> In file_path csv_files.
Proof.
  unfold batch. intro H.
  rewrite <- (firstn_skipn (k * batch_size) csv_files). apply in_or_app. right.
  rewrite <- (firstn_skipn batch_size (skipn (k * batch_size) csv_files)).
  apply in_or_app. now left.
Qed.

Lemma process_batch_logs_refusals (csv_files : list string) (total k : nat)
  (s : state (DB w)) :
  exists total' s',
    process_batch w csv_files total k s = (Ok total', s') /\
    grows total s total' s' /\ refusals_logged csv_files s s'.
Proof.
  unfold process_batch, pbind.
  destruct (for_each_returns_on (process_file w)
              (fun b s b' s' => grows b s b' s' /\ refusals_logged csv_files s s'))
    with (l := batch csv_files k) (b := total) (s := s)
    as (n & s1 & E & G & (lines & calls & L & C & F)).
  - intros. split; [unfold grows; lia|apply refusals_logged_refl].
  - intros b1 s1 b2 s2 b3 s3 [G1 F1] [G2 F2].
    split; [unfold grows in *; lia|exact (refusals_logged_trans _ _ _ _ F1 F2)].
  - intros b x s2 I. apply process_file_logs_refusal. exact (batch_incl _ _ _ I).
  - rewrite E. eexists _, _. split; [reflexivity|]. split; [exact G|].
    eexists (lines ++ [_])%list, calls. cbn [log inserts logging].
    rewrite L, <- app_assoc. split; [reflexivity|]. split; [exact C|].
    intros df e H. destruct (F _ _ H) as (fp & I & J). exists fp. split; [exact I|].
    apply in_or_app. now left.
Qed.

(** C2, as amended.  A run of the loader always returns, and its total
    is the number of rows handed to the store, whether the store took
    them or raised; it is therefore at least the number of rows the store
    took, and every call that raised has left the error line of its class
    in the log.  A file whose insert raises adds its rows to the total all
    the same, and its step returns with that one line, the integrity line
    for an integrity error. *)
Theorem total_counts_rows_sent (csv_files : list string) (s0 : state (DB w)) :
  (exists total s',
      process_batches w csv_files s0 = (Ok total, s') /\
      rows_sent (inserts s') = rows_sent (inserts s0) + total /\
      rows_inserted (inserts s') <= rows_inserted (inserts s0) + total /\
      refusals_logged csv_files s0 s') /\
  (forall (total : nat) (file_path : string) (s : state (DB w))
          (df : frame) (db' : DB w) (e : exn),
      prepare w file_path = Ok (inr df) ->
      to_sql w (db s) (table w) df = (db', Some e) ->
      process_file w total file_path s =
      (Ok (total + index_len df),
       mkState (log s ++ [(ERROR, failure_line file_path (OnInsert e))])%list
               db' (inserts s ++ [(df, Some e)])%list)).
Proof.
  split.
  - unfold process_batches.
    destruct (for_each_returns (process_batch w csv_files)
                (fun b s b' s' => grows b s b' s' /\ refusals_logged csv_files s s'))
      with (l := seq 0 (batch_count csv_files)) (b := 0) (s := s0)
      as (total & s' & E & (G1 & G2) & F).
    + intros. split; [unfold grows; lia|apply refusals_logged_refl].
    + intros b1 s1 b2 s2 b3 s3 [G1 F1] [G2 F2].
      split; [unfold grows in *; lia|exact (refusals_logged_trans _ _ _ _ F1 F2)].
    + intros b k s. apply process_batch_logs_refusals.
    + exists total, s'. split; [exact E|]. split; [lia|]. split; [lia|exact F].
  - intros total file_path s df db' e P Q.
    now rewrite process_file_cases, P, insert_to_db_cases, Q.
Qed.

(** *** Failures that stay within a file *)

(** C6.  A failure of a file, before the insert or in it, leaves the
    file's step returning normally with one error line of the failure's
    class; the loop goes on with the files that follow and returns, and so
    does the loop over the batches of any list of files. *)
Theorem file_failure_is_absorbed
  (total : nat) (file_path : string) (rest csv_files : list string)
  (s s0 : state (DB w)) (f : failure)
  (H : fails w file_path s f) :
  exists total' s',
    process_file w total file_path s = (Ok total', s') /\
    log s' = (log s ++ [(ERROR, failure_line file_path f)])%list /\
    for_each (process_file w) (file_path :: rest) total s =
      for_each (process_file w) rest total' s' /\
    (exists n sn, for_each (process_file w) rest total' s' = (Ok n, sn)) /\
    (exists n sn, process_batches w csv_files s0 = (Ok n, sn)).
Proof.
  assert (exists total' s',
             process_file w total file_path s = (Ok total', s') /\
             log s' = (log s ++ [(ERROR, failure_line file_path f)])%list)
    as (total' & s' & E & L).
  { rewrite process_file_cases. destruct H as [e P|df db' e P Q].
    - rewrite P. eexists _, _. split; reflexivity.
    - rewrite P, insert_to_db_cases, Q. eexists _, _. split; reflexivity. }
  exists total', s'. split; [exact E|]. split; [exact L|]. split.
  - simpl. unfold pbind. now rewrite E.
  - split.
    + destruct (process_files_grow rest total' s') as (n & sn & En & _).
      now exists n, sn.
    + destruct (process_batches_grow csv_files s0) as (n & sn & En & _).
      now exists n, sn.
Qed.

(** *** The level gate *)

(** C4.  A file whose first Level is not "D1" leaves one line, the skip
    with the level seen, and nothing else: the total, the store and the
    record of inserts are as before. *)
Theorem other_level_is_skipped
  (total : nat) (file_path : string) (s : state (DB w)) (df : frame) (v : scalar)
  (Hread : read_csv w file_path = Ok df)
  (Hlevel : first_level df = Ok v)
  (Hother : v <> SObj (OStr "D1")) :
  process_file w total file_path s =
  (Ok total,
   mkState (log s ++ [(INFO, ("Skipped " ++ file_path ++ ", Level = " ++ py_str v)%string)])%list
           (db s) (inserts s)).
Proof.
  rewrite process_file_cases. unfold prepare. rewrite Hread. cbn [bind].
  rewrite Hlevel. cbn [bind].
  apply ne_D1_iff in Hother. now rewrite Hother.
Qed.

(** *** Tables without rows *)

Lemma no_first_level (df : frame) :
  wf_frame df -> index_len df = 0 -> exists e, first_level df = Raise e.
Proof.
  intros W Z. unfold first_level, getitem.
  destruct (lookup "Level" (columns df)) as [c|] eqn:L; cbn [bind].
  - specialize (W _ _ L). rewrite Z in W. unfold iloc0.
    destruct (cells c); [now eexists|discriminate W].
  - now eexists.
Qed.

(** C10.  For a table without rows the look at the first Level raises;
    the file's step returns with the read-error line, the total, the store
    and the record of inserts as before, and the loop goes on with the
    next file. *)
Theorem empty_table_is_read_error
  (total : nat) (file_path : string) (rest : list string) (s : state (DB w))
  (df : frame)
  (Hread : read_csv w file_path = Ok df)
  (Hwf : wf_frame df)
  (Hrows : index_len df = 0) :
  exists e,
    first_level df = Raise e /\
    let s' := mkState (log s ++ [(ERROR, ("Error reading " ++ file_path ++ ": "
                                          ++ str_exn e)%string)])%list
                      (db s) (inserts s) in
    process_file w total file_path s = (Ok total, s') /\
    for_each (process_file w) (file_path :: rest) total s =
      for_each (process_file w) rest total s'.
Proof.
  destruct (no_first_level df Hwf Hrows) as (e & E).
  exists e. split; [exact E|]. cbv zeta.
  assert (process_file w total file_path s =
          (Ok total,
           mkState (log s ++ [(ERROR, ("Error reading " ++ file_path ++ ": "
                                       ++ str_exn e)%string)])%list
                   (db s) (inserts s))) as P.
  { rewrite process_file_cases. unfold prepare. rewrite Hread. cbn [bind].
    now rewrite E. }
  split; [exact P|]. simpl. unfold pbind. now rewrite P.
Qed.

(** *** Runs that load nothing *)

Lemma main_without_files (s : state (DB w)) :
  let c := Scanner.scan (os_walk (root w) (root_dir w)) in
  Scanner.csv_files c = [] ->
  fst (list_csv_files w s) = Ok [] /\
  main w s = (Ok tt, mkState (log s ++ no_files_log c)%list (db s) (inserts s)).
Proof.
  cbv zeta. intro E.
  unfold main, list_csv_files, try_except, pbind, logging, ret. cbn.
  rewrite E. cbn. split; [reflexivity|].
  unfold no_files_log. now rewrite <- !app_assoc.
Qed.

(** C7.  When the scanner returns no file, the run logs the scanner's
    two lines and "No CSV files found." and returns; the store and the
    record of inserts are untouched, so no row was sent. *)
Theorem no_files_no_store
  (s : state (DB w))
  (Hnone : Scanner.csv_files (Scanner.scan (os_walk (root w) (root_dir w))) = []) :
  let s' := snd (main w s) in
  main w s =
    (Ok tt,
     mkState (log s ++ no_files_log (Scanner.scan (os_walk (root w) (root_dir w))))%list
             (db s) (inserts s)) /\
  db s' = db s /\ inserts s' = inserts s /\
  rows_sent (inserts s') = rows_sent (inserts s).
Proof.
  destruct (main_without_files s Hnone) as (_ & M).
  cbv zeta. rewrite M. repeat split.
Qed.


End LoaderFacts.

(** ** The properties on the sample runs *)

Module Runs.
Import Pandas Spec Sample.

Lemma header_only_wf : wf_frame header_only.
Proof.
  unfold wf_frame. intros name c H. cbn -[String.eqb] in H.
  repeat match type of H with
         | context [String.eqb ?a name] =>
             destruct (String.eqb a name); [injection H as <-; reflexivity|]
         end.
  discriminate H.
Defined.

Lemma other_level_is_skipped_witness :
  read_csv two_games "/data/ncaa.csv" = Ok game_ncaa /\
  first_level game_ncaa = Ok (SObj (OStr "NCAA")) /\
  SObj (OStr "NCAA") <> SObj (OStr "D1") /\
  process_file two_games 0 "/data/ncaa.csv" start =
  (Ok 0, mkState [(INFO, "Skipped /data/ncaa.csv, Level = NCAA")] [] []).
Proof.
  split; [reflexivity|]. split; [reflexivity|]. split; [discriminate|].
  apply (other_level_is_skipped two_games 0 "/data/ncaa.csv" start game_ncaa
           (SObj (OStr "NCAA"))).
  - reflexivity.
  - reflexivity.
  - discriminate.
Defined.

Lemma file_failure_is_absorbed_witness :
  fails two_games "/data/b.csv" holding_game_a (OnInsert duplicate_error) /\
  exists total' s',
    process_file two_games 3 "/data/b.csv" holding_game_a = (Ok total', s') /\
    log s' = [(ERROR, "Integrity error: Duplicate key 'G1_9' in /data/b.csv")] /\
    for_each (process_file two_games) ["/data/b.csv"; "/data/ncaa.csv"] 3 holding_game_a =
      for_each (process_file two_games) ["/data/ncaa.csv"] total' s' /\
    (exists n sn, for_each (process_file two_games) ["/data/ncaa.csv"] total' s' = (Ok n, sn)) /\
    (exists n sn, process_batches two_games ["/data/a.csv"; "/data/b.csv"] start = (Ok n, sn)).
Proof.
  assert (fails two_games "/data/b.csv" holding_game_a (OnInsert duplicate_error)) as F.
  { eapply fails_insert; vm_compute; reflexivity. }
  split; [exact F|].
  exact (file_failure_is_absorbed two_games 3 "/data/b.csv" ["/data/ncaa.csv"]
           ["/data/a.csv"; "/data/b.csv"] holding_game_a start
           (OnInsert duplicate_error) F).
Defined.

Lemma empty_table_is_read_error_witness :
  read_csv two_games "/data/empty.csv" = Ok header_only /\
  wf_frame header_only /\
  index_len header_only = 0 /\
  exists e,
    first_level header_only = Raise e /\
    let s' := mkState [(ERROR, "Error reading /data/empty.csv: " ++ str_exn e)] [] [] in
    process_file two_games 0 "/data/empty.csv" start = (Ok 0, s') /\
    for_each (process_file two_games) ["/data/empty.csv"; "/data/a.csv"] 0 start =
      for_each (process_file two_games) ["/data/a.csv"] 0 s'.
Proof.
  split; [reflexivity|]. split; [exact header_only_wf|]. split; [reflexivity|].
  exact (empty_table_is_read_error two_games 0 "/data/empty.csv" ["/data/a.csv"] start
           header_only eq_refl header_only_wf eq_refl).
Defined.

Lemma no_files_no_store_witness :
  Scanner.csv_files (Scanner.scan (os_walk (root nothing_to_load) (root_dir nothing_to_load)))
  = [] /\
  main nothing_to_load start =
    (Ok tt,
     mkState [ (INFO, "Files skipped: 1 unverified, 0 player positioning");
               (INFO, "Total CSV files to process: 0");
               (INFO, "No CSV files found.") ] [] []) /\
  rows_sent (inserts (snd (main nothing_to_load start))) = 0.
Proof.
  split; [reflexivity|].
  destruct (no_files_no_store nothing_to_load start eq_refl) as (M & _ & _ & R).
  split; [exact M|exact R].
Defined.



Lemma total_counts_rows_sent_witness :
  (exists total s',
      process_batches two_games ["/data/a.csv"; "/data/b.csv"] start = (Ok total, s') /\
      total = 5 /\ rows_sent (inserts s') = 5 /\ rows_inserted (inserts s') = 3 /\
      In (ERROR, "Integrity error: Duplicate key 'G1_9' in /data/b.csv"%string) (log s')) /\
  (exists df,
      prepare two_games "/data/b.csv" = Ok (inr df) /\
      to_sql two_games (db holding_game_a) (table two_games) df
      = (db holding_game_a, Some duplicate_error) /\
      process_file two_games 3 "/data/b.csv" holding_game_a =
      (Ok 5,
       mkState [(ERROR, "Integrity error: Duplicate key 'G1_9' in /data/b.csv"%string)]
               (db holding_game_a) [(df, Some duplicate_error)])).
Proof.
  destruct (total_counts_rows_sent two_games ["/data/a.csv"; "/data/b.csv"] start)
    as [(total & s' & E & Sent & Took & Logged) File].
  split.
  - exists total, s'. split; [exact E|].
    vm_compute in E. injection E as <- <-.
    split; [reflexivity|]. split; [reflexivity|]. split; [reflexivity|].
    vm_compute. tauto.
  - destruct (prepare two_games "/data/b.csv") as [[v|df]|e] eqn:P;
      try (vm_compute in P; discriminate P).
    exists df. split; [reflexivity|].
    assert (Q : to_sql two_games (db holding_game_a) (table two_games) df
                = (db holding_game_a, Some duplicate_error)).
    { vm_compute in P. injection P as <-. reflexivity. }
    split; [exact Q|].
    rewrite (File 3 "/data/b.csv" holding_game_a df _ _ P Q).
    vm_compute in P. injection P as <-. reflexivity.
Defined.

(** C2 as stated fails: the store takes the three rows of a.csv and
    refuses b.csv for a duplicate key, and the total is five, the two
    refused rows included. *)
Lemma refused_rows_are_counted :
  ~ (forall total s',
        process_batches two_games ["/data/a.csv"; "/data/b.csv"] start = (Ok total, s') ->
        total = rows_inserted (inserts s')).
Proof.
  intro H.
  destruct (process_batches two_games ["/data/a.csv"; "/data/b.csv"] start)
    as [[total|e] s'] eqn:E; vm_compute in E; [|discriminate E].
  specialize (H total s' eq_refl).
  injection E as <- <-. vm_compute in H. discriminate H.
Qed.

End Runs.

(** ** Whole runs *)

Section RunFacts.
Import Pandas Spec Effects.

Variable w : world.

Lemma for_each_app {A B : Type} (body : B -> A -> prog (DB w) B) (l1 l2 : list A)
  (b : B) (s : state (DB w)) :
  for_each body (l1 ++ l2) b s = pbind (for_each body l1 b) (for_each body l2) s.
Proof.
  revert b s. induction l1 as [|x l1 IH]; intros b s; simpl; [reflexivity|].
  unfold pbind in *. destruct (body b x s) as [[b1|e] s1]; [|reflexivity].
  apply IH.
Qed.

Lemma cleaned_app (l1 l2 : list string) :
  cleaned w (l1 ++ l2) = (cleaned w l1 ++ cleaned w l2)%list.
Proof. apply flat_map_app. Qed.

Lemma worked_through_nil (total : nat) (s : state (DB w)) :
  worked_through w [] 0 total s total s.
Proof.
  unfold worked_through. simpl. rewrite app_nil_r. repeat split; [lia|].
  exists []. now rewrite app_nil_r.
Qed.

Lemma worked_through_trans (l1 l2 : list string) (e1 e2 t0 t1 t2 : nat)
  (s0 s1 s2 : state (DB w)) :
  worked_through w l1 e1 t0 s0 t1 s1 ->
  worked_through w l2 e2 t1 s1 t2 s2 ->
  worked_through w (l1 ++ l2) (e1 + e2) t0 s0 t2 s2.
Proof.
  intros (T1 & I1 & D1 & lines1 & L1 & N1 & F1) (T2 & I2 & D2 & lines2 & L2 & N2 & F2).
  unfold worked_through. rewrite cleaned_app, map_app, list_sum_app, fold_left_app.
  split; [lia|]. split; [now rewrite I2, I1, app_assoc|]. split; [now rewrite D2, D1|].
  exists (lines1 ++ lines2)%list. rewrite L2, L1, app_assoc, forallb_app, F1, F2.
  split; [reflexivity|]. split; [|reflexivity].
  rewrite !length_app. lia.
Qed.

(** One more line logged and nothing else. *)
Lemma worked_through_line (total : nat) (s : state (DB w)) (line : log_entry) :
  is_fatal line = false ->
  worked_through w [] 1 total s total
                 (mkState (log s ++ [line])%list (db s) (inserts s)).
Proof.
  intro F. unfold worked_through. simpl. rewrite app_nil_r.
  repeat split; [lia|]. exists [line]. simpl. now rewrite F.
Qed.

Lemma failure_line_not_fatal (file_path : string) (f : failure) :
  is_fatal (ERROR, failure_line file_path f) = false.
Proof.
  destruct f as [e|e]; [reflexivity|].
  destruct e; try reflexivity.
  simpl. now destruct (Re.search_duplicate_key orig).
Qed.

Lemma process_file_worked (total : nat) (file_path : string) (s : state (DB w)) :
  exists total' s',
    process_file w total file_path s = (Ok total', s') /\
    worked_through w [file_path] 0 total s total' s'.
Proof.
  rewrite process_file_cases. unfold worked_through, cleaned. simpl.
  destruct (prepare w file_path) as [[v|df]|e]; simpl.
  - eexists _, _. split; [reflexivity|]. simpl. rewrite app_nil_r.
    repeat split; [lia|]. eexists [_]. repeat split.
  - rewrite insert_to_db_cases. unfold store_after.
    destruct (to_sql w (db s) (table w) df) as [db' r].
    eexists _, _. split; [reflexivity|]. simpl. rewrite map_app. simpl.
    repeat split; [lia|]. eexists [_]. split; [reflexivity|]. split; [reflexivity|].
    destruct r as [e|]; [|reflexivity].
    destruct e; try reflexivity.
    simpl. now destruct (Re.search_duplicate_key orig).
  - eexists _, _. split; [reflexivity|]. simpl. rewrite app_nil_r.
    repeat split; [lia|]. eexists [_]. split; [reflexivity|]. split; [reflexivity|].
    reflexivity.
Qed.

Lemma process_files_worked (files : list string) (total : nat) (s : state (DB w)) :
  exists total' s',
    for_each (process_file w) files total s = (Ok total', s') /\
    worked_through w files 0 total s total' s'.
Proof.
  revert total s. induction files as [|f files IH]; intros total s.
  - exists total, s. split; [reflexivity|apply worked_through_nil].
  - destruct (process_file_worked total f s) as (t1 & s1 & E1 & W1).
    destruct (IH t1 s1) as (t2 & s2 & E2 & W2).
    exists t2, s2. simpl. unfold pbind. rewrite E1. split; [exact E2|].
    exact (worked_through_trans [f] files 0 0 _ _ _ _ _ _ W1 W2).
Qed.

Lemma process_batch_worked (csv_files : list string) (total k : nat) (s : state (DB w)) :
  exists total' s',
    process_batch w csv_files total k s = (Ok total', s') /\
    worked_through w (batch csv_files k) 1 total s total' s'.
Proof.
  unfold process_batch, pbind.
  destruct (process_files_worked (batch csv_files k) total s) as (t1 & s1 & E1 & W1).
  rewrite E1. unfold logging, ret. eexists _, _. split; [reflexivity|].
  rewrite <- (app_nil_r (batch csv_files k)). change 1 with (0 + 1).
  eapply worked_through_trans; [exact W1|].
  apply worked_through_line. reflexivity.
Qed.

Lemma process_batch_list_worked (csv_files : list string) (ks : list nat)
  (total : nat) (s : state (DB w)) :
  exists total' s',
    for_each (process_batch w csv_files) ks total s = (Ok total', s') /\
    worked_through w (List.concat (map (batch csv_files) ks)) (List.length ks) total s total' s'.
Proof.
  revert total s. induction ks as [|k ks IH]; intros total s.
  - exists total, s. split; [reflexivity|apply worked_through_nil].
  - destruct (process_batch_worked csv_files total k s) as (t1 & s1 & E1 & W1).
    destruct (IH t1 s1) as (t2 & s2 & E2 & W2).
    exists t2, s2. simpl. unfold pbind. rewrite E1. split; [exact E2|].
    exact (worked_through_trans _ _ 1 _ _ _ _ _ _ _ W1 W2).
Qed.

(** *** The batches *)

Lemma batch_shift (l : list string) (k : nat) :
  batch l (S k) = batch (skipn batch_size l) k.
Proof.
  unfold batch. rewrite skipn_skipn. do 2 f_equal. lia.
Qed.

Lemma batches_cover (n : nat) (l : list string) :
  List.length l <= n * batch_size ->
  List.concat (map (batch l) (seq 0 n)) = l.
Proof.
  revert l. induction n as [|n IH]; intros l H.
  - destruct l; [reflexivity|simpl in H; lia].
  - cbn [seq map List.concat]. rewrite <- seq_shift, map_map.
    rewrite (map_ext _ _ (batch_shift l)), IH.
    + unfold batch. cbn [Nat.mul skipn]. apply firstn_skipn.
    + rewrite length_skipn. lia.
Qed.

Lemma batch_count_covers (l : list string) :
  List.length l <= batch_count l * batch_size.
Proof.
  unfold batch_count, batch_size.
  pose proof (Nat.div_mod_eq (List.length l + (100 - 1)) 100) as E.
  pose proof (Nat.mod_upper_bound (List.length l + (100 - 1)) 100) as U.
  lia.
Qed.

(** X1.  The batches of the main loop, taken in order, are the file list
    again: every file is in exactly one batch and the order is kept. *)
Theorem batches_partition (csv_files : list string) :
  List.concat (map (batch csv_files) (seq 0 (batch_count csv_files))) = csv_files.
Proof. apply batches_cover, batch_count_covers. Qed.

(** X2.  Each batch the loop forms is not empty and holds [batch_size]
    files, except that the last one holds what is left. *)
Theorem batch_sizes (csv_files : list string) (k : nat)
  (Hk : k < batch_count csv_files) :
  List.length (batch csv_files k)
  = Nat.min batch_size (List.length csv_files - k * batch_size) /\
  1 <= List.length (batch csv_files k) <= batch_size.
Proof.
  unfold batch. rewrite length_firstn, length_skipn.
  unfold batch_count, batch_size in *.
  pose proof (Nat.div_mod_eq (List.length csv_files + (100 - 1)) 100) as E.
  pose proof (Nat.mod_upper_bound (List.length csv_files + (100 - 1)) 100) as U.
  lia.
Qed.

Lemma process_batches_worked (csv_files : list string) (s : state (DB w)) :
  exists total s',
    process_batches w csv_files s = (Ok total, s') /\
    worked_through w csv_files (batch_count csv_files) 0 s total s'.
Proof.
  unfold process_batches.
  destruct (process_batch_list_worked csv_files (seq 0 (batch_count csv_files)) 0 s)
    as (total & s' & E & W).
  rewrite (batches_cover _ _ (batch_count_covers csv_files)), length_seq in W.
  now exists total, s'.
Qed.

(** X3.  Over a whole run of the loader the store is handed exactly the
    cleaned tables of the files that read, pass the level gate and clean,
    once each and in file order, whatever happened to earlier files and
    wherever the batches end; the total is the number of their rows. *)
Theorem store_receives_cleaned_tables (csv_files : list string) (s : state (DB w)) :
  exists total s',
    process_batches w csv_files s = (Ok total, s') /\
    total = list_sum (map index_len (cleaned w csv_files)) /\
    map fst (inserts s') = (map fst (inserts s) ++ cleaned w csv_files)%list /\
    db s' = fold_left (store_after w) (cleaned w csv_files) (db s).
Proof.
  destruct (process_batches_worked csv_files s) as (total & s' & E & T & I & D & _).
  exists total, s'. repeat split; assumption.
Qed.

Lemma main_with_files (s : state (DB w)) (f : string) (rest : list string) :
  let c := Scanner.scan (os_walk (root w) (root_dir w)) in
  Scanner.csv_files c = f :: rest ->
  exists lines total s',
    main w s = (Ok tt, s') /\
    log s' = (log s ++ scanner_lines c ++ lines ++ [complete_line w (f :: rest) total])%list /\
    List.length lines = List.length (f :: rest) + batch_count (f :: rest) /\
    forallb (fun e => negb (is_fatal e)) lines = true /\
    total = list_sum (map index_len (cleaned w (f :: rest))).
Proof.
  cbv zeta. intro E.
  unfold main, list_csv_files, try_except, pbind, logging, ret. cbn -[process_batches].
  rewrite E.
  match goal with
  | |- context [process_batches w (f :: rest) ?s0] =>
      destruct (process_batches_worked (f :: rest) s0)
        as (total & s' & P & T & _ & _ & lines & L & N & F)
  end.
  rewrite P. exists lines, total. eexists. split; [reflexivity|].
  cbn [log]. rewrite L. cbn [log]. unfold scanner_lines, complete_line.
  split; [now rewrite <- !app_assoc|]. split; [exact N|]. split; [exact F|].
  rewrite T. reflexivity.
Qed.

(** X4.  A run that finds files logs, after the scanner's two lines, one
    line for every file and one for every batch, and ends with the summary
    line, which names the number of files found and the number of rows of
    the cleaned tables. *)
Theorem run_log_shape (s : state (DB w)) (f : string) (rest : list string)
  (Hfiles : Scanner.csv_files (Scanner.scan (os_walk (root w) (root_dir w))) = f :: rest) :
  exists lines total s',
    main w s = (Ok tt, s') /\
    log s' = (log s ++ scanner_lines (Scanner.scan (os_walk (root w) (root_dir w)))
                    ++ lines ++ [complete_line w (f :: rest) total])%list /\
    List.length lines = List.length (f :: rest) + batch_count (f :: rest) /\
    total = list_sum (map index_len (cleaned w (f :: rest))).
Proof.
  destruct (main_with_files s f rest Hfiles) as (lines & total & s' & M & L & N & _ & T).
  exists lines, total, s'. repeat split; assumption.
Qed.

Lemma filter_none {A : Type} (p : A -> bool) (l : list A) :
  forallb (fun x => negb (p x)) l = true -> filter p l = [].
Proof.
  induction l as [|x l IH]; simpl; [reflexivity|].
  destruct (p x); simpl; [discriminate|exact IH].
Qed.

(** X5.  Whatever [read_csv] and [to_sql] raise for whatever files, the
    run returns normally and adds no fatal entry to the log. *)
Theorem run_never_fatal (s : state (DB w)) :
  fst (main w s) = Ok tt /\
  filter is_fatal (log (snd (main w s))) = filter is_fatal (log s).
Proof.
  destruct (Scanner.csv_files (Scanner.scan (os_walk (root w) (root_dir w))))
    as [|f rest] eqn:E.
  - destruct (main_without_files w s E) as (_ & M). rewrite M. cbn [fst snd log].
    split; [reflexivity|]. rewrite filter_app. cbn. now rewrite app_nil_r.
  - destruct (main_with_files s f rest E) as (lines & total & s' & M & L & _ & F & _).
    rewrite M. cbn [fst snd]. split; [reflexivity|].
    rewrite L, !filter_app, (filter_none _ _ F). cbn. now rewrite app_nil_r.
Qed.

End RunFacts.

(** ** Cleaned tables *)

Module CleanedFacts.
Import Pandas Spec CleanSpec CleanerFacts.

(** X6.  The two time formats of lines 60-61 accept no string in common:
    whatever the first format parses, the second rejects. *)
Theorem time_formats_disjoint (s : string) (t : time)
  (H : Strptime.strptime Strptime.HMSf s = Some t) :
  Strptime.strptime Strptime.HMS s = None.
Proof.
  unfold Strptime.strptime, Strptime.strptime_ns, Strptime.opt_bind in *.
  cbn [option_map] in *.
  destruct (Strptime.field 23 s) as [[h s1]|]; [|discriminate H].
  destruct (Strptime.literal ":" s1) as [s2|]; [|discriminate H].
  destruct (Strptime.field 59 s2) as [[m s3]|]; [|discriminate H].
  destruct (Strptime.literal ":" s3) as [s4|]; [|discriminate H].
  destruct (Strptime.field 61 s4) as [[sec s5]|]; [|discriminate H].
  destruct s5 as [|c s5]; [discriminate H|reflexivity].
Qed.

Lemma time_formats_disjoint_witness :
  Strptime.strptime Strptime.HMSf "14:05:30.123456" = Some (mkTime 14 5 30 123456) /\
  Strptime.strptime Strptime.HMS "14:05:30.123456" = None.
Proof.
  split; [reflexivity|].
  exact (time_formats_disjoint "14:05:30.123456" (mkTime 14 5 30 123456) eq_refl).
Defined.

(** X7.  In a cleaned table every object column holds strings only:
    missing values and times have become text. *)
Theorem cleaned_objects_are_text
  (parse_dates : column -> list (option timestamp)) (df df' : frame)
  (H : clean_data parse_dates df = Ok df') :
  Forall (fun nc => only_text (snd nc) = true) (columns df').
Proof.
  unfold clean_data in H.
  bind_ok H d Hd. bind_ok H d' Hd'. bind_ok H df2 H2.
  bind_ok H g Hg. bind_ok H g' Hg'. bind_ok H p Hp. bind_ok H r Hr.
  unfold stringify_objects in H.
  match type of H with
  | (if ?b then _ else _) = _ => destruct b; [discriminate H|]
  end.
  injection H as <-. cbn [columns].
  apply Forall_map, Forall_forall. intros [n c] _. cbn [snd].
  destruct c; try reflexivity.
  unfold stringify_column, astype_str, only_text, cells.
  induction l as [|o l IH]; [reflexivity|exact IH].
Qed.

Lemma cleaned_objects_are_text_witness :
  exists df',
    clean_data Sample.no_dates Sample.null_game = Ok df' /\
    Forall (fun nc => only_text (snd nc) = true) (columns df').
Proof.
  destruct (clean_data Sample.no_dates Sample.null_game) as [df'|] eqn:E;
    [|vm_compute in E; discriminate E].
  exists df'. split; [reflexivity|].
  exact (cleaned_objects_are_text Sample.no_dates Sample.null_game df' E).
Defined.

(** X8.  Cleaning succeeds only on a table that has the columns Date,
    Time, GameID and PitchNo, with GameID an object column: a table that
    lacks one of them, or whose GameID is numeric, raises instead. *)
Theorem cleaning_needs_columns
  (parse_dates : column -> list (option timestamp)) (df df' : frame)
  (H : clean_data parse_dates df = Ok df') :
  exists d t l p,
    lookup "Date" (columns df) = Some d /\
    lookup "Time" (columns df) = Some t /\
    lookup "GameID" (columns df) = Some (ColObject l) /\
    lookup "PitchNo" (columns df) = Some p.
Proof.
  unfold clean_data in H.
  bind_ok H d Hd. bind_ok H d' Hd'. bind_ok H df2 H2.
  bind_ok H g Hg. bind_ok H g' Hg'. bind_ok H p Hp. bind_ok H r Hr.
  destruct (clean_time_frame _ _ H2) as (_ & Keep).
  apply getitem_ok in Hd, Hg, Hp.
  rewrite Keep in Hg, Hp by discriminate.
  cbn [setitem columns] in Hg, Hp.
  rewrite lookup_assign_other in Hg, Hp by discriminate.
  rewrite lookup_rename in Hd, Hg, Hp by discriminate.
  unfold clean_time in H2. bind_ok H2 t Ht. apply getitem_ok in Ht.
  cbn [setitem columns] in Ht.
  rewrite lookup_assign_other in Ht by discriminate.
  rewrite lookup_rename in Ht by discriminate.
  destruct g as [| | |l|]; try discriminate Hg'.
  now exists d, t, l, p.
Qed.

Lemma cleaning_needs_columns_witness :
  exists df' d t l p,
    clean_data Sample.no_dates Sample.game_a = Ok df' /\
    lookup "Date" (columns Sample.game_a) = Some d /\
    lookup "Time" (columns Sample.game_a) = Some t /\
    lookup "GameID" (columns Sample.game_a) = Some (ColObject l) /\
    lookup "PitchNo" (columns Sample.game_a) = Some p.
Proof.
  destruct (clean_data Sample.no_dates Sample.game_a) as [df'|] eqn:E;
    [|vm_compute in E; discriminate E].
  destruct (cleaning_needs_columns Sample.no_dates Sample.game_a df' E)
    as (d & t & l & p & H).
  exists df', d, t, l, p. split; [reflexivity|exact H].
Defined.

(** *** Lengths *)

Lemma to_datetime_format_result (fmt : Strptime.format) (c c' : column) :
  to_datetime_format fmt c = Ok c' ->
  exists l, c' = ColDatetime l /\ List.length l = List.length (cells c).
Proof.
  destruct c as [l|l|l|l|l]; simpl; intro H; try discriminate H;
    injection H as <-; eexists; split; try reflexivity;
    now rewrite ?length_map.
Qed.

Lemma to_datetime_result
  (parse_dates : column -> list (option timestamp)) (c c' : column) :
  keeps_length parse_dates ->
  to_datetime parse_dates c = Ok c' ->
  List.length (cells c') = List.length (cells c).
Proof.
  intros K. destruct c as [l|l|l|l|l]; simpl; intro H; try discriminate H;
    injection H as <-; simpl; rewrite ?length_map; try reflexivity;
    rewrite K; simpl; now rewrite ?length_map.
Qed.

Lemma add_objs_length (xs ys zs : list pyobj) :
  add_objs xs ys = Some zs ->
  List.length zs = Nat.min (List.length xs) (List.length ys).
Proof.
  revert ys zs. induction xs as [|x xs IH]; intros ys zs H.
  - simpl in H. injection H as <-. reflexivity.
  - destruct ys as [|y ys]; simpl in H; [injection H as <-; reflexivity|].
    destruct (add_obj x y); [|discriminate H].
    destruct (add_objs xs ys) as [zs0|] eqn:E; [|discriminate H].
    injection H as <-. simpl. now rewrite (IH ys zs0 E).
Qed.

Lemma add_series_length (a b r : column) :
  add_series a b = Ok r ->
  List.length (cells r) = Nat.min (List.length (cells a)) (List.length (cells b)).
Proof.
  unfold add_series. intro H.
  destruct a as [| | |xs|]; try discriminate H.
  destruct b as [| | |ys|]; try discriminate H.
  destruct (add_objs xs ys) as [zs|] eqn:E; [|discriminate H].
  injection H as <-. simpl. rewrite !length_map. now apply add_objs_length.
Qed.

Lemma add_str_length (a r : column) (s : string) :
  add_str a s = Ok r -> List.length (cells r) = List.length (cells a).
Proof.
  unfold add_str. intro H. destruct a as [| | |xs|]; try discriminate H.
  rewrite (add_series_length _ _ _ H). simpl. rewrite !length_map. lia.
Qed.

Lemma astype_str_length (c : column) :
  List.length (cells (astype_str c)) = List.length (cells c).
Proof. unfold astype_str. simpl. now rewrite !length_map. Qed.

Lemma stringify_column_length (c : column) :
  List.length (cells (stringify_column c)) = List.length (cells c).
Proof. destruct c; try reflexivity. apply astype_str_length. Qed.

(** *** Frames that stay full *)

Lemma full_lookup (df : frame) (name : string) (c : column) :
  full df -> lookup name (columns df) = Some c ->
  List.length (cells c) = index_len df.
Proof.
  unfold full. induction (columns df) as [|[n c0] cols IH]; simpl; intros F L.
  - discriminate L.
  - inversion F as [|? ? Fh Ft]; subst.
    destruct (String.eqb n name); [injection L as <-; exact Fh|now apply IH].
Qed.

Lemma full_wf (df : frame) : full df -> wf_frame df.
Proof. intros F name c L. exact (full_lookup df name c F L). Qed.

Lemma full_setitem (df : frame) (name : string) (c : column) :
  full df -> List.length (cells c) = index_len df -> full (setitem df name c).
Proof.
  unfold full, setitem. cbn [columns index_len]. intros F Hc.
  induction (columns df) as [|[n c0] cols IH]; simpl.
  - repeat constructor. exact Hc.
  - inversion F as [|? ? Fh Ft]; subst.
    destruct (String.eqb n name); constructor; auto.
Qed.

Lemma full_rename (df : frame) (old new : string) :
  full df -> full (rename old new df).
Proof.
  unfold full, rename. cbn [columns index_len]. intro F.
  apply Forall_map. revert F. apply Forall_impl. now intros [n c].
Qed.

Lemma assign_assign (name : string) (c c0 : column) (cols : list (string * column)) :
  assign name c (assign name c0 cols) = assign name c cols.
Proof.
  induction cols as [|[n c1] cols IH]; simpl.
  - now rewrite String.eqb_refl.
  - destruct (String.eqb n name) eqn:E; simpl; rewrite E; [reflexivity|now rewrite IH].
Qed.

(** Lines 60-62 in one step: the Time column becomes the time of day of
    its first parse. *)
Lemma clean_time_result (df df' : frame) :
  clean_time df = Ok df' ->
  exists t l1,
    lookup "Time" (columns df) = Some t /\
    to_datetime_format Strptime.HMSf t = Ok (ColDatetime l1) /\
    df' = setitem df "Time"
            (ColObject (map (fun x => match x with
                                      | Some ts => OTime (time_of_day ts)
                                      | None => ONaT
                                      end) l1)).
Proof.
  unfold clean_time. intro H.
  bind_ok H t Ht. bind_ok H t1 Ht1.
  destruct (to_datetime_format_result _ _ _ Ht1) as (l1 & -> & _).
  unfold getitem at 1 2 in H. cbn [setitem columns] in H.
  rewrite lookup_assign_same in H. cbn [bind to_datetime_format fillna] in H.
  rewrite fill_self in H.
  unfold getitem in H. cbn [setitem columns] in H.
  rewrite lookup_assign_same in H. cbn [bind dt_time] in H.
  injection H as <-.
  exists t, l1. split; [now apply getitem_ok|]. split; [exact Ht1|].
  unfold setitem. cbn [columns index_len]. now rewrite !assign_assign.
Qed.

(** X9.  Cleaning keeps every row: on a table whose columns all have one
    element per row, and with a date parser that answers element by
    element, the cleaned table has the same number of rows and again one
    element per row in every column, RowID included. *)
Theorem cleaning_keeps_rows
  (parse_dates : column -> list (option timestamp)) (df df' : frame)
  (Hfull : full df)
  (Hdates : keeps_length parse_dates)
  (H : clean_data parse_dates df = Ok df') :
  index_len df' = index_len df /\ full df'.
Proof.
  unfold clean_data in H.
  bind_ok H d Hd. bind_ok H d' Hd'. bind_ok H df2 H2.
  bind_ok H g Hg. bind_ok H g' Hg'. bind_ok H p Hp. bind_ok H r Hr.
  apply getitem_ok in Hd, Hg, Hp.
  pose proof (full_rename df "Top/Bottom" "Top_Bottom" Hfull) as F0.
  assert (full (setitem (rename "Top/Bottom" "Top_Bottom" df) "Date" d')) as F1.
  { apply full_setitem; [exact F0|].
    rewrite (to_datetime_result _ _ _ Hdates Hd').
    exact (full_lookup _ _ _ F0 Hd). }
  destruct (clean_time_result _ _ H2) as (t & l1 & Lt & Pt & ->).
  destruct (to_datetime_format_result _ _ _ Pt) as (l1' & E1 & N1).
  injection E1 as <-.
  match type of Hg with
  | lookup _ (columns ?df2) = _ => assert (full df2) as F2
  end.
  { apply full_setitem; [exact F1|]. simpl. rewrite !length_map, N1.
    exact (full_lookup _ _ _ F1 Lt). }
  match goal with
  | F : full ?df2 |- _ =>
      match df2 with
      | setitem (setitem _ _ _) _ _ =>
          assert (full (setitem df2 "RowID" r)) as F3
      end
  end.
  { apply full_setitem; [exact F2|].
    rewrite (add_series_length _ _ _ Hr), astype_str_length,
      (add_str_length _ _ _ Hg'), (full_lookup _ _ _ F2 Hg), (full_lookup _ _ _ F2 Hp).
    apply Nat.min_id. }
  unfold stringify_objects in H.
  match type of H with
  | (if ?b then _ else _) = _ => destruct b; [discriminate H|]
  end.
  injection H as <-. split; [reflexivity|].
  unfold full in *. cbn [columns index_len] in *.
  apply Forall_map. revert F3. apply Forall_impl. intros [n c] Hc. cbn [snd] in *.
  now rewrite stringify_column_length.
Qed.

Lemma sample_full : full Sample.game_a.
Proof. repeat constructor. Defined.

Lemma sample_dates : keeps_length Sample.no_dates.
Proof. intro c. unfold Sample.no_dates. apply length_map. Defined.

Lemma cleaning_keeps_rows_witness :
  exists df',
    full Sample.game_a /\ keeps_length Sample.no_dates /\
    clean_data Sample.no_dates Sample.game_a = Ok df' /\
    index_len df' = 3 /\ full df'.
Proof.
  destruct (clean_data Sample.no_dates Sample.game_a) as [df'|] eqn:E;
    [|vm_compute in E; discriminate E].
  exists df'. split; [exact sample_full|]. split; [exact sample_dates|].
  split; [reflexivity|].
  exact (cleaning_keeps_rows Sample.no_dates Sample.game_a df'
           sample_full sample_dates E).
Defined.



(** *** Labels *)

Lemma labels_assign (name : string) (c : column) (cols : list (string * column)) :
  map fst (assign name c cols) =
  if existsb (fun m => String.eqb m name) (map fst cols)
  then map fst cols else (map fst cols ++ [name])%list.
Proof.
  induction cols as [|[n c0] cols IH]; simpl; [reflexivity|].
  destruct (String.eqb n name); simpl; [reflexivity|].
  rewrite IH. now destruct (existsb (fun m => String.eqb m name) (map fst cols)).
Qed.

Lemma lookup_existsb (name : string) (c : column) (cols : list (string * column)) :
  lookup name cols = Some c ->
  existsb (fun m => String.eqb m name) (map fst cols) = true.
Proof.
  induction cols as [|[n c0] cols IH]; simpl; [discriminate|].
  destruct (String.eqb n name); [reflexivity|exact IH].
Qed.

Lemma labels_assign_present (name : string) (c c0 : column) (cols : list (string * column)) :
  lookup name cols = Some c0 -> map fst (assign name c cols) = map fst cols.
Proof. intro L. now rewrite labels_assign, (lookup_existsb _ _ _ L). Qed.

Lemma has_dup_NoDup (l : list string) : has_dup l = false -> NoDup l.
Proof.
  induction l as [|x l IH]; simpl; intro H; [constructor|].
  apply orb_false_elim in H as (E & D). constructor; [|now apply IH].
  intro I. assert (existsb (String.eqb x) l = true) as T.
  { apply existsb_exists. exists x. split; [exact I|apply String.eqb_refl]. }
  congruence.
Qed.

(** X11.  The columns of a cleaned table are those of the raw table in
    the same order, with "Top/Bottom" called "Top_Bottom", and RowID added
    at the end unless the raw table had a column of that name; no label
    occurs twice. *)
Theorem cleaned_labels
  (parse_dates : column -> list (option timestamp)) (df df' : frame)
  (H : clean_data parse_dates df = Ok df') :
  map fst (columns df') =
    (let ls := map clean_label (map fst (columns df)) in
     if existsb (fun m => String.eqb m "RowID") ls then ls else (ls ++ ["RowID"])%list) /\
  NoDup (map fst (columns df')).
Proof.
  unfold clean_data in H.
  bind_ok H d Hd. bind_ok H d' Hd'. bind_ok H df2 H2.
  bind_ok H g Hg. bind_ok H g' Hg'. bind_ok H p Hp. bind_ok H r Hr.
  destruct (clean_time_result _ _ H2) as (t & l1 & Lt & Pt & ->).
  apply getitem_ok in Hd.
  unfold stringify_objects in H.
  match type of H with
  | (if has_dup ?ls then _ else _) = _ =>
      destruct (has_dup ls) eqn:Dup; [discriminate H|]
  end.
  injection H as <-. cbn [columns setitem] in *.
  assert (forall cols : list (string * column),
             map fst (map (fun nc => (fst nc, stringify_column (snd nc))) cols)
             = map fst cols) as Same.
  { intro cols. rewrite map_map. now apply map_ext. }
  rewrite Same. split; [|now apply has_dup_NoDup].
  rewrite labels_assign.
  rewrite (labels_assign_present _ _ _ _ Lt), (labels_assign_present _ _ _ _ Hd).
  unfold rename. cbn [columns]. rewrite !map_map. reflexivity.
Qed.

Lemma cleaned_labels_witness :
  exists df',
    clean_data Sample.no_dates Sample.game_a = Ok df' /\
    map fst (columns df')
    = ["Date"; "Time"; "Level"; "GameID"; "PitchNo"; "Top_Bottom"; "RowID"]%string /\
    NoDup (map fst (columns df')).
Proof.
  destruct (clean_data Sample.no_dates Sample.game_a) as [df'|] eqn:E;
    [|vm_compute in E; discriminate E].
  exists df'. split; [reflexivity|].
  exact (cleaned_labels Sample.no_dates Sample.game_a df' E).
Defined.

(** *** RowID as a key *)

Lemma str_of_Z_inj (a b : Z) : PyStr.str_of_Z a = PyStr.str_of_Z b -> a = b.
Proof.
  unfold PyStr.str_of_Z. intro H.
  apply DecimalZ.to_int_inj.
  assert (forall z, Z.to_int z <> Decimal.Pos Decimal.Nil /\
                    Z.to_int z <> Decimal.Neg Decimal.Nil) as N.
  { intros [|q|q]; simpl; split; try discriminate;
      intro E; injection E as E; now apply DecimalPos.Unsigned.to_uint_nonnil in E. }
  destruct (N a) as (A1 & A2). destruct (N b) as (B1 & B2).
  pose proof (NilZero.isi _ A1 A2) as Ia. pose proof (NilZero.isi _ B1 B2) as Ib.
  rewrite H in Ia. congruence.
Qed.

Lemma digits_have_no_underscore (d : Decimal.uint) :
  has_char "_" (NilEmpty.string_of_uint d) = false.
Proof. induction d; simpl; auto. Qed.

Lemma str_of_Z_no_underscore (z : Z) : has_char "_" (PyStr.str_of_Z z) = false.
Proof.
  unfold PyStr.str_of_Z, NilZero.string_of_int, NilZero.string_of_uint.
  destruct (Z.to_int z) as [d|d]; destruct d; simpl; auto using digits_have_no_underscore.
Qed.

Lemma has_char_middle (c : ascii) (a b : string) :
  has_char c (a ++ String c b) = true.
Proof.
  induction a as [|x a IH]; simpl; [now rewrite Ascii.eqb_refl|].
  rewrite IH. apply orb_true_r.
Qed.

Lemma split_at_last_underscore (a b x y : string) :
  has_char "_" x = false -> has_char "_" y = false ->
  (a ++ "_" ++ x = b ++ "_" ++ y)%string -> a = b /\ x = y.
Proof.
  intros Hx Hy. revert b. induction a as [|c a IH]; intros [|c' b] E; simpl in E.
  - injection E as E. now split.
  - injection E as _ E. rewrite E in Hx.
    change ("_" ++ y)%string with (String "_" y) in Hx.
    now rewrite has_char_middle in Hx.
  - injection E as _ E. rewrite <- E in Hy.
    change ("_" ++ x)%string with (String "_" x) in Hy.
    now rewrite has_char_middle in Hy.
  - injection E as -> E. destruct (IH b E) as (-> & ->). now split.
Qed.

(** The RowID of a row with a string GameID. *)
Lemma row_id_cell
  (parse_dates : column -> list (option timestamp)) (df df' : frame)
  (i : nat) (game : string) (pitch : scalar) :
  clean_data parse_dates df = Ok df' ->
  cell df "GameID" i = Some (SObj (OStr game)) ->
  cell df "PitchNo" i = Some pitch ->
  cell df' "RowID" i = Some (SObj (OStr (game ++ "_" ++ py_str pitch))).
Proof.
  intros Hclean Hgame Hpitch.
  destruct (cell_string_column _ _ _ _ Hgame) as (g & Lg & Ng).
  destruct (cell_string_column _ _ _ _ Hpitch) as (p & Lp & Np).
  unfold clean_data in Hclean.
  bind_ok Hclean d Hd. bind_ok Hclean d' Hd'. bind_ok Hclean df2 H2.
  bind_ok Hclean g0 Hg0. bind_ok Hclean g' Hg'. bind_ok Hclean p0 Hp0.
  bind_ok Hclean r Hr.
  destruct (clean_time_frame _ _ H2) as (_ & Keep).
  apply getitem_ok in Hg0, Hp0.
  rewrite Keep in Hg0, Hp0 by discriminate.
  cbn [setitem columns] in Hg0, Hp0.
  rewrite lookup_assign_other in Hg0, Hp0 by discriminate.
  rewrite lookup_rename in Hg0, Hp0 by discriminate.
  assert (g0 = g) by congruence. assert (p0 = p) by congruence. subst g0 p0.
  pose proof (add_str_nth _ _ _ _ _ Hg' Ng) as Ng'.
  pose proof (add_series_nth _ _ _ _ _ _ Hr Ng' (astype_str_nth _ _ _ Np)) as Nr.
  destruct (stringify_lookup _ _ "RowID" Hclean) as (_ & L).
  cbn [setitem columns] in L. rewrite lookup_assign_same in L.
  unfold cell. rewrite L. cbn [option_map].
  destruct (add_series_object _ _ _ Hr) as (zs & ->).
  cbn [stringify_column]. rewrite (astype_str_nth _ _ _ Nr). cbn [py_str str_obj].
  now rewrite string_app_assoc.
Qed.

(** X12.  RowID tells pitches apart: in a cleaned table, two rows with
    string GameIDs and integer PitchNos that have the same RowID have the
    same GameID and the same PitchNo. *)
Theorem row_id_identifies_pitch
  (parse_dates : column -> list (option timestamp)) (df df' : frame)
  (i j : nat) (g1 g2 : string) (n1 n2 : Z)
  (H : clean_data parse_dates df = Ok df')
  (Hg1 : cell df "GameID" i = Some (SObj (OStr g1)))
  (Hg2 : cell df "GameID" j = Some (SObj (OStr g2)))
  (Hn1 : cell df "PitchNo" i = Some (SInt n1))
  (Hn2 : cell df "PitchNo" j = Some (SInt n2))
  (Hsame : cell df' "RowID" i = cell df' "RowID" j) :
  g1 = g2 /\ n1 = n2.
Proof.
  rewrite (row_id_cell _ _ _ _ _ _ H Hg1 Hn1), (row_id_cell _ _ _ _ _ _ H Hg2 Hn2) in Hsame.
  injection Hsame as E. cbn [py_str] in E.
  apply split_at_last_underscore in E; try apply str_of_Z_no_underscore.
  destruct E as (-> & E). split; [reflexivity|now apply str_of_Z_inj].
Qed.

Lemma row_id_identifies_pitch_witness :
  exists df',
    clean_data Sample.no_dates Sample2.twice = Ok df' /\
    cell Sample2.twice "GameID" 0 = Some (SObj (OStr "G1")) /\
    cell Sample2.twice "GameID" 1 = Some (SObj (OStr "G1")) /\
    cell Sample2.twice "PitchNo" 0 = Some (SInt 7) /\
    cell Sample2.twice "PitchNo" 1 = Some (SInt 7) /\
    cell df' "RowID" 0 = cell df' "RowID" 1 /\
    "G1"%string = "G1"%string /\ 7%Z = 7%Z.
Proof.
  destruct (clean_data Sample.no_dates Sample2.twice) as [df'|] eqn:E;
    [|vm_compute in E; discriminate E].
  assert (cell df' "RowID" 0 = cell df' "RowID" 1) as Same.
  { vm_compute in E. injection E as <-. reflexivity. }
  exists df'. split; [reflexivity|]. split; [reflexivity|]. split; [reflexivity|].
  split; [reflexivity|]. split; [reflexivity|]. split; [exact Same|].
  exact (row_id_identifies_pitch Sample.no_dates Sample2.twice df' 0 1 "G1" "G1" 7 7
           E eq_refl eq_refl eq_refl eq_refl Same).
Defined.

End CleanedFacts.

(** ** The duplicate key in an error message *)

Section KeyFacts.
Import Pandas Spec CleanSpec.

Lemma strip_prefix_app (p s r : string) :
  Re.strip_prefix p s = Some r -> s = (p ++ r)%string.
Proof.
  revert s. induction p as [|a p IH]; intros s H; simpl in *.
  - now injection H as ->.
  - destruct s as [|b s]; [discriminate H|].
    destruct (Ascii.eqb_spec a b) as [->|]; [|discriminate H].
    now rewrite (IH s H).
Qed.

Lemma strip_prefix_of_app (p r : string) : Re.strip_prefix p (p ++ r) = Some r.
Proof. induction p as [|a p IH]; simpl; [reflexivity|]. now rewrite Ascii.eqb_refl. Qed.

Lemma strip_prefix_none (p s : string) :
  String.prefix p s = false -> Re.strip_prefix p s = None.
Proof.
  revert s. induction p as [|a p IH]; intros [|b s] H; simpl in *;
    try discriminate H; try reflexivity.
  destruct (Ascii.eqb_spec a b) as [->|N]; [|reflexivity].
  destruct (ascii_dec b b); [now apply IH|contradiction].
Qed.

Lemma prefix_app_long (p a b : string) :
  String.length p <= String.length a ->
  String.prefix p (a ++ b) = String.prefix p a.
Proof.
  revert a. induction p as [|x p IH]; intros a L.
  - now destruct a, b.
  - destruct a as [|y a]; simpl in *; [lia|].
    destruct (ascii_dec x y); [apply IH; lia|reflexivity].
Qed.

Lemma string_length_app (a b : string) :
  String.length (a ++ b) = String.length a + String.length b.
Proof. induction a as [|x a IH]; simpl; [reflexivity|now rewrite IH]. Qed.

Lemma group_to_paren_sound (s k : string) :
  Re.group_to_paren s = Some k ->
  (exists rest, s = (k ++ ")" ++ rest)%string) /\
  has_char ")" k = false /\ has_char Re.newline k = false.
Proof.
  revert k. induction s as [|c s IH]; intros k H; simpl in H; [discriminate H|].
  destruct (Ascii.eqb_spec c ")") as [->|Np].
  - injection H as <-. split; [now exists s|]. now split.
  - destruct (Ascii.eqb_spec c Re.newline) as [->|Nn]; [discriminate H|].
    destruct (Re.group_to_paren s) as [k0|]; [|discriminate H].
    injection H as <-. destruct (IH k0 eq_refl) as ((rest & ->) & P & N).
    split; [now exists rest|]. simpl. rewrite P, N.
    split; rewrite orb_false_r; now apply Ascii.eqb_neq.
Qed.

Lemma group_to_paren_complete (k rest : string) :
  has_char ")" k = false -> has_char Re.newline k = false ->
  Re.group_to_paren (k ++ ")" ++ rest) = Some k.
Proof.
  induction k as [|c k IH]; simpl; intros P N; [reflexivity|].
  apply orb_false_elim in P as (P1 & P2). apply orb_false_elim in N as (N1 & N2).
  pose proof (IH P2 N2) as E. simpl in E. now rewrite P1, N1, E.
Qed.

(** X13.  A key taken from an error message stands in the message inside
    the sentence "The duplicate key value is (...)", and is free of closing
    parentheses and newlines. *)
Theorem found_key_is_quoted (message key : string)
  (H : Re.search_duplicate_key message = Some key) :
  (exists before rest,
      message = (before ++ "The duplicate key value is (" ++ key ++ ")" ++ rest)%string) /\
  has_char ")" key = false /\ has_char Re.newline key = false.
Proof.
  assert (forall s, Re.match_here s = Some key ->
                    (exists rest, s = ("The duplicate key value is (" ++ key ++ ")" ++ rest)%string)
                    /\ has_char ")" key = false /\ has_char Re.newline key = false) as Here.
  { intros s M. unfold Re.match_here in M.
    destruct (Re.strip_prefix "The duplicate key value is (" s) as [r|] eqn:S;
      [|discriminate M].
    apply strip_prefix_app in S.
    destruct (group_to_paren_sound r key M) as ((rest & ->) & P & N).
    split; [now exists rest|now split]. }
  induction message as [|c message IH].
  - simpl in H. discriminate H.
  - cbn [Re.search_duplicate_key] in H.
    destruct (Re.match_here (String c message)) as [k|] eqn:M.
    + injection H as ->. destruct (Here _ M) as ((rest & E) & P & N).
      split; [|now split]. exists ""%string, rest. exact E.
    + destruct (IH H) as ((before & rest & ->) & P & N).
      split; [|now split]. now exists (String c before), rest.
Qed.

Lemma found_key_is_quoted_witness :
  Re.search_duplicate_key
    "Violation of PRIMARY KEY constraint 'PK_pitches'. The duplicate key value is (G1_9)."
  = Some "G1_9"%string /\
  (exists before rest,
      "Violation of PRIMARY KEY constraint 'PK_pitches'. The duplicate key value is (G1_9)."%string
      = (before ++ "The duplicate key value is (" ++ "G1_9" ++ ")" ++ rest)%string) /\
  has_char ")" "G1_9" = false /\ has_char Re.newline "G1_9" = false.
Proof.
  split; [reflexivity|].
  exact (found_key_is_quoted
           "Violation of PRIMARY KEY constraint 'PK_pitches'. The duplicate key value is (G1_9)."
           "G1_9" eq_refl).
Defined.

Lemma search_finds_first (before key rest : string) :
  has_char ")" key = false -> has_char Re.newline key = false ->
  PyStr.contains "The duplicate key value is (" (before ++ "The duplicate key value is ")
  = false ->
  Re.search_duplicate_key (before ++ "The duplicate key value is (" ++ key ++ ")" ++ rest)
  = Some key.
Proof.
  intros P N. induction before as [|c before IH]; intro C.
  - assert (Re.match_here ("The duplicate key value is (" ++ key ++ ")" ++ rest)
            = Some key) as M.
    { unfold Re.match_here. rewrite strip_prefix_of_app.
      now apply group_to_paren_complete. }
    change ("" ++ "The duplicate key value is (" ++ key ++ ")" ++ rest)%string
      with ("The duplicate key value is (" ++ key ++ ")" ++ rest)%string.
    remember ("The duplicate key value is (" ++ key ++ ")" ++ rest)%string as s eqn:Es.
    destruct s as [|x s]; [discriminate Es|].
    cbn [Re.search_duplicate_key]. now rewrite M.
  - change (String c before ++ "The duplicate key value is ")%string
      with (String c (before ++ "The duplicate key value is "))%string in C.
    cbn [PyStr.contains] in C. apply orb_false_elim in C as (C1 & C2).
    change (String c before ++ "The duplicate key value is (" ++ key ++ ")" ++ rest)%string
      with (String c (before ++ "The duplicate key value is (" ++ key ++ ")" ++ rest))%string.
    cbn [Re.search_duplicate_key].
    assert (Re.match_here
              (String c (before ++ "The duplicate key value is (" ++ key ++ ")" ++ rest))
            = None) as M.
    { unfold Re.match_here. rewrite strip_prefix_none; [reflexivity|].
      change (String c (before ++ "The duplicate key value is (" ++ key ++ ")" ++ rest))%string
        with (String c before ++ ("The duplicate key value is " ++ "(" ++ key ++ ")" ++ rest))%string.
      rewrite <- CleanerFacts.string_app_assoc.
      rewrite prefix_app_long; [exact C1|].
      rewrite string_length_app. simpl. lia. }
    rewrite M. now apply IH.
Qed.

Variable w : world.

(** X14.  When the store refuses a table with an integrity error whose
    driver message holds the sentence "The duplicate key value is (K)", K
    without closing parenthesis or newline and the sentence not begun
    earlier, [insert_to_db] returns normally and its one log line names K
    and the file. *)
Theorem duplicate_key_is_named
  (df : frame) (file_path before key rest msg : string)
  (s : state (DB w)) (db' : DB w)
  (Hparen : has_char ")" key = false)
  (Hline : has_char Re.newline key = false)
  (Hfirst : PyStr.contains "The duplicate key value is ("
                           (before ++ "The duplicate key value is ") = false)
  (Hsql : to_sql w (db s) (table w) df =
          (db', Some (IntegrityError
                        (before ++ "The duplicate key value is (" ++ key ++ ")" ++ rest)
                        msg))) :
  insert_to_db w df file_path s =
  (Ok tt,
   mkState (log s ++ [(ERROR, ("Integrity error: Duplicate key '" ++ key ++ "' in "
                               ++ file_path)%string)])%list
           db'
           (inserts s ++ [(df, Some (IntegrityError
                                       (before ++ "The duplicate key value is (" ++ key
                                        ++ ")" ++ rest) msg))])%list).
Proof.
  rewrite insert_to_db_cases, Hsql. cbn [failure_line].
  now rewrite (search_finds_first before key rest Hparen Hline Hfirst).
Qed.

End KeyFacts.

(** ** Where discovery looks *)

Section DiscoveryFacts.
Import Spec.

Lemma prefix_refl (a : string) : String.prefix a a = true.
Proof.
  induction a as [|c a IH]; simpl; [reflexivity|].
  destruct (ascii_dec c c); [exact IH|contradiction].
Qed.

Lemma prefix_trans (a b c : string) :
  String.prefix a b = true -> String.prefix b c = true -> String.prefix a c = true.
Proof.
  revert b c. induction a as [|x a IH]; intros b c H1 H2; [apply WordFacts.prefix_nil|].
  destruct b as [|y b]; [discriminate H1|].
  destruct c as [|z c]; [discriminate H2|].
  simpl in *.
  destruct (ascii_dec x y) as [->|]; [|discriminate H1].
  destruct (ascii_dec y z) as [->|]; [|discriminate H2].
  exact (IH b c H1 H2).
Qed.

Lemma path_join_under (a b : string) :
  PyStr.startswith "/" b = false -> String.prefix a (path_join a b) = true.
Proof.
  intro H. unfold path_join. rewrite H.
  destruct (String.eqb a "" || PyStr.endswith a "/"); apply WordFacts.prefix_app.
Qed.

Lemma path_join_csv (a b : string) :
  Scanner.is_csv b = true -> Scanner.is_csv (path_join a b) = true.
Proof.
  rewrite !WordFacts.is_csv_spec. unfold path_join, Words.csv_suffix. intro H.
  destruct (PyStr.startswith "/" b); [exact H|].
  destruct (String.eqb a "" || PyStr.endswith a "/");
    repeat apply WordFacts.ends_with_app; exact H.
Qed.

(** Induction over a tree and the trees below it. *)
Lemma dirtree_induction (P : dirtree -> Prop)
  (step : forall filenames subdirs,
      Forall (fun d => match snd d with
                       | Some t => P t
                       | None => True
                       end) subdirs ->
      P (Dir filenames subdirs)) :
  forall t, P t.
Proof.
  fix IH 1. intros [filenames subdirs]. apply step.
  induction subdirs as [|[name [t|]] subdirs IHs]; constructor; simpl; auto.
Qed.

(** Every directory the walk reports lies under its top, and its file
    names are plain. *)
Lemma walk_under (t : dirtree) :
  forall top, plain_names t = true ->
    Forall (fun e => String.prefix top (fst e) = true /\
                     Forall (fun f => PyStr.startswith "/" f = false) (snd e))
           (walk top t).
Proof.
  induction t as [filenames subdirs IH] using dirtree_induction.
  intros top H. cbn [plain_names] in H. apply andb_true_iff in H as (Hf & Hd).
  cbn [walk]. constructor.
  - cbn [fst snd]. split; [apply prefix_refl|].
    apply Forall_forall. intros f I.
    rewrite forallb_forall in Hf. specialize (Hf f I).
    now apply negb_true_iff in Hf.
  - apply Forall_flat_map. rewrite forallb_forall in Hd.
    rewrite Forall_forall in IH |- *. intros [name sub] I.
    specialize (Hd _ I). specialize (IH _ I). cbn [fst snd] in *.
    apply andb_true_iff in Hd as (Hn & Hs). apply negb_true_iff in Hn.
    destruct sub as [t'|]; [|constructor].
    specialize (IH (path_join top name) Hs).
    revert IH. apply Forall_impl. intros e (Pe & Fe). split; [|exact Fe].
    exact (prefix_trans _ _ _ (path_join_under top name Hn) Pe).
Qed.

Lemma seen_in (entries : list (string * list string)) (f : string * string) :
  In f (seen entries) ->
  exists e, In e entries /\ fst f = fst e /\ In (snd f) (snd e).
Proof.
  unfold seen. intro I. apply in_flat_map in I as (e & Ie & If).
  apply in_map_iff in If as (name & <- & In'). now exists e.
Qed.

Variable w : world.

(** X15.  With names as [scandir] gives them (none begins with a slash),
    every path discovery returns lies under the root directory and ends in
    ".csv", whatever the case of the letters. *)
Theorem discovery_stays_under_root (s : state (DB w)) (t : dirtree)
  (Hroot : root w = Some t)
  (Hnames : plain_names t = true) :
  exists files,
    fst (list_csv_files w s) = Ok files /\
    Forall (fun p => PyStr.startswith (root_dir w) p = true /\ Scanner.is_csv p = true)
           files.
Proof.
  exists (Scanner.csv_files (Scanner.scan (os_walk (root w) (root_dir w)))).
  split; [reflexivity|]. rewrite Hroot. cbn [os_walk].
  destruct (ScannerFacts.fold_visit (seen (walk (root_dir w) t)) Scanner.init)
    as (_ & _ & _ & F).
  unfold Scanner.scan. rewrite ScannerFacts.scan_from_seen, F.
  cbn [Scanner.csv_files Scanner.init app].
  apply Forall_map, Forall_forall. intros f I.
  apply filter_In in I as (I & Inc).
  destruct (seen_in _ _ I) as (e & Ie & Ed & En).
  pose proof (walk_under t (root_dir w) Hnames) as U.
  rewrite Forall_forall in U. destruct (U e Ie) as (Pe & Fe).
  rewrite Forall_forall in Fe. specialize (Fe _ En).
  unfold included_name in Inc. apply andb_true_iff in Inc as (_ & Csv).
  split.
  - unfold PyStr.startswith. rewrite Ed.
    exact (prefix_trans _ _ _ Pe (path_join_under _ _ Fe)).
  - now apply path_join_csv.
Qed.

End DiscoveryFacts.

(** ** The directory of yesterday *)

Module DateFacts.
Import DateDir.

Lemma days_in_month_bounds (y m : Z) : (28 <= days_in_month y m <= 31)%Z.
Proof.
  unfold days_in_month.
  destruct (m =? 2)%Z; [destruct (is_leap y); lia|].
  destruct ((m =? 4)%Z || (m =? 6)%Z || (m =? 9)%Z || (m =? 11)%Z); lia.
Qed.

Lemma december (y : Z) : days_in_month y 12 = 31%Z.
Proof. reflexivity. Qed.

Lemma yesterday_valid (today : date) :
  valid today -> today <> mkDate 1 1 1 ->
  exists y, yesterday today = Ok y /\ valid y.
Proof.
  intros (Hy & Hm & Hd) Hnot_first. destruct today as [y m d].
  unfold valid, yesterday. cbn [year month day] in *.
  destruct (Z.ltb_spec 1 d) as [D|D].
  - eexists. split; [reflexivity|]. cbn [year month day]. lia.
  - destruct (Z.ltb_spec 1 m) as [M|M].
    + eexists. split; [reflexivity|]. cbn [year month day].
      pose proof (days_in_month_bounds y (m - 1)) as B. lia.
    + destruct (Z.ltb_spec 1 y) as [Y|Y].
      * eexists. split; [reflexivity|]. cbn [year month day].
        rewrite december. lia.
      * assert (y = 1%Z) as -> by lia. assert (m = 1%Z) as -> by lia.
        assert (d = 1%Z) as -> by lia. now contradiction Hnot_first.
Qed.

(** X16.  For every date of the calendar but the first, [yesterday] is a
    date of the calendar, and the day after it is the date given. *)
Theorem yesterday_is_the_day_before (today : date)
  (Hvalid : valid today)
  (Hnot_first : today <> mkDate 1 1 1) :
  exists y, yesterday today = Ok y /\ valid y /\ next_day y = today.
Proof.
  destruct today as [y m d]. unfold valid, yesterday, next_day in *. cbn [year month day] in *.
  destruct Hvalid as (Hy & Hm & Hd).
  destruct (Z.ltb_spec 1 d) as [D|D].
  - eexists. split; [reflexivity|]. cbn [year month day].
    split; [lia|].
    destruct (Z.ltb_spec (d - 1) (days_in_month y m)); [|lia].
    f_equal. lia.
  - assert (d = 1%Z) as -> by lia.
    destruct (Z.ltb_spec 1 m) as [M|M].
    + eexists. split; [reflexivity|]. cbn [year month day].
      pose proof (days_in_month_bounds y (m - 1)) as B.
      split; [lia|].
      rewrite Z.ltb_irrefl.
      destruct (Z.ltb_spec (m - 1) 12); [|lia].
      f_equal. lia.
    + assert (m = 1%Z) as -> by lia.
      destruct (Z.ltb_spec 1 y) as [Y|Y].
      * eexists. split; [reflexivity|]. cbn [year month day].
        rewrite december. split; [lia|]. cbn. f_equal. lia.
      * assert (y = 1%Z) as -> by lia. now contradiction Hnot_first.
Qed.

Lemma yesterday_is_the_day_before_witness :
  valid (mkDate 2024 3 1) /\ mkDate 2024 3 1 <> mkDate 1 1 1 /\
  exists y, yesterday (mkDate 2024 3 1) = Ok y /\ valid y /\ next_day y = mkDate 2024 3 1.
Proof.
  assert (valid (mkDate 2024 3 1)) as V by (unfold valid; cbn; lia).
  assert (mkDate 2024 3 1 <> mkDate 1 1 1) as N by discriminate.
  split; [exact V|]. split; [exact N|].
  exact (yesterday_is_the_day_before (mkDate 2024 3 1) V N).
Defined.

Lemma two_digits (z : Z) : (0 <= z <= 99)%Z -> String.length (Pandas.pad 2 z) = 2.
Proof.
  intro H. rewrite <- (Z2Nat.id z) by lia.
  assert (Z.to_nat z < 100) as L by lia.
  generalize dependent (Z.to_nat z). clear. intros n L.
  do 100 (destruct n as [|n]; [reflexivity|]). lia.
Qed.

(** X17.  For every date of the calendar but the first and every base
    directory, the root directory of the run is the base directory joined
    with v3, the year, and the month and the day of yesterday in two digits
    each; it lies under the base directory. *)
Theorem root_dir_shape (local_base : string) (today : date)
  (Hvalid : valid today)
  (Hnot_first : today <> mkDate 1 1 1) :
  exists y,
    yesterday today = Ok y /\
    root_dir_of (Some local_base) today =
      Ok (path_join local_base
            ("v3/" ++ PyStr.str_of_Z (year y) ++ "/" ++ Pandas.pad 2 (month y) ++ "/" ++
             Pandas.pad 2 (day y))) /\
    String.length (Pandas.pad 2 (month y)) = 2 /\
    String.length (Pandas.pad 2 (day y)) = 2 /\
    (exists root_dir, root_dir_of (Some local_base) today = Ok root_dir /\
                      PyStr.startswith local_base root_dir = true).
Proof.
  destruct (yesterday_valid today Hvalid Hnot_first) as (y & E & V).
  exists y. split; [exact E|].
  assert (root_dir_of (Some local_base) today =
          Ok (path_join local_base
                ("v3/" ++ PyStr.str_of_Z (year y) ++ "/" ++ Pandas.pad 2 (month y) ++ "/" ++
                 Pandas.pad 2 (day y)))) as R.
  { unfold root_dir_of, get_yesterday_dir. rewrite E. reflexivity. }
  split; [exact R|].
  destruct V as (Vy & Vm & Vd). pose proof (days_in_month_bounds (year y) (month y)) as B.
  split; [apply two_digits; lia|]. split; [apply two_digits; lia|].
  eexists. split; [exact R|].
  now apply path_join_under.
Qed.

Lemma root_dir_shape_witness :
  valid (mkDate 2024 3 1) /\ mkDate 2024 3 1 <> mkDate 1 1 1 /\
  root_dir_of (Some "/data"%string) (mkDate 2024 3 1) = Ok "/data/v3/2024/02/29"%string /\
  exists y,
    yesterday (mkDate 2024 3 1) = Ok y /\
    root_dir_of (Some "/data"%string) (mkDate 2024 3 1) =
      Ok (path_join "/data"
            ("v3/" ++ PyStr.str_of_Z (year y) ++ "/" ++ Pandas.pad 2 (month y) ++ "/" ++
             Pandas.pad 2 (day y))) /\
    String.length (Pandas.pad 2 (month y)) = 2 /\
    String.length (Pandas.pad 2 (day y)) = 2 /\
    (exists root_dir, root_dir_of (Some "/data"%string) (mkDate 2024 3 1) = Ok root_dir /\
                      PyStr.startswith "/data" root_dir = true).
Proof.
  assert (valid (mkDate 2024 3 1)) as V by (unfold valid; cbn; lia).
  assert (mkDate 2024 3 1 <> mkDate 1 1 1) as N by discriminate.
  split; [exact V|]. split; [exact N|]. split; [reflexivity|].
  exact (root_dir_shape "/data" (mkDate 2024 3 1) V N).
Defined.

(** X18.  The directory the downloader fills is the directory CSV right
    below the root directory the loader walks, for the same day and base
    directory. *)
Theorem download_dir_is_below_root (local_base remote_dir root_dir : string) (today : date)
  (Hremote : get_yesterday_remote_dir today = Ok remote_dir)
  (Hroot : root_dir_of (Some local_base) today = Ok root_dir) :
  path_join local_base (lstrip_slash remote_dir) = (root_dir ++ "/CSV")%string.
Proof.
  unfold get_yesterday_remote_dir, root_dir_of, get_yesterday_dir in *.
  destruct (yesterday today) as [y|e]; [|discriminate Hremote].
  cbn [bind] in *. injection Hremote as <-. injection Hroot as <-.
  unfold v3_dir. cbn [lstrip_slash append Ascii.eqb Bool.eqb].
  unfold path_join. cbn [PyStr.startswith String.prefix].
  destruct (ascii_dec "/" "v"); [discriminate|].
  destruct (String.eqb local_base "" || PyStr.endswith local_base "/");
    rewrite ?CleanerFacts.string_app_assoc; cbn [append];
    rewrite ?CleanerFacts.string_app_assoc; cbn [append];
    rewrite ?CleanerFacts.string_app_assoc; cbn [append];
    rewrite ?CleanerFacts.string_app_assoc; reflexivity.
Qed.

Lemma download_dir_is_below_root_witness :
  get_yesterday_remote_dir (mkDate 2024 3 1) = Ok "/v3/2024/02/29/CSV"%string /\
  root_dir_of (Some "/data"%string) (mkDate 2024 3 1) = Ok "/data/v3/2024/02/29"%string /\
  path_join "/data" (lstrip_slash "/v3/2024/02/29/CSV") = "/data/v3/2024/02/29/CSV"%string.
Proof.
  split; [reflexivity|]. split; [reflexivity|].
  exact (download_dir_is_below_root "/data" "/v3/2024/02/29/CSV" "/data/v3/2024/02/29"
           (mkDate 2024 3 1) eq_refl eq_refl).
Defined.

End DateFacts.

(** ** The downloader *)

Module FtpFacts.
Import Ftp.

(** X19.  Every name the downloader keeps from the server's listing ends
    in ".csv" and is free of "unverified", so the loader's scanner never
    counts a downloaded file as unverified. *)
Theorem kept_names_pass_the_scanner (srv : server) (remote_dir : string)
  (names : list string)
  (H : list_remote_csvs srv remote_dir = Ok names) :
  Forall (fun f => Scanner.is_csv f = true /\ Scanner.is_unverified f = false) names.
Proof.
  unfold list_remote_csvs in H.
  destruct (cwd srv remote_dir); [discriminate H|].
  destruct (nlst srv remote_dir) as [listing|]; [|discriminate H].
  injection H as <-. apply Forall_forall. intros f I.
  apply filter_In in I as (_ & K). unfold keeps in K.
  apply andb_true_iff in K as (C & U). apply negb_true_iff in U. now split.
Qed.

(** *** Files of the target directory *)

Lemma content_of_put_same (name content : string) (files : list (string * string)) :
  content_of name (put name content files) = Some content.
Proof.
  induction files as [|[n c] files IH]; simpl.
  - now rewrite String.eqb_refl.
  - destruct (String.eqb n name) eqn:E; simpl; rewrite E; [reflexivity|exact IH].
Qed.

Lemma content_of_put_other (name other content : string) (files : list (string * string)) :
  other <> name -> content_of name (put other content files) = content_of name files.
Proof.
  intro D. induction files as [|[n c] files IH]; simpl.
  - destruct (String.eqb_spec other name); [contradiction|reflexivity].
  - destruct (String.eqb_spec n other) as [->|Dn]; simpl.
    + destruct (String.eqb_spec other name); [contradiction|reflexivity].
    + destruct (String.eqb n name); [reflexivity|exact IH].
Qed.

Lemma listed_iff (name : string) (files : list (string * string)) :
  existsb (String.eqb name) (map fst files) = true <-> content_of name files <> None.
Proof.
  induction files as [|[n c] files IH]; simpl; [split; [discriminate|congruence]|].
  rewrite (String.eqb_sym name n).
  destruct (String.eqb n name); simpl; [split; [discriminate|reflexivity]|exact IH].
Qed.

(** A plain name that can be opened is the entry of its name. *)
Lemma open_wb_plain (srv : server) (target filename : string) (f : option string) :
  plain filename = true ->
  open_wb srv target filename = Ok f -> f = Some filename.
Proof.
  unfold open_wb. intros P O.
  destruct (opens srv (path_join target filename)); [|discriminate O].
  rewrite P in O. now injection O as <-.
Qed.

(** Whatever the server does, the loop over plain names leaves the listed
    files alone. *)
Lemma loop_keeps_listed (srv : server) (remote_dir target : string)
  (local_files remote_files : list string) (name : string) :
  plain_listing remote_files ->
  existsb (String.eqb name) local_files = true ->
  forall count ss,
    content_of name (local (snd (download_loop srv remote_dir target local_files
                                               remote_files count ss)))
    = content_of name (local ss).
Proof.
  intros Pl L. induction Pl as [|f rest Pf _ IH]; intros count ss; [reflexivity|].
  cbn [download_loop].
  destruct (existsb (String.eqb f) local_files) eqn:E; [now rewrite IH|].
  assert (f <> name) as D by (intros ->; congruence).
  destruct (open_wb srv target f) as [o|e] eqn:O; [|reflexivity].
  apply open_wb_plain in O; [subst o|exact Pf].
  destruct (retr srv remote_dir f) as [bytes [e|]].
  - cbn. now rewrite !content_of_put_other.
  - rewrite IH. cbn. now rewrite !content_of_put_other.
Qed.

(** X20.  The downloader never overwrites: when the listing names files of
    the directory itself, a file that is in the target directory when
    [download_new_files] starts has the same content when it ends, whether
    it returns or raises. *)
Theorem present_files_are_untouched (srv : server)
  (local_base remote_dir name content : string) (remote_files : list string)
  (ss : session)
  (Hplain : plain_listing remote_files)
  (H : content_of name (local ss) = Some content) :
  content_of name (local (snd (download_new_files srv local_base remote_dir
                                                  remote_files ss)))
  = Some content.
Proof.
  unfold download_new_files. rewrite loop_keeps_listed; [exact H|exact Hplain|].
  apply listed_iff. congruence.
Qed.

(** When every file can be opened and every transfer succeeds the loop
    returns, counts the names that were not listed, and leaves under each
    of them what the server sent. *)
Lemma loop_succeeds (srv : server) (remote_dir local_base : string)
  (local_files remote_files : list string) :
  serves srv remote_dir ->
  opens_all srv local_base remote_dir ->
  plain_listing remote_files ->
  forall count ss,
    exists ss',
      download_loop srv remote_dir
                    (path_join local_base (DateDir.lstrip_slash remote_dir))
                    local_files remote_files count ss
      = (Ok (count + missing local_files remote_files), ss') /\
      forall name,
        content_of name (local ss') =
        if existsb (String.eqb name) remote_files
           && negb (existsb (String.eqb name) local_files)
        then Some (fst (retr srv remote_dir name))
        else content_of name (local ss).
Proof.
  intros S A Pl. unfold missing.
  induction Pl as [|f rest Pf _ IH]; intros count ss.
  - exists ss. cbn. rewrite Nat.add_0_r. split; reflexivity.
  - cbn [download_loop filter].
    destruct (existsb (String.eqb f) local_files) eqn:E; cbn [negb].
    + destruct (IH count (print ("Already exists: " ++ f) ss)) as (ss' & R & C).
      exists ss'. split; [exact R|]. intro name. rewrite C. cbn [existsb local print].
      destruct (String.eqb_spec name f) as [->|D]; [|reflexivity].
      rewrite E. cbn. now rewrite andb_false_r.
    + destruct (open_wb srv (path_join local_base (DateDir.lstrip_slash remote_dir)) f)
        as [o|e] eqn:O.
      2:{ unfold open_wb in O. destruct (A f) as (x & Ax). rewrite Ax in O.
          discriminate O. }
      apply open_wb_plain in O; [subst o|exact Pf].
      pose proof (S f) as Sf.
      destruct (retr srv remote_dir f) as [bytes r] eqn:Rf. cbn [snd] in Sf. subst r.
      match goal with
      | |- context [download_loop _ _ _ _ rest ?c ?s0] =>
          destruct (IH c s0) as (ss' & R & C)
      end.
      exists ss'. split.
      * rewrite R. f_equal. f_equal. cbn [List.length]. lia.
      * intro name. rewrite C. cbn [existsb local print write write_opened].
        destruct (String.eqb_spec name f) as [->|D].
        -- rewrite E. cbn [orb negb andb]. rewrite Rf. cbn [fst].
           rewrite content_of_put_same.
           now destruct (existsb (String.eqb f) rest).
        -- cbn [orb]. rewrite !content_of_put_other by congruence. reflexivity.
Qed.

Lemma put_keeps_present (name other content : string) (files : list (string * string)) :
  content_of name files <> None -> content_of name (put other content files) <> None.
Proof.
  intro P. destruct (String.eqb_spec other name) as [->|D].
  - rewrite content_of_put_same. discriminate.
  - now rewrite content_of_put_other.
Qed.

(** A loop over plain names that returns leaves every name of its listing
    in the directory, and takes none away. *)
Lemma loop_returns_present (srv : server) (remote_dir target : string)
  (local_files remote_files : list string) :
  plain_listing remote_files ->
  forall count ss n ss',
    (forall g, existsb (String.eqb g) local_files = true ->
               content_of g (local ss) <> None) ->
    download_loop srv remote_dir target local_files remote_files count ss = (Ok n, ss') ->
    Forall (fun f => content_of f (local ss') <> None) remote_files /\
    (forall g, content_of g (local ss) <> None -> content_of g (local ss') <> None).
Proof.
  induction 1 as [|f rest Pf _ IH]; intros count ss n ss' Listed R.
  - injection R as _ <-. split; [constructor|auto].
  - cbn [download_loop] in R.
    destruct (existsb (String.eqb f) local_files) eqn:E.
    + destruct (IH count (print ("Already exists: " ++ f) ss) n ss' Listed R) as (F & M).
      split; [|exact M]. constructor; [|exact F]. apply M. now apply Listed.
    + destruct (open_wb srv target f) as [o|e] eqn:O; [|discriminate R].
      apply open_wb_plain in O; [subst o|exact Pf].
      destruct (retr srv remote_dir f) as [bytes [e|]] eqn:Rf; [discriminate R|].
      match type of R with
      | download_loop _ _ _ _ _ _ ?s0 = _ =>
          assert (forall g, content_of g (local ss) <> None ->
                            content_of g (local s0) <> None) as Step
      end.
      { intros g P. cbn [local print write write_opened].
        now do 2 apply put_keeps_present. }
      destruct (IH _ _ _ _ (fun g L => Step g (Listed g L)) R) as (F & M).
      split; [|intros g P; exact (M g (Step g P))].
      constructor; [|exact F]. apply M. cbn [local print write write_opened].
      rewrite content_of_put_same. discriminate.
Qed.

(** X21.  When the listing names files of the directory itself, every
    file can be opened and every transfer succeeds, [download_new_files]
    returns the number of names (counted as often as they are listed) that
    were not in the target directory, and afterwards every name of the
    listing is there; a name that was not holds what the server sent. *)
Theorem download_fetches_the_missing (srv : server)
  (local_base remote_dir : string) (remote_files : list string) (ss : session)
  (Hplain : plain_listing remote_files)
  (Hopens : opens_all srv local_base remote_dir)
  (Hserves : serves srv remote_dir) :
  exists ss',
    download_new_files srv local_base remote_dir remote_files ss
    = (Ok (missing (listdir ss) remote_files), ss') /\
    Forall (fun f => content_of f (local ss') <> None) remote_files /\
    Forall (fun f => content_of f (local ss) = None ->
                     content_of f (local ss') = Some (fst (retr srv remote_dir f)))
           remote_files.
Proof.
  unfold download_new_files.
  destruct (loop_succeeds srv remote_dir local_base
              (listdir ss) remote_files Hserves Hopens Hplain 0 ss) as (ss' & R & C).
  exists ss'. split; [exact R|].
  assert (forall f, In f remote_files -> existsb (String.eqb f) remote_files = true) as Here.
  { intros f I. apply existsb_exists. exists f. split; [exact I|apply String.eqb_refl]. }
  split; apply Forall_forall; intros f I; rewrite C, (Here f I); cbn [andb].
  - destruct (existsb (String.eqb f) (listdir ss)) eqn:E; cbn [negb]; [|discriminate].
    now apply listed_iff.
  - intro N. destruct (existsb (String.eqb f) (listdir ss)) eqn:E; cbn [negb]; [|reflexivity].
    apply listed_iff in E. contradiction.
Qed.

(** A loop over names that are all listed touches no file. *)
Lemma loop_all_listed (srv : server) (remote_dir target : string)
  (local_files remote_files : list string) :
  Forall (fun f => existsb (String.eqb f) local_files = true) remote_files ->
  forall count ss,
    exists ss',
      download_loop srv remote_dir target local_files remote_files count ss
      = (Ok count, ss') /\ local ss' = local ss.
Proof.
  induction 1 as [|f rest Hf _ IH]; intros count ss.
  - exists ss. split; reflexivity.
  - cbn [download_loop]. rewrite Hf.
    destruct (IH count (print ("Already exists: " ++ f) ss)) as (ss' & R & L).
    exists ss'. split; [exact R|exact L].
Qed.

(** X22.  A second run downloads nothing: when the listing names files
    of the directory itself, after a [download_new_files] that returned,
    the same listing, with whatever server, gives 0 and leaves the files
    as they are. *)
Theorem second_download_is_empty (srv srv2 : server)
  (local_base remote_dir : string) (remote_files : list string) (ss ss1 : session)
  (n : nat)
  (Hplain : plain_listing remote_files)
  (Hfirst : download_new_files srv local_base remote_dir remote_files ss = (Ok n, ss1)) :
  exists ss2,
    download_new_files srv2 local_base remote_dir remote_files ss1 = (Ok 0, ss2) /\
    local ss2 = local ss1.
Proof.
  unfold download_new_files in *.
  destruct (loop_returns_present _ _ _ _ _ Hplain _ _ _ _
              (fun g L => proj1 (listed_iff g (local ss)) L) Hfirst) as (F & _).
  apply loop_all_listed.
  revert F. apply Forall_impl. intros f P. now apply listed_iff.
Qed.

(** X23.  A transfer that breaks off is never repaired: the file, named
    plainly and opened before the transfer, keeps the part that arrived,
    and because its name is then in the directory, no later
    [download_new_files], with whatever server and listing of plain names,
    changes it. *)
Theorem broken_transfer_is_never_repaired (srv srv2 : server)
  (local_base remote_dir filename bytes : string) (e : exn) (f : option string)
  (rest later_files : list string) (ss : session)
  (Hname : plain filename = true)
  (Hlater : plain_listing later_files)
  (Hnew : content_of filename (local ss) = None)
  (Hopen : opens srv (path_join (path_join local_base (DateDir.lstrip_slash remote_dir))
                                filename) = Ok f)
  (Hbreak : retr srv remote_dir filename = (bytes, Some e)) :
  exists ss',
    download_new_files srv local_base remote_dir (filename :: rest) ss = (Raise e, ss') /\
    content_of filename (local ss') = Some bytes /\
    content_of filename
      (local (snd (download_new_files srv2 local_base remote_dir later_files ss')))
    = Some bytes.
Proof.
  assert (existsb (String.eqb filename) (listdir ss) = false) as N.
  { destruct (existsb (String.eqb filename) (listdir ss)) eqn:E; [|reflexivity].
    apply listed_iff in E. contradiction. }
  unfold download_new_files at 1. cbn [download_loop]. unfold open_wb.
  rewrite N, Hopen, Hname, Hbreak.
  eexists. split; [reflexivity|].
  assert (content_of filename
            (local (write filename bytes
                      (print ("Downloading " ++ filename ++ " to " ++
                              path_join (path_join local_base
                                           (DateDir.lstrip_slash remote_dir)) filename
                              ++ "...")
                         (write filename "" ss)))) = Some bytes) as C.
  { cbn [local write print]. apply content_of_put_same. }
  split; [exact C|].
  unfold download_new_files. rewrite loop_keeps_listed; [exact C|exact Hlater|].
  apply listed_iff. cbn [write_opened]. rewrite C. discriminate.
Qed.

(** *** The log of the downloader *)

Lemma loop_log (srv : server) (remote_dir target : string)
  (local_files remote_files : list string) :
  forall count ss,
    ftp_log (snd (download_loop srv remote_dir target local_files remote_files count ss))
    = ftp_log ss /\
    closed (snd (download_loop srv remote_dir target local_files remote_files count ss))
    = closed ss.
Proof.
  induction remote_files as [|f rest IH]; intros count ss; [split; reflexivity|].
  cbn [download_loop].
  destruct (existsb (String.eqb f) local_files).
  { destruct (IH count (print ("Already exists: " ++ f) ss)) as (L & C).
    split; [exact L|exact C]. }
  destruct (open_wb srv target f) as [o|e]; [|split; reflexivity].
  destruct (retr srv remote_dir f) as [bytes [e|]].
  { destruct o; split; reflexivity. }
  destruct (IH (count + 1)
               (print ("Downloaded: " ++ f)
                  (write_opened o bytes
                     (print ("Downloading " ++ f ++ " to " ++ path_join target f ++ "...")
                        (write_opened o "" ss))))) as (L & C).
  split; [rewrite L|rewrite C]; now destruct o.
Qed.

Lemma attempt_log (srv : server) (local_base remote_dir : string) (ss : session) :
  ftp_log (snd (attempt srv local_base remote_dir ss)) = ftp_log ss.
Proof.
  unfold attempt.
  destruct (list_remote_csvs srv remote_dir) as [[|f rest]|e]; try reflexivity.
  unfold download_new_files.
  pose proof (loop_log srv remote_dir
                (path_join local_base (DateDir.lstrip_slash remote_dir))
                (listdir ss) (f :: rest) 0 ss) as (L & _).
  destruct (download_loop srv remote_dir
              (path_join local_base (DateDir.lstrip_slash remote_dir))
              (listdir ss) (f :: rest) 0 ss) as [[n|e] ss']; exact L.
Qed.

(** X24.  Once connected, a run whose [quit] goes through always returns,
    with the session closed and exactly one line added to the log file,
    whatever happened to the listing and the transfers in between. *)
Theorem run_closes_and_logs_once (srv : server)
  (local_base remote_dir : string) (ss : session)
  (Hconnect : connect srv = None)
  (Hquit : quit srv = None) :
  exists message ss',
    run srv local_base remote_dir ss = (Ok tt, ss') /\
    closed ss' = true /\
    ftp_log ss' = (ftp_log ss ++ [message])%list.
Proof.
  unfold run. rewrite Hconnect.
  pose proof (attempt_log srv local_base remote_dir
                (print ("Targeting FTP folder: " ++ remote_dir) ss)) as L.
  destruct (attempt srv local_base remote_dir
              (print ("Targeting FTP folder: " ++ remote_dir) ss)) as [message ss1].
  rewrite Hquit. exists message. eexists. split; [reflexivity|].
  split; [reflexivity|]. cbn [ftp_log write_log snd print] in *. now rewrite L.
Qed.

(** X25.  When every file the server offers is already in the target
    directory, the run fetches nothing, leaves the directory as it is and
    logs "Files already exist. No new downloads."; when the server offers
    no file to keep, it logs "No CSV files found on server.". *)
Theorem nothing_new_is_logged (srv : server)
  (local_base remote_dir : string) (names : list string) (ss : session)
  (Hconnect : connect srv = None)
  (Hquit : quit srv = None)
  (Hlist : list_remote_csvs srv remote_dir = Ok names)
  (Hpresent : Forall (fun f => content_of f (local ss) <> None) names) :
  exists ss',
    run srv local_base remote_dir ss = (Ok tt, ss') /\
    local ss' = local ss /\
    ftp_log ss' =
      (ftp_log ss ++ [match names with
                      | [] => "No CSV files found on server."
                      | _ :: _ => "Files already exist. No new downloads."
                      end])%list.
Proof.
  unfold run, attempt. rewrite Hconnect, Hlist.
  destruct names as [|f rest].
  - rewrite Hquit. eexists. split; [reflexivity|]. split; reflexivity.
  - unfold download_new_files.
    destruct (loop_all_listed srv remote_dir
                (path_join local_base (DateDir.lstrip_slash remote_dir))
                (listdir (print ("Targeting FTP folder: " ++ remote_dir) ss))
                (f :: rest)) with (count := 0)
                (ss := print ("Targeting FTP folder: " ++ remote_dir) ss)
      as (ss1 & R & L).
    { revert Hpresent. apply Forall_impl. intros g P. now apply listed_iff. }
    rewrite R, Hquit. eexists. split; [reflexivity|].
    cbn [local ftp_log write_log]. split; [exact L|].
    pose proof (loop_log srv remote_dir
                  (path_join local_base (DateDir.lstrip_slash remote_dir))
                  (listdir (print ("Targeting FTP folder: " ++ remote_dir) ss))
                  (f :: rest) 0 (print ("Targeting FTP folder: " ++ remote_dir) ss))
      as (G & _).
    rewrite R in G. cbn [snd] in G. now rewrite G.
Qed.

End FtpFacts.

(** ** A file that is loaded *)

Section LoadedFacts.
Import Pandas Spec CleanerFacts.

Variable w : world.

Lemma clean_data_index_len
  (parse_dates : column -> list (option timestamp)) (df df' : frame) :
  clean_data parse_dates df = Ok df' -> index_len df' = index_len df.
Proof.
  unfold clean_data. intro H.
  bind_ok H d Hd. bind_ok H d' Hd'. bind_ok H df2 H2.
  bind_ok H g Hg. bind_ok H g' Hg'. bind_ok H p Hp. bind_ok H r Hr.
  destruct (clean_time_frame _ _ H2) as (I2 & _).
  destruct (stringify_lookup _ _ "RowID" H) as (I3 & _).
  rewrite I3. cbn [setitem index_len]. rewrite I2. reflexivity.
Qed.

(** X26.  A file that reads, starts with Level "D1", cleans, and is taken
    by the store leaves one line with the number of rows of the file as
    read, adds that number to the total and the cleaned table to the
    store. *)
Theorem loaded_file_is_counted
  (total : nat) (file_path : string) (s : state (DB w)) (df df' : frame) (db' : DB w)
  (Hread : read_csv w file_path = Ok df)
  (Hlevel : first_level df = Ok (SObj (OStr "D1")))
  (Hclean : clean_data (parse_dates w) df = Ok df')
  (Hsql : to_sql w (db s) (table w) df' = (db', None)) :
  process_file w total file_path s =
  (Ok (total + index_len df),
   mkState (log s ++ [(INFO, (file_path ++ " → Inserted " ++
                              PyStr.str_of_nat (index_len df) ++ " rows")%string)])%list
           db' (inserts s ++ [(df', None)])%list).
Proof.
  rewrite process_file_cases. unfold prepare. rewrite Hread. cbn [bind].
  rewrite Hlevel. cbn [bind ne_D1 String.eqb Ascii.eqb Bool.eqb negb andb].
  rewrite Hclean. cbn [bind].
  rewrite insert_to_db_cases, Hsql.
  now rewrite (clean_data_index_len _ _ _ Hclean).
Qed.

End LoadedFacts.

(** ** The further properties on sample inputs *)

Module Runs2.
Import Pandas Spec Effects CleanSpec Sample Sample2.

Lemma batch_sizes_witness :
  1 < batch_count (repeat "f.csv"%string 101) /\
  List.length (batch (repeat "f.csv"%string 101) 1) = 1 /\
  List.length (batch (repeat "f.csv"%string 101) 1)
  = Nat.min batch_size (List.length (repeat "f.csv"%string 101) - 1 * batch_size) /\
  1 <= List.length (batch (repeat "f.csv"%string 101) 1) <= batch_size.
Proof.
  assert (1 < batch_count (repeat "f.csv"%string 101)) as K by (vm_compute; lia).
  split; [exact K|]. split; [reflexivity|].
  exact (batch_sizes (repeat "f.csv"%string 101) 1 K).
Defined.

Lemma run_log_shape_witness :
  Scanner.csv_files (Scanner.scan (os_walk (root two_games) (root_dir two_games)))
  = ["/data/a.csv"; "/data/b.csv"]%string /\
  exists lines total s',
    main two_games start = (Ok tt, s') /\
    log s' = (log start
              ++ scanner_lines (Scanner.scan (os_walk (root two_games) (root_dir two_games)))
              ++ lines
              ++ [complete_line two_games ["/data/a.csv"; "/data/b.csv"]%string total])%list /\
    List.length lines
    = List.length ["/data/a.csv"; "/data/b.csv"]%string
      + batch_count ["/data/a.csv"; "/data/b.csv"]%string /\
    total = list_sum (map index_len
                          (cleaned two_games ["/data/a.csv"; "/data/b.csv"]%string)).
Proof.
  split; [reflexivity|].
  exact (run_log_shape two_games start "/data/a.csv" ["/data/b.csv"]%string eq_refl).
Defined.

Lemma duplicate_key_is_named_witness :
  has_char ")" "G1_9" = false /\
  has_char Re.newline "G1_9" = false /\
  PyStr.contains "The duplicate key value is ("
    ("Violation of PRIMARY KEY constraint 'PK_pitches'. " ++ "The duplicate key value is ")
  = false /\
  to_sql two_games (db holding_game_a) (table two_games) cleaned_game_b
  = (["G1_7"; "G1_8"; "G1_9"]%string, Some duplicate_error) /\
  log (snd (insert_to_db two_games cleaned_game_b "/data/b.csv" holding_game_a))
  = [(ERROR, "Integrity error: Duplicate key 'G1_9' in /data/b.csv"%string)].
Proof.
  split; [reflexivity|]. split; [reflexivity|]. split; [reflexivity|].
  split; [reflexivity|].
  rewrite (duplicate_key_is_named two_games cleaned_game_b "/data/b.csv"
             "Violation of PRIMARY KEY constraint 'PK_pitches'. " "G1_9" "."
             "(pyodbc.IntegrityError) Violation of PRIMARY KEY constraint"
             holding_game_a ["G1_7"; "G1_8"; "G1_9"]%string
             eq_refl eq_refl eq_refl eq_refl).
  reflexivity.
Defined.

Lemma discovery_stays_under_root_witness :
  root two_games = Some (Dir ["a.csv"; "b.csv"]%string []) /\
  plain_names (Dir ["a.csv"; "b.csv"]%string []) = true /\
  exists files,
    fst (list_csv_files two_games start) = Ok files /\
    Forall (fun p => PyStr.startswith (root_dir two_games) p = true /\
                     Scanner.is_csv p = true) files.
Proof.
  split; [reflexivity|]. split; [reflexivity|].
  exact (discovery_stays_under_root two_games start (Dir ["a.csv"; "b.csv"]%string [])
           eq_refl eq_refl).
Defined.

Lemma loaded_file_is_counted_witness :
  read_csv two_games "/data/b.csv" = Ok game_b /\
  first_level game_b = Ok (SObj (OStr "D1")) /\
  clean_data (parse_dates two_games) game_b = Ok cleaned_game_b /\
  to_sql two_games (db start) (table two_games) cleaned_game_b
  = (["G1_9"; "G1_10"]%string, None) /\
  process_file two_games 0 "/data/b.csv" start =
  (Ok 2,
   mkState [(INFO, "/data/b.csv → Inserted 2 rows"%string)]
           ["G1_9"; "G1_10"]%string [(cleaned_game_b, None)]).
Proof.
  split; [reflexivity|]. split; [reflexivity|]. split; [reflexivity|].
  split; [reflexivity|].
  exact (loaded_file_is_counted two_games 0 "/data/b.csv" start game_b cleaned_game_b
           ["G1_9"; "G1_10"]%string eq_refl eq_refl eq_refl eq_refl).
Defined.

Lemma good_server_serves : Ftp.serves good_server "/v3/2024/02/29/CSV".
Proof. intro filename. reflexivity. Defined.

Lemma good_server_opens : Ftp.opens_all good_server "/data" "/v3/2024/02/29/CSV".
Proof. intro filename. exists None. reflexivity. Defined.

Lemma two_plain_names : Ftp.plain_listing ["a.csv"; "c.CSV"]%string.
Proof. repeat constructor. Defined.

Lemma kept_names_pass_the_scanner_witness :
  Ftp.list_remote_csvs good_server "/v3/2024/02/29/CSV" = Ok ["a.csv"; "c.CSV"]%string /\
  Forall (fun f => Scanner.is_csv f = true /\ Scanner.is_unverified f = false)
         ["a.csv"; "c.CSV"]%string.
Proof.
  split; [reflexivity|].
  exact (FtpFacts.kept_names_pass_the_scanner good_server "/v3/2024/02/29/CSV"
           ["a.csv"; "c.CSV"]%string eq_refl).
Defined.

Lemma present_files_are_untouched_witness :
  Ftp.plain_listing ["a.csv"; "c.CSV"]%string /\
  Ftp.content_of "a.csv" (Ftp.local filled) = Some "bytes of a.csv"%string /\
  Ftp.content_of "a.csv"
    (Ftp.local (snd (Ftp.download_new_files broken_server "/data" "/v3/2024/02/29/CSV"
                                            ["a.csv"; "c.CSV"]%string filled)))
  = Some "bytes of a.csv"%string.
Proof.
  split; [exact two_plain_names|]. split; [reflexivity|].
  exact (FtpFacts.present_files_are_untouched broken_server "/data" "/v3/2024/02/29/CSV"
           "a.csv" "bytes of a.csv" ["a.csv"; "c.CSV"]%string filled
           two_plain_names eq_refl).
Defined.

Lemma download_fetches_the_missing_witness :
  Ftp.plain_listing ["a.csv"; "c.CSV"]%string /\
  Ftp.opens_all good_server "/data" "/v3/2024/02/29/CSV" /\
  Ftp.serves good_server "/v3/2024/02/29/CSV" /\
  exists ss',
    Ftp.download_new_files good_server "/data" "/v3/2024/02/29/CSV"
                           ["a.csv"; "c.CSV"]%string fresh
    = (Ok (Ftp.missing (Ftp.listdir fresh) ["a.csv"; "c.CSV"]%string), ss') /\
    Forall (fun f => Ftp.content_of f (Ftp.local ss') <> None) ["a.csv"; "c.CSV"]%string /\
    Forall (fun f => Ftp.content_of f (Ftp.local fresh) = None ->
                     Ftp.content_of f (Ftp.local ss')
                     = Some (fst (Ftp.retr good_server "/v3/2024/02/29/CSV" f)))
           ["a.csv"; "c.CSV"]%string.
Proof.
  split; [exact two_plain_names|]. split; [exact good_server_opens|].
  split; [exact good_server_serves|].
  exact (FtpFacts.download_fetches_the_missing good_server "/data" "/v3/2024/02/29/CSV"
           ["a.csv"; "c.CSV"]%string fresh
           two_plain_names good_server_opens good_server_serves).
Defined.

Lemma second_download_is_empty_witness :
  Ftp.plain_listing ["a.csv"; "c.CSV"]%string /\
  exists n ss1 ss2,
    Ftp.download_new_files good_server "/data" "/v3/2024/02/29/CSV"
                           ["a.csv"; "c.CSV"]%string fresh = (Ok n, ss1) /\
    Ftp.download_new_files broken_server "/data" "/v3/2024/02/29/CSV"
                           ["a.csv"; "c.CSV"]%string ss1 = (Ok 0, ss2) /\
    Ftp.local ss2 = Ftp.local ss1.
Proof.
  split; [exact two_plain_names|].
  destruct (Ftp.download_new_files good_server "/data" "/v3/2024/02/29/CSV"
              ["a.csv"; "c.CSV"]%string fresh) as [[n|e] ss1] eqn:E;
    [|vm_compute in E; discriminate E].
  destruct (FtpFacts.second_download_is_empty good_server broken_server "/data"
              "/v3/2024/02/29/CSV" ["a.csv"; "c.CSV"]%string fresh ss1 n
              two_plain_names E)
    as (ss2 & R & L).
  exists n, ss1, ss2. split; [reflexivity|]. split; [exact R|exact L].
Defined.

Lemma broken_transfer_is_never_repaired_witness :
  Ftp.plain "a.csv" = true /\
  Ftp.plain_listing ["a.csv"; "c.CSV"]%string /\
  Ftp.content_of "a.csv" (Ftp.local fresh) = None /\
  Ftp.opens broken_server "/data/v3/2024/02/29/CSV/a.csv" = Ok None /\
  Ftp.retr broken_server "/v3/2024/02/29/CSV" "a.csv"
  = ("byt"%string, Some (OtherException "timed out")) /\
  exists ss',
    Ftp.download_new_files broken_server "/data" "/v3/2024/02/29/CSV"
                           ["a.csv"; "c.CSV"]%string fresh
    = (Raise (OtherException "timed out"), ss') /\
    Ftp.content_of "a.csv" (Ftp.local ss') = Some "byt"%string /\
    Ftp.content_of "a.csv"
      (Ftp.local (snd (Ftp.download_new_files good_server "/data" "/v3/2024/02/29/CSV"
                                              ["a.csv"; "c.CSV"]%string ss')))
    = Some "byt"%string.
Proof.
  split; [reflexivity|]. split; [exact two_plain_names|].
  split; [reflexivity|]. split; [reflexivity|]. split; [reflexivity|].
  exact (FtpFacts.broken_transfer_is_never_repaired broken_server good_server "/data"
           "/v3/2024/02/29/CSV" "a.csv" "byt" (OtherException "timed out") None
           ["c.CSV"]%string ["a.csv"; "c.CSV"]%string fresh
           eq_refl two_plain_names eq_refl eq_refl eq_refl).
Defined.

Lemma run_closes_and_logs_once_witness :
  Ftp.connect broken_server = None /\ Ftp.quit broken_server = None /\
  exists message ss',
    Ftp.run broken_server "/data" "/v3/2024/02/29/CSV" fresh = (Ok tt, ss') /\
    Ftp.closed ss' = true /\
    Ftp.ftp_log ss' = (Ftp.ftp_log fresh ++ [message])%list.
Proof.
  split; [reflexivity|]. split; [reflexivity|].
  exact (FtpFacts.run_closes_and_logs_once broken_server "/data" "/v3/2024/02/29/CSV"
           fresh eq_refl eq_refl).
Defined.

Lemma filled_has_all :
  Forall (fun f => Ftp.content_of f (Ftp.local filled) <> None) ["a.csv"; "c.CSV"]%string.
Proof. repeat constructor; discriminate. Defined.

Lemma nothing_new_is_logged_witness :
  Ftp.connect good_server = None /\ Ftp.quit good_server = None /\
  Ftp.list_remote_csvs good_server "/v3/2024/02/29/CSV" = Ok ["a.csv"; "c.CSV"]%string /\
  Forall (fun f => Ftp.content_of f (Ftp.local filled) <> None) ["a.csv"; "c.CSV"]%string /\
  exists ss',
    Ftp.run good_server "/data" "/v3/2024/02/29/CSV" filled = (Ok tt, ss') /\
    Ftp.local ss' = Ftp.local filled /\
    Ftp.ftp_log ss' = ["Files already exist. No new downloads."%string].
Proof.
  split; [reflexivity|]. split; [reflexivity|]. split; [reflexivity|].
  split; [exact filled_has_all|].
  exact (FtpFacts.nothing_new_is_logged good_server "/data" "/v3/2024/02/29/CSV"
           ["a.csv"; "c.CSV"]%string filled eq_refl eq_refl eq_refl filled_has_all).
Defined.

End Runs2.
